(** * tnp_calender: a command-line calendar client (main.go)

    A shallow embedding of [main.go].  First the parts that carry the
    specification's invariants: the time validator [parseTime], the
    calendar selector [selectCalendar], the event operations
    [createEvent], [updateEvent], [deleteEvent] and the credential store
    [saveToken] / [tokenFromFile].  Then the rest of the program: the
    path of the token file ([getTokenFilePath]), the OAuth exchange
    ([getClient], [getTokenFromWeb]), the two read-only operations
    ([listEvents], [getEvent]) and the menu in [main].

    Conventions.
    - Go strings are byte strings: [string] of [ascii].
    - Go [int] is 64 bits wide; the values the program computes with stay
      far inside that range, the one place where the range matters
      ([strconv.ParseInt] inside [fmt.Sscanf]) checks it explicitly.
    - A Go function returning [(T, error)] becomes a computation in the
      monad [M], which threads the [World] (terminal, remote call log,
      file system) and stops at the first error.
    - The standard library functions the program calls ([strings],
      [fmt.Sscanf], [time.Parse], [Time.Format], [Time.Before]) are
      modelled after their Go implementation, specialised to the two
      layouts the program uses. *)

From Stdlib Require Import ZArith String Ascii List Bool Lia.
From stdpp Require Import base strings gmap.

Import ListNotations.
Local Open Scope string_scope.
Local Open Scope Z_scope.

(* ===================================================================== *)
(** * Errors and results *)
(* ===================================================================== *)

(** Go's [error] values.  [Errorf msg] is [fmt.Errorf(msg)] and
    [Wrapf msg e] is [fmt.Errorf(msg + "%w", e)], whose message is [msg]
    followed by the message of [e].  The messages of the library errors
    are kept short: the program only passes them on. *)
Inductive error : Type :=
| EOF                                            (* io.EOF *)
| ScanError (msg : string)                       (* package fmt, scanning *)
| ParseError (layout value msg : string)         (* *time.ParseError *)
| PathError (op path msg : string)               (* *fs.PathError *)
| CodecError (msg : string)                      (* encoding/json *)
| RemoteError (msg : string)                     (* googleapi *)
| Errorf (msg : string)
| Wrapf (msg : string) (wrapped : error).

Fixpoint Error (e : error) : string :=
  match e with
  | EOF => "EOF"
  | ScanError msg => msg
  | ParseError layout value msg =>
      "parsing time " +:+ value +:+ " as " +:+ layout +:+ msg
  | PathError op path msg => op +:+ " " +:+ path +:+ ": " +:+ msg
  | CodecError msg => msg
  | RemoteError msg => msg
  | Errorf msg => msg
  | Wrapf msg w => msg +:+ Error w
  end.

Inductive Result (A : Type) : Type :=
| Ok (a : A)
| Err (e : error).
Arguments Ok {A} a.
Arguments Err {A} e.

Definition isOk {A} (r : Result A) : bool :=
  match r with Ok _ => true | Err _ => false end.

(* ===================================================================== *)
(** * Byte and string helpers (packages [strings], [strconv]) *)
(* ===================================================================== *)

Definition byte (c : ascii) : Z := Z.of_nat (nat_of_ascii c).

Definition isDigitChar (c : ascii) : bool := (48 <=? byte c) && (byte c <=? 57).

Definition digitVal (c : ascii) : Z := byte c - 48.

Definition digitChar (d : Z) : ascii := ascii_of_nat (Z.to_nat (48 + d)).

(** The white space of [unicode.IsSpace] that fits in one byte of a
    UTF-8 string: tab, line feed, vertical tab, form feed, carriage
    return and space. *)
Definition isSpace (c : ascii) : bool :=
  let b := byte c in ((9 <=? b) && (b <=? 13)) || (b =? 32).

(** The white space of [unicode.IsSpace] that takes two bytes in UTF-8:
    U+0085 (C2 85) and U+00A0 (C2 A0). *)
Definition isSpace2 (a b : ascii) : bool :=
  (byte a =? 194) && ((byte b =? 133) || (byte b =? 160)).

(** The white space that takes three bytes: U+1680 (E1 9A 80), U+2000
    to U+200A (E2 80 80 to E2 80 8A), U+2028, U+2029 and U+202F
    (E2 80 A8, A9, AF), U+205F (E2 81 9F) and U+3000 (E3 80 80). *)
Definition isSpace3 (a b c : ascii) : bool :=
  ((byte a =? 225) && (byte b =? 154) && (byte c =? 128))
  || ((byte a =? 226) && (byte b =? 128)
      && (((128 <=? byte c) && (byte c <=? 138))
          || (byte c =? 168) || (byte c =? 169) || (byte c =? 175)))
  || ((byte a =? 226) && (byte b =? 129) && (byte c =? 159))
  || ((byte a =? 227) && (byte b =? 128) && (byte c =? 128)).

Definition nl : string := String (ascii_of_nat 10) EmptyString.

(** [s] without the white-space rune at its front, if it starts with
    one.  [utf8.DecodeRuneInString] yields a white-space rune exactly
    when the text starts with the encoding of one: every other start,
    valid or not, is another rune or [utf8.RuneError]. *)
Definition cutSpace (s : string) : option string :=
  match s with
  | String a r =>
      if isSpace a then Some r
      else match r with
           | String b r' =>
               if isSpace2 a b then Some r'
               else match r' with
                    | String c r'' => if isSpace3 a b c then Some r'' else None
                    | EmptyString => None
                    end
           | EmptyString => None
           end
  | EmptyString => None
  end.

(** [strings.TrimLeftFunc(s, unicode.IsSpace)] *)
Fixpoint TrimLeftSpace (s : string) : string :=
  match s with
  | String a r =>
      if isSpace a then TrimLeftSpace r
      else match r with
           | String b r' =>
               if isSpace2 a b then TrimLeftSpace r'
               else match r' with
                    | String c r'' => if isSpace3 a b c then TrimLeftSpace r'' else s
                    | EmptyString => s
                    end
           | EmptyString => s
           end
  | EmptyString => EmptyString
  end.

(** The same from the end, on the bytes of the text in reverse order.
    [utf8.DecodeLastRuneInString] yields a white-space rune exactly when
    the text ends in the encoding of one: the bytes after the first of
    such an encoding are continuation bytes, so the search for the start
    of the last rune stops at its first byte. *)
Definition cutSpaceRev (bs : list ascii) : option (list ascii) :=
  match bs with
  | c :: r =>
      if isSpace c then Some r
      else match r with
           | b :: r' =>
               if isSpace2 b c then Some r'
               else match r' with
                    | a :: r'' => if isSpace3 a b c then Some r'' else None
                    | [] => None
                    end
           | [] => None
           end
  | [] => None
  end.

Fixpoint trimSpaceRev (bs : list ascii) : list ascii :=
  match bs with
  | c :: r =>
      if isSpace c then trimSpaceRev r
      else match r with
           | b :: r' =>
               if isSpace2 b c then trimSpaceRev r'
               else match r' with
                    | a :: r'' => if isSpace3 a b c then trimSpaceRev r'' else bs
                    | [] => bs
                    end
           | [] => bs
           end
  | [] => []
  end.

(** [strings.TrimRightFunc(s, unicode.IsSpace)] *)
Definition TrimRightSpace (s : string) : string :=
  string_of_list_ascii (rev (trimSpaceRev (rev (list_ascii_of_string s)))).

(** [strings.TrimSpace]: the white-space runes at both ends go, ASCII
    or not; its short cut for ASCII margins gives the same text. *)
Definition TrimSpace (s : string) : string := TrimRightSpace (TrimLeftSpace s).

Definition lowerChar (c : ascii) : ascii :=
  let b := byte c in
  if (65 <=? b) && (b <=? 90) then ascii_of_nat (Z.to_nat (b + 32)) else c.

(** [strings.ToLower], on the letters A to Z; bytes outside ASCII are
    kept. *)
Fixpoint ToLower (s : string) : string :=
  match s with
  | String c r => String (lowerChar c) (ToLower r)
  | EmptyString => EmptyString
  end.

Definition len (s : string) : Z := Z.of_nat (String.length s).

(** Decimal digits of a non-negative number, most significant first. *)
Fixpoint utoa_aux (fuel : nat) (n : Z) (acc : string) : string :=
  let acc' := String (digitChar (n mod 10)) acc in
  match fuel with
  | O => acc'
  | S f => if n <? 10 then acc' else utoa_aux f (n / 10) acc'
  end.

Definition utoa (n : Z) : string := utoa_aux (Z.to_nat (Z.log2 n)) n EmptyString.

(** [strconv.Itoa], the [%d] verb of [fmt.Printf] *)
Definition itoa (n : Z) : string :=
  if n <? 0 then String "-" (utoa (- n)) else utoa n.

(** Value of a string of decimal digits; [None] on any other byte and on
    the empty string, as [strconv.ParseUint(s, 10, _)] reports a syntax
    error there. *)
Fixpoint parseDigits (s : string) (acc : Z) : option Z :=
  match s with
  | String c r =>
      if isDigitChar c
      then match r with
           | EmptyString => Some (acc * 10 + digitVal c)
           | _ => parseDigits r (acc * 10 + digitVal c)
           end
      else None
  | EmptyString => None
  end.

Definition minInt64 : Z := - 2 ^ 63.
Definition maxInt64 : Z := 2 ^ 63 - 1.

(** [strconv.ParseInt(s, 10, 64)] *)
Definition ParseInt (s : string) : Result Z :=
  let '(neg, digits) :=
    match s with
    | String "+" r => (false, r)
    | String "-" r => (true, r)
    | _ => (false, s)
    end in
  match parseDigits digits 0 with
  | None => Err (ScanError "strconv.ParseInt: invalid syntax")
  | Some u =>
      let v := if neg then - u else u in
      if (minInt64 <=? v) && (v <=? maxInt64) then Ok v
      else Err (ScanError "strconv.ParseInt: value out of range")
  end.

(* ===================================================================== *)
(** * Package [time]: instants, the two layouts, parsing and formatting *)
(* ===================================================================== *)

Module time.

(** A [time.Time]: [sec] counts the seconds since January 1 of year 1,
    00:00:00 UTC (the epoch of Go's zero [Time]), [nsec] the nanoseconds
    within that second and [offset] the seconds east of UTC of the
    time's [Location], which only matters for display. *)
Record Time : Type := mkTime { sec : Z; nsec : Z; offset : Z }.

(** [Time{}] *)
Definition zero : Time := mkTime 0 0 0.

(** [t.Before(u)] and [t.Equal(u)] compare instants, not locations. *)
Definition Before (t u : Time) : bool :=
  (sec t <? sec u) || ((sec t =? sec u) && (nsec t <? nsec u)).

Definition Equal (t u : Time) : bool :=
  (sec t =? sec u) && (nsec t =? nsec u).

Definition secondsPerDay : Z := 86400.
Definition daysPer400Years : Z := 365 * 400 + 97.
Definition daysPer100Years : Z := 365 * 100 + 24.
Definition daysPer4Years : Z := 365 * 4 + 1.

Definition isLeap (year : Z) : bool :=
  (year mod 4 =? 0) && (negb (year mod 100 =? 0) || (year mod 400 =? 0)).

(** [daysBefore[m]]: days in a non-leap year before month [m+1]. *)
Definition daysBefore (m : Z) : Z :=
  nth (Z.to_nat m) [0; 31; 59; 90; 120; 151; 181; 212; 243; 273; 304; 334; 365] 365.

Definition daysIn (month year : Z) : Z :=
  if (month =? 2) && isLeap year then 29
  else daysBefore month - daysBefore (month - 1).

(** Days from January 1 of year 1 to January 1 of [year]. *)
Definition daysSinceEpoch (year : Z) : Z :=
  let y := year - 1 in
  let n400 := y / 400 in
  let y := y - 400 * n400 in
  let n100 := y / 100 in
  let y := y - 100 * n100 in
  let n4 := y / 4 in
  let y := y - 4 * n4 in
  daysPer400Years * n400 + daysPer100Years * n100 + daysPer4Years * n4 + 365 * y.

(** Days from January 1 of year 1 to the given date: the days before
    the year, before the month, the leap day once February is over, and
    the days before the day. *)
Definition dayNumber (year month day : Z) : Z :=
  daysSinceEpoch year + daysBefore (month - 1)
  + (if isLeap year && (3 <=? month) then 1 else 0)
  + (day - 1).

(** [time.Date(year, month, day, hour, min, sec, nsec, time.UTC)] on
    arguments that are in range already, which is how [Parse] calls it
    (it checks every field first), so that the normalisation of
    overflowing fields has nothing to do. *)
Definition Date (year month day hour min sec nsec : Z) : Time :=
  mkTime (dayNumber year month day * secondsPerDay + hour * 3600 + min * 60 + sec)
    nsec 0.

(** The civil reading of an instant, as [Time.Format] computes it:
    [absDate] splits the day count into 400-, 100-, 4- and 1-year
    cycles, then finds month and day from the day of the year. *)
Definition absYear (days : Z) : Z * Z :=
  let n400 := days / daysPer400Years in
  let d := days - daysPer400Years * n400 in
  let n100 := d / daysPer100Years in
  let n100 := n100 - Z.shiftr n100 2 in
  let d := d - daysPer100Years * n100 in
  let n4 := d / daysPer4Years in
  let d := d - daysPer4Years * n4 in
  let n := d / 365 in
  let n := n - Z.shiftr n 2 in
  let d := d - 365 * n in
  (1 + 400 * n400 + 100 * n100 + 4 * n4 + n, d).

(** Month and day of the month from the day of the year ([yday] counts
    from 0). *)
Definition monthDay (leap : bool) (yday : Z) : Z * Z :=
  if leap && (yday =? 31 + 29 - 1) then (2, 29)
  else
    let day := if leap && (31 + 29 - 1 <? yday) then yday - 1 else yday in
    let month := day / 31 in
    let e := daysBefore (month + 1) in
    if e <=? day then (month + 2, day - e + 1)
    else (month + 1, day - daysBefore month + 1).

Definition absDate (days : Z) : Z * Z * Z :=
  let '(year, yday) := absYear days in
  let '(month, day) := monthDay (isLeap year) yday in
  (year, month, day).

Record Civil : Type := mkCivil {
  year : Z; month : Z; day : Z; hour : Z; minute : Z; second : Z
}.

(** The fields [Time.Format] prints: the civil date and clock of the
    instant in the time's own location. *)
Definition civil (t : Time) : Civil :=
  let abs := sec t + offset t in
  let '(y, m, d) := absDate (abs / secondsPerDay) in
  let tod := abs mod secondsPerDay in
  mkCivil y m d (tod / 3600) (tod mod 3600 / 60) (tod mod 60).

(** ** Layouts *)

Definition RFC3339 : string := "2006-01-02T15:04:05Z07:00".

(** The layout elements ("std chunks") that occur in the program's two
    layouts; everything else in a layout is literal text. *)
Inductive chunk : Type :=
| Lit (c : ascii)
| stdLongYear          (* 2006 *)
| stdZeroMonth         (* 01 *)
| stdZeroDay           (* 02 *)
| stdHour              (* 15 *)
| stdZeroMinute        (* 04 *)
| stdZeroSecond        (* 05 *)
| stdISO8601ColonTZ.   (* Z07:00 *)

Definition stdTable : list (string * chunk) :=
  [ ("2006", stdLongYear); ("01", stdZeroMonth); ("02", stdZeroDay);
    ("15", stdHour); ("04", stdZeroMinute); ("05", stdZeroSecond);
    ("Z07:00", stdISO8601ColonTZ) ].

Fixpoint dropPrefix (p s : string) : option string :=
  match p, s with
  | EmptyString, _ => Some s
  | String a p', String b s' => if Ascii.eqb a b then dropPrefix p' s' else None
  | String _ _, EmptyString => None
  end.

Fixpoint lookupStd (tbl : list (string * chunk)) (layout : string)
  : option (chunk * string) :=
  match tbl with
  | [] => None
  | (p, c) :: tbl' =>
      match dropPrefix p layout with
      | Some rest => Some (c, rest)
      | None => lookupStd tbl' layout
      end
  end.

(** [nextStdChunk], iterated over the whole layout.  The fuel is the
    length of the layout: every step consumes at least one byte. *)
Fixpoint chunksOf (fuel : nat) (layout : string) : list chunk :=
  match fuel, layout with
  | S f, String c rest =>
      match lookupStd stdTable layout with
      | Some (k, rest') => k :: chunksOf f rest'
      | None => Lit c :: chunksOf f rest
      end
  | _, _ => []
  end.

Definition chunks (layout : string) : list chunk :=
  chunksOf (String.length layout) layout.

(** ** Parsing *)

Definition num2 (a b : ascii) : Z := digitVal a * 10 + digitVal b.

(** [getnum]: one or two digits; exactly two when [fixed]. *)
Definition getnum (s : string) (fixed : bool) : option (Z * string) :=
  match s with
  | String a r =>
      if isDigitChar a then
        match r with
        | String b r' =>
            if isDigitChar b then Some (num2 a b, r')
            else if fixed then None else Some (digitVal a, r)
        | EmptyString => if fixed then None else Some (digitVal a, r)
        end
      else None
  | EmptyString => None
  end.

Fixpoint cutspace (s : string) : string :=
  match s with
  | String " " r => cutspace r
  | _ => s
  end.

(** [skip] for a one-byte literal: a space of the layout stands for a
    run of spaces of the value, any other byte for itself. *)
Definition skip (value : string) (c : ascii) : option string :=
  if Ascii.eqb c " " then
    match value with
    | String v _ => if Ascii.eqb v " " then Some (cutspace value) else None
    | EmptyString => Some value
    end
  else
    match value with
    | String v r => if Ascii.eqb v c then Some r else None
    | EmptyString => None
    end.

(** Leading digits of [s] and what follows them. *)
Fixpoint spanDigits (s : string) : string * string :=
  match s with
  | String c r =>
      if isDigitChar c then let '(d, rest) := spanDigits r in (String c d, rest)
      else (EmptyString, s)
  | EmptyString => (EmptyString, EmptyString)
  end.

Fixpoint take (n : nat) (s : string) : string :=
  match n, s with
  | S n', String c r => String c (take n' r)
  | _, _ => EmptyString
  end.

Definition digitsValue (s : string) : Z :=
  match parseDigits s 0 with Some v => v | None => 0 end.

(** [parseNanoseconds] on the digits after the comma or period: at most
    nine digits count, fewer are scaled up. *)
Definition parseNanoseconds (digits : string) : Z :=
  let d := take 9 digits in
  digitsValue d * 10 ^ (9 - len d).

(** What [Parse] has read so far.  [zoneOffset = None]: no offset seen. *)
Record fields : Type := mkFields {
  f_year : Z; f_month : Z; f_day : Z;
  f_hour : Z; f_min : Z; f_sec : Z; f_nsec : Z;
  f_zone : option Z
}.

Definition noFields : fields := mkFields 0 (-1) (-1) 0 0 0 0 None.

Definition set_year (f : fields) (v : Z) : fields :=
  mkFields v (f_month f) (f_day f) (f_hour f) (f_min f) (f_sec f) (f_nsec f) (f_zone f).
Definition set_month (f : fields) (v : Z) : fields :=
  mkFields (f_year f) v (f_day f) (f_hour f) (f_min f) (f_sec f) (f_nsec f) (f_zone f).
Definition set_day (f : fields) (v : Z) : fields :=
  mkFields (f_year f) (f_month f) v (f_hour f) (f_min f) (f_sec f) (f_nsec f) (f_zone f).
Definition set_hour (f : fields) (v : Z) : fields :=
  mkFields (f_year f) (f_month f) (f_day f) v (f_min f) (f_sec f) (f_nsec f) (f_zone f).
Definition set_min (f : fields) (v : Z) : fields :=
  mkFields (f_year f) (f_month f) (f_day f) (f_hour f) v (f_sec f) (f_nsec f) (f_zone f).
Definition set_sec (f : fields) (v : Z) : fields :=
  mkFields (f_year f) (f_month f) (f_day f) (f_hour f) (f_min f) v (f_nsec f) (f_zone f).
Definition set_nsec (f : fields) (v : Z) : fields :=
  mkFields (f_year f) (f_month f) (f_day f) (f_hour f) (f_min f) (f_sec f) v (f_zone f).
Definition set_zone (f : fields) (v : option Z) : fields :=
  mkFields (f_year f) (f_month f) (f_day f) (f_hour f) (f_min f) (f_sec f) (f_nsec f) v.

Definition errBad : string := ": cannot parse value as layout element".
Definition errRange (what : string) : string := ": " +:+ what +:+ " out of range".

(** [stdLongYear]: exactly four digits. *)
Definition parseYear (value : string) (f : fields) : string + (fields * string) :=
  match value with
  | String a (String b (String c (String d rest))) =>
      if isDigitChar a && isDigitChar b && isDigitChar c && isDigitChar d
      then inr (set_year f (num2 a b * 100 + num2 c d), rest)
      else inl errBad
  | _ => inl errBad
  end.

(** [stdZeroSecond]; a fractional second in the value that the layout
    does not mention is read all the same. *)
Definition parseSecond (value : string) (f : fields) : string + (fields * string) :=
  match getnum value true with
  | Some (s, rest) =>
      if (s <? 0) || (60 <=? s) then inl (errRange "second")
      else
        match rest with
        | String p (String q rest') =>
            if (Ascii.eqb p "." || Ascii.eqb p ",") && isDigitChar q then
              let '(ds, rest'') := spanDigits (String q rest') in
              inr (set_nsec (set_sec f s) (parseNanoseconds ds), rest'')
            else inr (set_sec f s, rest)
        | _ => inr (set_sec f s, rest)
        end
  | None => inl errBad
  end.

(** [stdISO8601ColonTZ]: "Z", or a sign, two digits, a colon and two
    digits. *)
Definition parseZone (value : string) (f : fields) : string + (fields * string) :=
  match value with
  | String "Z" rest => inr (set_zone f None, rest)
  | String sign (String h1 (String h2 (String colon (String m1 (String m2 rest))))) =>
      if negb (Ascii.eqb colon ":") then inl errBad
      else if isDigitChar h1 && isDigitChar h2 && isDigitChar m1 && isDigitChar m2 then
        let hr := num2 h1 h2 in
        let mm := num2 m1 m2 in
        if 24 <? hr then inl (errRange "time zone offset hour")
        else if 60 <? mm then inl (errRange "time zone offset minute")
        else
          let off := (hr * 60 + mm) * 60 in
          if Ascii.eqb sign "+" then inr (set_zone f (Some off), rest)
          else if Ascii.eqb sign "-" then inr (set_zone f (Some (- off)), rest)
          else inl errBad
      else inl errBad
  | _ => inl errBad
  end.

(** One layout element against the front of the value, as the loop of
    [time.parse] does it: month, day, minute and second are read by
    [getnum] with [fixed] set (two digits), the hour of element 15 with
    [fixed] unset (one or two digits); month, hour, minute and second
    are checked against their range at once, the day at the end. *)
Definition parseChunk (k : chunk) (value : string) (f : fields)
  : string + (fields * string) :=
  match k with
  | Lit c =>
      match skip value c with
      | Some v => inr (f, v)
      | None => inl errBad
      end
  | stdLongYear => parseYear value f
  | stdZeroMonth =>
      match getnum value true with
      | Some (m, rest) =>
          if (m <=? 0) || (12 <? m) then inl (errRange "month")
          else inr (set_month f m, rest)
      | None => inl errBad
      end
  | stdZeroDay =>
      match getnum value true with
      | Some (d, rest) => inr (set_day f d, rest)
      | None => inl errBad
      end
  | stdHour =>
      match getnum value false with
      | Some (h, rest) =>
          if (h <? 0) || (24 <=? h) then inl (errRange "hour")
          else inr (set_hour f h, rest)
      | None => inl errBad
      end
  | stdZeroMinute =>
      match getnum value true with
      | Some (m, rest) =>
          if (m <? 0) || (60 <=? m) then inl (errRange "minute")
          else inr (set_min f m, rest)
      | None => inl errBad
      end
  | stdZeroSecond => parseSecond value f
  | stdISO8601ColonTZ => parseZone value f
  end.

Fixpoint parseChunks (ks : list chunk) (value : string) (f : fields)
  : string + (fields * string) :=
  match ks with
  | [] => inr (f, value)
  | k :: ks' =>
      match parseChunk k value f with
      | inr (f', value') => parseChunks ks' value' f'
      | inl msg => inl msg
      end
  end.

(** [time.Parse(layout, value)].  Without an offset in the value the
    time is in UTC; with one, the instant is moved by it and the offset
    is kept as the time's location. *)
Definition Parse (layout value : string) : Result Time :=
  match parseChunks (chunks layout) value noFields with
  | inl msg => Err (ParseError layout value msg)
  | inr (f, rest) =>
      match rest with
      | String _ _ => Err (ParseError layout value ": extra text")
      | EmptyString =>
          let m := if f_month f =? -1 then 1 else f_month f in
          let d := if f_day f =? -1 then 1 else f_day f in
          if (d <? 1) || (daysIn m (f_year f) <? d)
          then Err (ParseError layout value ": day out of range")
          else
            let t := Date (f_year f) m d (f_hour f) (f_min f) (f_sec f) (f_nsec f) in
            match f_zone f with
            | None => Ok t
            | Some off => Ok (mkTime (sec t - off) (nsec t) off)
            end
      end
  end.

(** [v, _ := time.Parse(...)]: every failing return of [Parse] carries
    the zero [Time]. *)
Definition valueOf (r : Result Time) : Time :=
  match r with Ok t => t | Err _ => zero end.

(** ** Formatting *)

Fixpoint zeros (n : nat) : string :=
  match n with O => EmptyString | S n' => String "0" (zeros n') end.

Definition twoDigits (u : Z) : string :=
  String (digitChar (u / 10)) (String (digitChar (u mod 10)) EmptyString).

(** [appendInt]: decimal, zero-padded to [width], with a sign for
    negative numbers; fields of two and of four digits take the short
    way. *)
Definition appendInt (x : Z) (width : nat) : string :=
  let u := Z.abs x in
  (if x <? 0 then "-" else "") +:+
  (if Nat.eqb width 2 && (u <? 100) then twoDigits u
   else if Nat.eqb width 4 && (u <? 10000) then twoDigits (u / 100) +:+ twoDigits (u mod 100)
   else let ds := utoa u in zeros (width - String.length ds) +:+ ds).

Definition formatChunk (k : chunk) (t : Time) : string :=
  let c := civil t in
  match k with
  | Lit ch => String ch EmptyString
  | stdLongYear => appendInt (year c) 4
  | stdZeroMonth => appendInt (month c) 2
  | stdZeroDay => appendInt (day c) 2
  | stdHour => appendInt (hour c) 2
  | stdZeroMinute => appendInt (minute c) 2
  | stdZeroSecond => appendInt (second c) 2
  | stdISO8601ColonTZ =>
      if offset t =? 0 then "Z"
      else
        let zone := Z.quot (offset t) 60 in
        (if zone <? 0 then "-" else "+")
          +:+ appendInt (Z.abs zone / 60) 2 +:+ ":" +:+ appendInt (Z.abs zone mod 60) 2
  end.

Fixpoint formatChunks (ks : list chunk) (t : Time) : string :=
  match ks with
  | [] => EmptyString
  | k :: ks' => formatChunk k t +:+ formatChunks ks' t
  end.

(** [t.Format(layout)] *)
Definition Format (t : Time) (layout : string) : string :=
  formatChunks (chunks layout) t.

End time.

(* ===================================================================== *)
(** * Package [fmt]: scanning a decimal integer *)
(* ===================================================================== *)

Module fmt.

(** [ss.SkipSpace] as [Sscanf] runs it: a line feed is not white space
    there but an error. *)
Fixpoint SkipSpace (s : string) : Result string :=
  match s with
  | String a r =>
      if byte a =? 10 then Err (ScanError "unexpected newline")
      else if isSpace a then SkipSpace r
      else match r with
           | String b r' =>
               if isSpace2 a b then SkipSpace r'
               else match r' with
                    | String c r'' => if isSpace3 a b c then SkipSpace r'' else Ok s
                    | EmptyString => Ok s
                    end
           | EmptyString => Ok s
           end
  | EmptyString => Ok EmptyString
  end.

(** The bytes [scanNumber] accepts for the verb [%d]: "0123456789_". *)
Definition isDecimalDigit (c : ascii) : bool := isDigitChar c || Ascii.eqb c "_".

Fixpoint spanNumber (s : string) : string * string :=
  match s with
  | String c r =>
      if isDecimalDigit c then let '(tok, rest) := spanNumber r in (String c tok, rest)
      else (EmptyString, s)
  | EmptyString => (EmptyString, EmptyString)
  end.

(** [ss.scanInt('d', 64)]: the integer that [Sscanf] stores through its
    operand.  Input after the number is left unread. *)
Definition scanInt (str : string) : Result Z :=
  match SkipSpace str with
  | Err e => Err e
  | Ok EmptyString => Err (ScanError "unexpected EOF")
  | Ok (String c r as s) =>
      let '(sign, s') :=
        if Ascii.eqb c "+" || Ascii.eqb c "-" then (String c EmptyString, r)
        else (EmptyString, s) in
      match spanNumber s' with
      | (EmptyString, _) =>
          match s' with
          | EmptyString => Err (ScanError "unexpected EOF")
          | _ => Err (ScanError "expected integer")
          end
      | (tok, _) => ParseInt (sign +:+ tok)
      end
  end.

(** [fmt.Sscanf(str, "%d", new(int))]: the NUMBER OF OPERANDS that were
    scanned and the error; the scanned integer itself goes to the
    operand, which the caller here throws away. *)
Definition Sscanf_d (str : string) : Z * option error :=
  match scanInt str with
  | Ok _ => (1, None)
  | Err e => (0, Some e)
  end.

End fmt.

(* ===================================================================== *)
(** * The remote calendar service and the world the program runs in *)
(* ===================================================================== *)

(** [calendar.CalendarListEntry], [calendar.EventDateTime],
    [calendar.EventAttendee] and [calendar.Event], with the fields the
    program reads or writes.  [Start] and [End] are pointers in Go; the
    service fills both in every event it returns, so they are plain
    records here. *)
Record CalendarListEntry : Type := mkCalendar { cal_Id : string; cal_Summary : string }.

Record EventDateTime : Type := mkEventDateTime {
  Date : string; DateTime : string; TimeZone : string
}.

Record EventAttendee : Type := mkAttendee { Email : string; ResponseStatus : string }.

Record Event : Type := mkEvent {
  Id : string;
  Summary : string;
  Description : string;
  Start : EventDateTime;
  End_ : EventDateTime;
  Status : string;
  Attendees : list EventAttendee
}.

(** The answers of the remote service ([srv.X.Y(...).Do()]), an opaque
    boundary: any functions of the request will do. *)
Record Service : Type := mkService {
  CalendarList_List : Result (list CalendarListEntry);
  Events_Insert : string -> Event -> Result Event;
  Events_Get : string -> string -> Result Event;
  Events_Update : string -> string -> Event -> Result Event;
  Events_Delete : string -> string -> option error
}.

(** The requests sent to the service, in order. *)
Inductive Call : Type :=
| CallCalendarList
| CallInsert (calendarID : string) (event : Event)
| CallGet (calendarID id : string)
| CallUpdate (calendarID id : string) (event : Event)
| CallDelete (calendarID id : string).

(** The program's surroundings.  [stdin] holds the lines the operator
    will type (without the line feed); when it is empty the next read
    meets end of file.  The terminal hands over one line per read, so
    that the fresh [bufio.Reader] of every prompt sees exactly the next
    line.  [calls] is the record of the requests sent to the service,
    [files] the file system, [denied] the paths the system refuses to
    open. *)
Record World : Type := mkWorld {
  stdin : list string;
  stdout : string;
  calls : list Call;
  files : gmap string string;
  denied : gset string
}.

Definition M (A : Type) : Type := World -> Result A * World.

#[global] Instance M_ret : MRet M := fun A a w => (Ok a, w).

#[global] Instance M_bind : MBind M := fun A B k m w =>
  match m w with
  | (Ok a, w') => k a w'
  | (Err e, w') => (Err e, w')
  end.

Definition fail {A} (e : error) : M A := fun w => (Err e, w).

(** A result that does not touch the world. *)
Definition lift {A} (r : Result A) : M A := fun w => (r, w).

(** [if err != nil { return fmt.Errorf(msg + "%w", err) }] *)
Definition orWrap {A} (msg : string) (m : M A) : M A := fun w =>
  match m w with
  | (Err err, w') => (Err (Wrapf msg err), w')
  | (Ok a, w') => (Ok a, w')
  end.

(** [fmt.Print] and friends *)
Definition print (s : string) : M unit := fun w =>
  (Ok tt, mkWorld (stdin w) (stdout w +:+ s) (calls w) (files w) (denied w)).

Definition println (s : string) : M unit := print (s +:+ nl).

(** [bufio.NewReader(os.Stdin).ReadString('\n')]: the line with its line
    feed, or [io.EOF] (a last line without line feed is reported as
    [io.EOF] too, and [promptForInput] drops it). *)
Definition readLine : M string := fun w =>
  match stdin w with
  | l :: rest => (Ok (l +:+ nl), mkWorld rest (stdout w) (calls w) (files w) (denied w))
  | [] => (Err EOF, w)
  end.

Definition send (c : Call) : M unit := fun w =>
  (Ok tt, mkWorld (stdin w) (stdout w) (calls w ++ [c]) (files w) (denied w)).

(* ===================================================================== *)
(** * main.go *)
(* ===================================================================== *)

Definition credentialsFile : string := "credentials.json".
Definition timeFormat : string := "2006-01-02 15:04".
Definition timeZone : string := "Asia/Kolkata".

Definition promptForInput (msg : string) : M string :=
  print msg ;;
  input ← readLine;
  mret (TrimSpace input).

(** [parseTime] is pure: it returns the pair Go returns. *)
Definition parseTime (input : string) : string * option error :=
  match time.Parse timeFormat input with
  | Err err => ("", Some (Wrapf "invalid time format (use YYYY-MM-DD HH:MM): " err))
  | Ok t => (time.Format t time.RFC3339, None)
  end.

(** [parseTime] inside a function that returns on its error. *)
Definition parseTimeM (input : string) : M string :=
  match parseTime input with
  | (_, Some err) => fail err
  | (s, None) => mret s
  end.

Fixpoint printCalendars (i : Z) (cals : list CalendarListEntry) : M unit :=
  match cals with
  | [] => mret tt
  | cal :: rest =>
      print (itoa (i + 1) +:+ ") " +:+ cal_Summary cal +:+ " → " +:+ cal_Id cal +:+ nl) ;;
      printCalendars (i + 1) rest
  end.

Definition listCalendars (srv : Service) : M (list CalendarListEntry) :=
  send CallCalendarList ;;
  match CalendarList_List srv with
  | Err err => fail (Wrapf "unable to retrieve calendars: " err)
  | Ok items =>
      println (nl +:+ "Available calendars:") ;;
      printCalendars 0 items ;;
      println "" ;;
      mret items
  end.

Definition isNil (e : option error) : bool :=
  match e with None => true | Some _ => false end.

(** A run-time panic of the Go program. *)
Definition panic {A} (msg : string) : M A := fail (Errorf ("panic: " +:+ msg)).

Definition selectCalendar (srv : Service) : M string :=
  calendars ← listCalendars srv;
  if Z.of_nat (length calendars) =? 0 then
    fail (Errorf "no calendars found in your account")
  else
    calendarSelection ← promptForInput "Enter calendar number or ID: ";
    let '(index, err) := fmt.Sscanf_d calendarSelection in
    if isNil err && (0 <? index) then
      let '(idx, _) := fmt.Sscanf_d calendarSelection in
      if (idx <=? Z.of_nat (length calendars)) && (0 <? idx) then
        match nth_error calendars (Z.to_nat (idx - 1)) with
        | Some cal => mret (cal_Id cal)
        | None => panic "index out of range"
        end
      else fail (Errorf "invalid calendar number")
    else mret calendarSelection.

Definition createEvent (srv : Service) (calendarID : string) : M unit :=
  title ← promptForInput "Title: ";
  desc ← promptForInput "Description: ";
  startInput ← promptForInput "Start (YYYY-MM-DD HH:MM): ";
  startTime ← parseTimeM startInput;
  endInput ← promptForInput "End   (YYYY-MM-DD HH:MM): ";
  endTime ← parseTimeM endInput;
  let start := time.valueOf (time.Parse time.RFC3339 startTime) in
  let end_ := time.valueOf (time.Parse time.RFC3339 endTime) in
  if time.Before end_ start then
    fail (Errorf "end time cannot be before start time")
  else
    let event := mkEvent "" title desc
                   (mkEventDateTime "" startTime timeZone)
                   (mkEventDateTime "" endTime timeZone) "" [] in
    send (CallInsert calendarID event) ;;
    match Events_Insert srv calendarID event with
    | Err err => fail (Wrapf "unable to create event: " err)
    | Ok created =>
        print ("Event created successfully! ID: " +:+ Id created +:+ nl)
    end.

Definition setSummary (e : Event) (s : string) : Event :=
  mkEvent (Id e) s (Description e) (Start e) (End_ e) (Status e) (Attendees e).
Definition setDescription (e : Event) (s : string) : Event :=
  mkEvent (Id e) (Summary e) s (Start e) (End_ e) (Status e) (Attendees e).
Definition setDateTime (d : EventDateTime) (s : string) : EventDateTime :=
  mkEventDateTime (Date d) s (TimeZone d).
Definition setStartDateTime (e : Event) (s : string) : Event :=
  mkEvent (Id e) (Summary e) (Description e) (setDateTime (Start e) s) (End_ e)
    (Status e) (Attendees e).
Definition setEndDateTime (e : Event) (s : string) : Event :=
  mkEvent (Id e) (Summary e) (Description e) (Start e) (setDateTime (End_ e) s)
    (Status e) (Attendees e).

Definition isEmpty (s : string) : bool :=
  match s with EmptyString => true | _ => false end.

(** The body of [if strings.ToLower(updateTime) == "y" { ... }] in
    [updateEvent]: it returns the event with the merged bounds, or the
    error the function returns with. *)
Definition updateTimes (event : Event) : M Event :=
  startInput ← promptForInput
    ("Start (YYYY-MM-DD HH:MM, current: " +:+ DateTime (Start event) +:+ "): ");
  event ← (if negb (isEmpty startInput) then
             startTime ← parseTimeM startInput;
             mret (setStartDateTime event startTime)
           else mret event);
  endInput ← promptForInput
    ("End (YYYY-MM-DD HH:MM, current: " +:+ DateTime (End_ event) +:+ "): ");
  event ← (if negb (isEmpty endInput) then
             endTime ← parseTimeM endInput;
             mret (setEndDateTime event endTime)
           else mret event);
  let start := time.valueOf (time.Parse time.RFC3339 (DateTime (Start event))) in
  let end_ := time.valueOf (time.Parse time.RFC3339 (DateTime (End_ event))) in
  if time.Before end_ start then
    fail (Errorf "end time cannot be before start time")
  else mret event.

Definition updateEvent (srv : Service) (calendarID : string) : M unit :=
  id ← promptForInput "Event ID: ";
  send (CallGet calendarID id) ;;
  match Events_Get srv calendarID id with
  | Err err => fail (Wrapf "unable to retrieve event for update: " err)
  | Ok event =>
      print ("Current title: " +:+ Summary event +:+ nl) ;;
      title ← promptForInput "New title (leave empty to keep current): ";
      let event := if negb (isEmpty title) then setSummary event title else event in
      print ("Current description: " +:+ Description event +:+ nl) ;;
      desc ← promptForInput "New description (leave empty to keep current): ";
      let event := if negb (isEmpty desc) then setDescription event desc else event in
      updateTime ← promptForInput "Update time? (y/n): ";
      event ← (if String.eqb (ToLower updateTime) "y" then updateTimes event
               else mret event);
      send (CallUpdate calendarID id event) ;;
      match Events_Update srv calendarID id event with
      | Err err => fail (Wrapf "unable to update event: " err)
      | Ok updated =>
          print ("Event updated successfully! ID: " +:+ Id updated +:+ nl)
      end
  end.

Definition deleteEvent (srv : Service) (calendarID : string) : M unit :=
  id ← promptForInput "Event ID to delete: ";
  confirm ← promptForInput
    ("Are you sure you want to delete event " +:+ id +:+ "? (y/n): ");
  if negb (String.eqb (ToLower confirm) "y") then
    println "Deletion cancelled."
  else
    send (CallDelete calendarID id) ;;
    match Events_Delete srv calendarID id with
    | Some err => fail (Wrapf "unable to delete event: " err)
    | None => println "Event deleted successfully."
    end.

(* ===================================================================== *)
(** * The credential store *)
(* ===================================================================== *)

(** [oauth2.Token]: the exported fields, which are what [encoding/json]
    writes and the credential that is stored.  The unexported rest of the
    Go struct (the raw answer of the server) never reaches the file. *)
Record Token : Type := mkToken {
  AccessToken : string;
  TokenType : string;
  RefreshToken : string;
  Expiry : time.Time
}.

(** [os.OpenFile(path, os.O_RDWR|os.O_CREATE|os.O_TRUNC, 0600)]: the
    file exists and is empty afterwards. *)
Definition os_OpenFile_trunc (path : string) : M unit := fun w =>
  if decide (path ∈ denied w)
  then (Err (PathError "open" path "permission denied"), w)
  else (Ok tt, mkWorld (stdin w) (stdout w) (calls w) (<[path := ""]> (files w)) (denied w)).

(** [f.Write(data)] on the file opened at [path]. *)
Definition os_Write (path data : string) : M unit := fun w =>
  let old := default "" (files w !! path) in
  (Ok tt, mkWorld (stdin w) (stdout w) (calls w) (<[path := old +:+ data]> (files w)) (denied w)).

(** [os.Open(file)], read to the end. *)
Definition os_Open (file : string) : M string := fun w =>
  if decide (file ∈ denied w)
  then (Err (PathError "open" file "permission denied"), w)
  else match files w !! file with
       | Some contents => (Ok contents, w)
       | None => (Err (PathError "open" file "no such file or directory"), w)
       end.

Definition isNotExist (e : error) : bool :=
  match e with
  | PathError _ _ msg => String.eqb msg "no such file or directory"
  | _ => false
  end.

Section CredentialStore.

(** Package [encoding/json] on [oauth2.Token]: [json.Marshal(token)]
    and the token a [json.Decoder] reads off a stream.  Both belong to
    libraries, not to the program. *)
Variable json_Marshal : Token -> Result string.
Variable json_Decode : string -> Result Token.

(** [json.NewEncoder(f).Encode(token)] writes the encoding and a line
    feed. *)
Definition saveToken (path : string) (token : Token) : M unit :=
  orWrap "unable to cache oauth token: " (os_OpenFile_trunc path) ;;
  data ← lift (json_Marshal token);
  os_Write path (data +:+ nl).

(** Go returns the partly filled token next to a decoding error; the
    caller looks at the error first, so the token is left out here. *)
Definition tokenFromFile (file : string) : M Token :=
  contents ← os_Open file;
  lift (json_Decode contents).

End CredentialStore.

(* ===================================================================== *)
(** * The civil date-time texts, described without the parser *)
(* ===================================================================== *)

(** The pattern the error message of [parseTime] names, read strictly:
    "YYYY-MM-DD HH:MM", sixteen bytes, digits where the letters are. *)
Definition matchesPattern (s : string) : bool :=
  match s with
  | String y1 (String y2 (String y3 (String y4 (String c1 (String m1 (String m2
      (String c2 (String d1 (String d2 (String c3 (String h1 (String h2
      (String c4 (String n1 (String n2 EmptyString))))))))))))))) =>
      isDigitChar y1 && isDigitChar y2 && isDigitChar y3 && isDigitChar y4
      && Ascii.eqb c1 "-" && isDigitChar m1 && isDigitChar m2
      && Ascii.eqb c2 "-" && isDigitChar d1 && isDigitChar d2
      && Ascii.eqb c3 " " && isDigitChar h1 && isDigitChar h2
      && Ascii.eqb c4 ":" && isDigitChar n1 && isDigitChar n2
  | _ => false
  end.

(** A clock "H:MM" or "HH:MM". *)
Definition readClock (s : string) : option (Z * Z) :=
  match s with
  | String h1 (String c (String n1 (String n2 EmptyString))) =>
      if isDigitChar h1 && Ascii.eqb c ":" && isDigitChar n1 && isDigitChar n2
      then Some (digitVal h1, time.num2 n1 n2) else None
  | String h1 (String h2 (String c (String n1 (String n2 EmptyString)))) =>
      if isDigitChar h1 && isDigitChar h2 && Ascii.eqb c ":"
         && isDigitChar n1 && isDigitChar n2
      then Some (time.num2 h1 h2, time.num2 n1 n2) else None
  | _ => None
  end.

(** A date "YYYY-MM-DD", one or more spaces, a clock: the numbers read
    off such a text. *)
Definition readCivil (s : string) : option (Z * Z * Z * Z * Z) :=
  match s with
  | String y1 (String y2 (String y3 (String y4 (String c1 (String m1 (String m2
      (String c2 (String d1 (String d2 (String c3 rest)))))))))) =>
      if isDigitChar y1 && isDigitChar y2 && isDigitChar y3 && isDigitChar y4
         && Ascii.eqb c1 "-" && isDigitChar m1 && isDigitChar m2
         && Ascii.eqb c2 "-" && isDigitChar d1 && isDigitChar d2
         && Ascii.eqb c3 " "
      then match readClock (time.cutspace rest) with
           | Some (h, mi) =>
               Some (time.num2 y1 y2 * 100 + time.num2 y3 y4,
                     time.num2 m1 m2, time.num2 d1 d2, h, mi)
           | None => None
           end
      else None
  | _ => None
  end.

Definition validCivil (c : Z * Z * Z * Z * Z) : bool :=
  let '(y, m, d, h, mi) := c in
  (1 <=? m) && (m <=? 12) && (1 <=? d) && (d <=? time.daysIn m y)
  && (h <? 24) && (mi <? 60).

(** The texts [parseTime] takes: a date that exists, spaces, a clock. *)
Definition acceptedFormat (s : string) : bool :=
  match readCivil s with
  | Some c => validCivil c
  | None => false
  end.

(** The offset of the zone named by [timeZone], Asia/Kolkata: five and a
    half hours east of UTC. *)
Definition kolkataOffset : Z := 19800.

(** The time whose clock in the zone [off] seconds east of UTC shows
    what the clock of [t] shows in UTC: what [time.ParseInLocation]
    gives for the text that [time.Parse] read as [t]. *)
Definition readIn (off : Z) (t : time.Time) : time.Time :=
  time.mkTime (time.sec t - off) (time.nsec t) off.

(* ===================================================================== *)
(** * Vocabulary for the statements about [updateEvent] *)
(* ===================================================================== *)

(** The event after the title and description prompts: an empty answer
    keeps the field. *)
Definition mergedText (event : Event) (title desc : string) : Event :=
  let event := if negb (isEmpty title) then setSummary event title else event in
  if negb (isEmpty desc) then setDescription event desc else event.

(** One bound after its prompt inside the time gate: an empty answer
    keeps the current text, any other answer goes through [parseTime]. *)
Definition mergeBound (current input : string) : string * option error :=
  if negb (isEmpty input) then parseTime input else (current, None).

(** The event after both bound prompts. *)
Definition mergedTimes (event : Event) (start end_ : string) : Event :=
  setEndDateTime (setStartDateTime event start) end_.

(** The tail of [updateEvent]: the submission and what follows it. *)
Definition submitUpdate (srv : Service) (calendarID id : string) (event : Event)
  : M unit :=
  send (CallUpdate calendarID id event) ;;
  match Events_Update srv calendarID id event with
  | Err err => fail (Wrapf "unable to update event: " err)
  | Ok updated => print ("Event updated successfully! ID: " +:+ Id updated +:+ nl)
  end.

(** The error both operations return when the end is before the start. *)
Definition ValidationError : error := Errorf "end time cannot be before start time".

(* ===================================================================== *)
(** * Sample data *)
(* ===================================================================== *)

Definition terminal (lines : list string) : World := mkWorld lines "" [] ∅ ∅.

Definition threeCalendars : list CalendarListEntry :=
  [mkCalendar "id_work" "Work"; mkCalendar "id_home" "Home"; mkCalendar "id_club" "Club"].

Definition standup : Event :=
  mkEvent "evt1" "Standup" "Daily sync"
    (mkEventDateTime "" "2024-03-15T09:30:00+05:30" "Asia/Kolkata")
    (mkEventDateTime "" "2024-03-15T10:00:00+05:30" "Asia/Kolkata")
    "confirmed" [].

(** An all-day event carries dates and no date-times. *)
Definition holiday : Event :=
  mkEvent "evt2" "Holiday" ""
    (mkEventDateTime "2024-03-15" "" "")
    (mkEventDateTime "2024-03-16" "" "")
    "confirmed" [].

(** An event whose end is not a wire timestamp while its start is. *)
Definition openEnded : Event :=
  mkEvent "evt3" "Visit" ""
    (mkEventDateTime "" "2024-03-15T09:30:00+05:30" "Asia/Kolkata")
    (mkEventDateTime "2024-03-16" "" "")
    "confirmed" [].

Definition sampleService : Service :=
  mkService (Ok threeCalendars)
    (fun _ event => Ok event)
    (fun _ id => if String.eqb id "evt2" then Ok holiday
                 else if String.eqb id "evt3" then Ok openEnded
                 else Ok standup)
    (fun _ _ event => Ok event)
    (fun _ _ => None).

(** A stand-in for [encoding/json] that is good enough to run the
    credential store: the three texts of a token between double quotes,
    separated by commas, and the expiry left out. *)
Definition dq : string := String (ascii_of_nat 34) EmptyString.

Definition sampleMarshal (t : Token) : Result string :=
  Ok (dq +:+ AccessToken t +:+ dq +:+ "," +:+ dq +:+ TokenType t +:+ dq +:+ ","
      +:+ dq +:+ RefreshToken t +:+ dq).

(** The pieces of [s] between double quotes and the pieces around them. *)
Fixpoint splitQuotes (s : string) (piece : string) : list string :=
  match s with
  | String c r =>
      if Ascii.eqb c (ascii_of_nat 34) then piece :: splitQuotes r EmptyString
      else splitQuotes r (piece +:+ String c EmptyString)
  | EmptyString => [piece]
  end.

Definition sampleDecode (s : string) : Result Token :=
  match splitQuotes s EmptyString with
  | [_; a; _; t; _; r; _] => Ok (mkToken a t r time.zero)
  | _ => Err (CodecError "unexpected end of JSON input")
  end.

Definition sampleToken : Token := mkToken "ya29.a0Af" "Bearer" "1//0gRefresh" time.zero.

(* ===================================================================== *)
(** * Definitions used by the proofs *)
(* ===================================================================== *)

(** A property of the numbers [0 .. n-1], checked by running it. *)
Definition allBelow (n : Z) (p : Z -> bool) : bool :=
  forallb p (map Z.of_nat (seq 0 (Z.to_nat n))).

(** A date that exists. *)
Definition validDate (y m d : Z) : Prop :=
  1 <= m <= 12 /\ 1 <= d <= time.daysIn m y.

Definition yearLength (y : Z) : Z := if time.isLeap y then 366 else 365.

(** [n - n >> 2], which turns the quotient 4 of a last day into 3. *)
Definition cut (q : Z) : Z := q - Z.shiftr q 2.

(** For one year: its first and its last day fall into the same 100-,
    4- and 1-year cycles, and these cycles add up to the year. *)
Definition checkYear (y : Z) : bool :=
  let lo := time.daysSinceEpoch y in
  let hi := lo + yearLength y - 1 in
  let b := cut (lo / 36524) in
  let lo2 := lo - 36524 * b in
  let c := lo2 / 1461 in
  let lo3 := lo2 - 1461 * c in
  let e := cut (lo3 / 365) in
  (0 <=? lo) && (hi <? 146097)
  && (cut (hi / 36524) =? b)
  && (0 <=? lo2) && ((hi - 36524 * b) / 1461 =? c)
  && (0 <=? lo3) && (cut ((hi - 36524 * b - 1461 * c) / 365) =? e)
  && (1 + 100 * b + 4 * c + e =? y) && (lo3 - 365 * e =? 0).

(** Day of the year of a date, counted from 0. *)
Definition yearDay (leap : bool) (m d : Z) : Z :=
  time.daysBefore (m - 1) + (if leap && (3 <=? m) then 1 else 0) + (d - 1).

Definition daysInMonth (leap : bool) (m : Z) : Z :=
  if (m =? 2) && leap then 29 else time.daysBefore m - time.daysBefore (m - 1).

Definition checkMonthDay (leap : bool) (m d : Z) : bool :=
  negb (d <=? daysInMonth leap m)
  || (let yd := yearDay leap m d in
      let '(m', d') := time.monthDay leap yd in
      (m' =? m) && (d' =? d) && (0 <=? yd) && (yd <? (if leap then 366 else 365))).

(** The two layouts, cut into their elements. *)
Definition timeFormat_chunks : list time.chunk :=
  [time.stdLongYear; time.Lit "-"; time.stdZeroMonth; time.Lit "-"; time.stdZeroDay;
   time.Lit " "; time.stdHour; time.Lit ":"; time.stdZeroMinute].

Definition RFC3339_chunks : list time.chunk :=
  [time.stdLongYear; time.Lit "-"; time.stdZeroMonth; time.Lit "-"; time.stdZeroDay;
   time.Lit "T"; time.stdHour; time.Lit ":"; time.stdZeroMinute; time.Lit ":";
   time.stdZeroSecond; time.stdISO8601ColonTZ].

(** The wire text of a civil date-time in UTC. *)
Definition wireText (y m d h mi s : Z) : string :=
  time.appendInt y 4 +:+ String "-" (time.appendInt m 2 +:+ String "-"
    (time.appendInt d 2 +:+ String "T" (time.appendInt h 2 +:+ String ":"
      (time.appendInt mi 2 +:+ String ":" (time.appendInt s 2 +:+ "Z"))))).

(** The wire text without its last byte. *)
Definition wireBody (y m d h mi s : Z) : string :=
  time.appendInt y 4 +:+ String "-" (time.appendInt m 2 +:+ String "-"
    (time.appendInt d 2 +:+ String "T" (time.appendInt h 2 +:+ String ":"
      (time.appendInt mi 2 +:+ String ":" (time.appendInt s 2))))).

(* ===================================================================== *)
(** * The rest of main.go: path of the token, the OAuth exchange, the
      read-only operations and the menu *)
(* ===================================================================== *)

(** ** Package [path/filepath], for paths with the separator "/" *)

Module filepath.

(** The elements of a path: the texts between its separators. *)
Fixpoint split (s : string) (piece : string) : list string :=
  match s with
  | String c r =>
      if Ascii.eqb c "/" then piece :: split r EmptyString
      else split r (piece +:+ String c EmptyString)
  | EmptyString => [piece]
  end.

(** [strings.Join(elems, "/")] *)
Fixpoint join (elems : list string) : string :=
  match elems with
  | [] => EmptyString
  | [e] => e
  | e :: rest => e +:+ "/" +:+ join rest
  end.

(** The loop of [Clean] over the elements.  [dots] holds the ".."
    elements kept at the front of a path that is not rooted, [kept] the
    elements written after them, last one first. *)
Fixpoint cleanElems (rooted : bool) (elems : list string) (dots kept : list string)
  : list string :=
  match elems with
  | [] => (dots ++ rev kept)%list
  | e :: rest =>
      if String.eqb e "" || String.eqb e "." then cleanElems rooted rest dots kept
      else if String.eqb e ".." then
        match kept with
        | _ :: kept' => cleanElems rooted rest dots kept'
        | [] =>
            if rooted then cleanElems rooted rest dots kept
            else cleanElems rooted rest (dots ++ [".."])%list kept
        end
      else cleanElems rooted rest dots (e :: kept)
  end.

(** [filepath.Clean] *)
Definition Clean (path : string) : string :=
  match path with
  | EmptyString => "."
  | String c _ =>
      let rooted := Ascii.eqb c "/" in
      let out := (if rooted then "/" else "") +:+ join (cleanElems rooted (split path "") [] []) in
      match out with
      | EmptyString => "."
      | _ => out
      end
  end.

(** [filepath.Join(a, b)]: empty elements are left out, the rest is
    joined and cleaned. *)
Definition Join (a b : string) : string :=
  match a, b with
  | EmptyString, EmptyString => EmptyString
  | EmptyString, _ => Clean b
  | _, _ => Clean (a +:+ "/" +:+ b)
  end.

End filepath.

(** ** What the rest of the program touches beyond [World] *)

(** One [srv.Events.List(calendarID)] call with the options the program
    sets on it. *)
Record EventsListCall : Type := mkEventsListCall {
  list_calendarID : string;
  list_MaxResults : Z;
  list_OrderBy : string;
  list_SingleEvents : bool;
  list_TimeMin : string
}.

(** The requests that have no place in [Call]: the exchange of an
    authorization code, and the listing of events. *)
Inductive Request : Type :=
| ReqExchange (code : string)
| ReqEventsList (call : EventsListCall).

(** [World] together with standard error and the record of those
    requests. *)
Record Session : Type := mkSession {
  world : World;
  stderr : string;
  requests : list Request
}.

(** What the program reads from the machine and never changes:
    [user.Current()], as the home directory or the error, and
    [time.Now()]. *)
Record Host : Type := mkHost {
  user_Current : Result string;
  time_Now : time.Time
}.

(** [oauth2.Config], by the two methods that answer the program. *)
Record Config : Type := mkConfig {
  AuthCodeURL : string -> string -> string;
  Exchange : string -> Result Token
}.

(** [oauth2.AccessTypeOffline] is the URL parameter access_type=offline. *)
Definition AccessTypeOffline : string := "offline".

(** [config.Client(ctx, tok)]: the HTTP client that sends [tok] with
    every request.  Refreshing an expired token is the library's. *)
Record Client : Type := mkClient { client_token : Token }.

(** [*calendar.Service] with the listing of events next to the
    operations of [Service]. *)
Record CalendarService : Type := mkCalendarService {
  service : Service;
  Events_List : EventsListCall -> Result (list Event)
}.

Definition MS (A : Type) : Type := Session -> Result A * Session.

#[global] Instance MS_ret : MRet MS := fun A a s => (Ok a, s).

#[global] Instance MS_bind : MBind MS := fun A B k m s =>
  match m s with
  | (Ok a, s') => k a s'
  | (Err e, s') => (Err e, s')
  end.

(** A computation over [World] run inside a session. *)
Definition inWorld {A} (m : M A) : MS A := fun s =>
  match m (world s) with
  | (r, w') => (r, mkSession w' (stderr s) (requests s))
  end.

Definition failS {A} (e : error) : MS A := fun s => (Err e, s).

Definition request (r : Request) : MS unit := fun s =>
  (Ok tt, mkSession (world s) (stderr s) (requests s ++ [r])).

(** ** main.go, continued *)

Definition getTokenFilePath (host : Host) : Result string :=
  match user_Current host with
  | Err err => Err (Wrapf "failed to get current user: " err)
  | Ok HomeDir => Ok (filepath.Join HomeDir "token.json")
  end.

Definition getTokenFromWeb (config : Config) : MS Token :=
  let authURL := AuthCodeURL config "state-token" AccessTypeOffline in
  inWorld (print ("Go to the following link in your browser then type the " +:+
                  "authorization code: " +:+ nl +:+ authURL +:+ nl)) ;;
  code ← inWorld (orWrap "failed to read authorization code: "
                    (promptForInput "Authorization code: "));
  request (ReqExchange code) ;;
  match Exchange config code with
  | Err err => failS (Wrapf "unable to retrieve token from web: " err)
  | Ok tok => mret tok
  end.

Section Authenticator.

Variable json_Marshal : Token -> Result string.
Variable json_Decode : string -> Result Token.

Definition getClient (host : Host) (config : Config) : MS Client :=
  match getTokenFilePath host with
  | Err err => failS err
  | Ok tokPath => fun s =>
      match inWorld (tokenFromFile json_Decode tokPath) s with
      | (Ok tok, s') => (Ok (mkClient tok), s')
      | (Err _, s') =>
          (* No cached token, perform auth flow *)
          (tok ← getTokenFromWeb config;
           inWorld (saveToken json_Marshal tokPath tok) ;;
           mret (mkClient tok)) s'
      end
  end.

End Authenticator.

Fixpoint printEvents (i : Z) (items : list Event) : M unit :=
  match items with
  | [] => mret tt
  | event :: rest =>
      let startTime := DateTime (Start event) in
      let startTime := if isEmpty startTime then Date (Start event) else startTime in
      let endTime := DateTime (End_ event) in
      let endTime := if isEmpty endTime then Date (End_ event) else endTime in
      print (itoa (i + 1) +:+ ") " +:+ Summary event +:+ " (" +:+ Id event +:+ ")" +:+ nl +:+
             "   When: " +:+ startTime +:+ " to " +:+ endTime +:+ nl) ;;
      printEvents (i + 1) rest
  end.

Definition listEvents (host : Host) (srv : CalendarService) (calendarID : string) : MS unit :=
  let call := mkEventsListCall calendarID 10 "startTime" true
                (time.Format (time_Now host) time.RFC3339) in
  request (ReqEventsList call) ;;
  match Events_List srv call with
  | Err err => failS (Wrapf "unable to retrieve events: " err)
  | Ok items =>
      if Z.of_nat (length items) =? 0 then
        inWorld (println "No upcoming events found.")
      else
        inWorld (println (nl +:+ "Upcoming events:") ;;
                 printEvents 0 items ;;
                 println "")
  end.

Fixpoint printAttendees (attendees : list EventAttendee) : M unit :=
  match attendees with
  | [] => mret tt
  | attendee :: rest =>
      print (" - " +:+ Email attendee +:+ " (" +:+ ResponseStatus attendee +:+ ")" +:+ nl) ;;
      printAttendees rest
  end.

Definition getEvent (srv : Service) (calendarID : string) : M unit :=
  id ← promptForInput "Event ID: ";
  send (CallGet calendarID id) ;;
  match Events_Get srv calendarID id with
  | Err err => fail (Wrapf "unable to retrieve event: " err)
  | Ok event =>
      print (nl +:+ "Event Details:" +:+ nl) ;;
      print ("Title: " +:+ Summary event +:+ nl) ;;
      print ("Description: " +:+ Description event +:+ nl) ;;
      print ("Start: " +:+ DateTime (Start event) +:+ nl) ;;
      print ("End: " +:+ DateTime (End_ event) +:+ nl) ;;
      print ("Status: " +:+ Status event +:+ nl) ;;
      if 0 <? Z.of_nat (length (Attendees event)) then
        println "Attendees:" ;;
        printAttendees (Attendees event)
      else mret tt
  end.

(** ** Package [log] and [func main] *)

(** How a run of the program ends: the exit status and the session it
    leaves. *)
Definition Exit : Type := Z * Session.

Fixpoint endsWithNl (s : string) : bool :=
  match s with
  | EmptyString => false
  | String c EmptyString => byte c =? 10
  | String _ r => endsWithNl r
  end.

(** What the logger writes for a message after [log.SetFlags(0)] and
    [log.SetPrefix("Calendar CLI: ")]: the prefix, the message, and a
    line feed unless the message ends in one. *)
Definition logRecord (msg : string) : string :=
  "Calendar CLI: " +:+ msg +:+ (if endsWithNl msg then "" else nl).

(** [log.Fatalf]: the record on standard error, then [os.Exit(1)]. *)
Definition log_Fatalf (msg : string) (s : Session) : Exit :=
  (1, mkSession (world s) (stderr s +:+ logRecord msg) (requests s)).

(** [x, err := m; if err != nil { log.Fatalf(msg, err) }] and the rest
    of [main] after it. *)
Definition orFatal {A} (m : MS A) (msg : error -> string) (rest : A -> Session -> Exit)
  : Session -> Exit := fun s =>
  match m s with
  | (Ok a, s') => rest a s'
  | (Err err, s') => log_Fatalf (msg err) s'
  end.

Definition menu : string :=
  nl +:+ "Choose an operation:" +:+ nl +:+
  "1. List upcoming events" +:+ nl +:+
  "2. Create new event" +:+ nl +:+
  "3. Get event details" +:+ nl +:+
  "4. Update event" +:+ nl +:+
  "5. Delete event" +:+ nl.

(** The [switch opChoice] of [main]: the chosen operation, or nothing
    for a choice that is not on the menu. *)
Definition dispatch (host : Host) (srv : CalendarService) (calendarID opChoice : string)
  : option (MS unit) :=
  if String.eqb opChoice "1" then Some (listEvents host srv calendarID)
  else if String.eqb opChoice "2" then Some (inWorld (createEvent (service srv) calendarID))
  else if String.eqb opChoice "3" then Some (inWorld (getEvent (service srv) calendarID))
  else if String.eqb opChoice "4" then Some (inWorld (updateEvent (service srv) calendarID))
  else if String.eqb opChoice "5" then Some (inWorld (deleteEvent (service srv) calendarID))
  else None.

(** [main] from the selection of the calendar on. *)
Definition serve (host : Host) (srv : CalendarService) : Session -> Exit :=
  orFatal (inWorld (selectCalendar (service srv)))
    (fun err => "Failed to select calendar: " +:+ Error err)
  (fun calendarID =>
  orFatal (inWorld (print menu ;; promptForInput (nl +:+ "Enter choice (1-5): ")))
    (fun err => "Failed to read operation choice: " +:+ Error err)
  (fun opChoice =>
  match dispatch host srv calendarID opChoice with
  | None => log_Fatalf ("Invalid operation: " +:+ opChoice)
  | Some operation =>
      orFatal operation (fun err => "Operation failed: " +:+ Error err)
        (fun _ s => (0, s))
  end)).

Section Main.

Variable json_Marshal : Token -> Result string.
Variable json_Decode : string -> Result Token.

(** [google.ConfigFromJSON(b, scopes...)] and [calendar.NewService(ctx,
    option.WithHTTPClient(client))], which belong to libraries. *)
Variable google_ConfigFromJSON : string -> Result Config.
Variable calendar_NewService : Client -> Result CalendarService.

Definition main (host : Host) : Session -> Exit :=
  orFatal (inWorld (os_Open credentialsFile))
    (fun err => "Unable to read credentials file (" +:+ credentialsFile +:+ "): " +:+ Error err)
  (fun b =>
  orFatal (fun s => (google_ConfigFromJSON b, s))
    (fun err => "Unable to parse client secret file to config: " +:+ Error err)
  (fun config =>
  orFatal (getClient json_Marshal json_Decode host config)
    (fun err => "Unable to get OAuth client: " +:+ Error err)
  (fun client =>
  orFatal (fun s => (calendar_NewService client, s))
    (fun err => "Unable to create Calendar service: " +:+ Error err)
  (serve host)))).

(** A machine on which [main] gets as far as the service without asking:
    the credentials file is there and parses, the token file under the
    home directory decodes, and the service can be built. *)
Definition signedIn (host : Host) (w : World) (srv : CalendarService) : Prop :=
  exists b config home contents tok,
    (credentialsFile ∉ denied w) /\ files w !! credentialsFile = Some b
    /\ google_ConfigFromJSON b = Ok config
    /\ user_Current host = Ok home
    /\ (filepath.Join home "token.json" ∉ denied w)
    /\ files w !! filepath.Join home "token.json" = Some contents
    /\ json_Decode contents = Ok tok
    /\ calendar_NewService (mkClient tok) = Ok srv.

End Main.




(** ** More sample data *)

(** A session that starts with nothing on standard error and no request
    recorded. *)
Definition session (w : World) : Session := mkSession w "" [].

Definition notFound : error := RemoteError "googleapi: Error 404: Not Found, notFound".

(** A service that knows one event and refuses every change. *)
Definition strictService : Service :=
  mkService (Ok threeCalendars)
    (fun _ _ => Err (RemoteError "googleapi: Error 403: Forbidden, forbidden"))
    (fun _ id => if String.eqb id "evt1" then Ok standup else Err notFound)
    (fun _ _ _ => Err (RemoteError "googleapi: Error 403: Forbidden, forbidden"))
    (fun _ _ => Some notFound).

(** A service for an account without calendars, and one that is out of
    reach. *)
Definition emptyService : Service :=
  mkService (Ok []) (fun _ event => Ok event) (fun _ _ => Err notFound)
    (fun _ _ event => Ok event) (fun _ _ => None).

Definition offlineService : Service :=
  mkService (Err (RemoteError "dial tcp: i/o timeout"))
    (fun _ _ => Err (RemoteError "dial tcp: i/o timeout"))
    (fun _ _ => Err (RemoteError "dial tcp: i/o timeout"))
    (fun _ _ _ => Err (RemoteError "dial tcp: i/o timeout"))
    (fun _ _ => Some (RemoteError "dial tcp: i/o timeout")).

(** 2024-03-15 09:30:00.25 at +05:30. *)
Definition sampleHost : Host :=
  mkHost (Ok "/home/op") (time.mkTime 63846072000 250000000 19800).

Definition sampleConfig : Config :=
  mkConfig
    (fun state access =>
       "https://accounts.example/o/oauth2/auth?access_type=" +:+ access +:+ "&state=" +:+ state)
    (fun code => if String.eqb code "4/0AbCd" then Ok sampleToken
                 else Err (RemoteError "oauth2: cannot fetch token: 400 Bad Request")).

Definition sampleCalendarService (upcoming : Result (list Event)) : CalendarService :=
  mkCalendarService sampleService (fun _ => upcoming).

(** ** Definitions used by the statements about the rest of the program *)

(** The words that send the operator to the browser. *)
Definition invitation (config : Config) : string :=
  "Go to the following link in your browser then type the " +:+
  "authorization code: " +:+ nl +:+ AuthCodeURL config "state-token" AccessTypeOffline +:+ nl.

(** For one year: the next year starts when this one is over. *)
Definition checkNextYear (y : Z) : bool :=
  time.daysSinceEpoch (y + 1) =? time.daysSinceEpoch y + yearLength y.

(** For one day of the year: [monthDay] names a date that exists and
    falls on that day. *)
Definition checkYearDay (leap : bool) (yd : Z) : bool :=
  let '(m, d) := time.monthDay leap yd in
  (1 <=? m) && (m <=? 12) && (1 <=? d) && (d <=? daysInMonth leap m)
  && (yearDay leap m d =? yd).

(** For two months: the earlier one is over before the later one
    starts. *)
Definition checkMonthOrder (leap : bool) (m m' : Z) : bool :=
  negb (m <? m') || (yearDay leap m (daysInMonth leap m) <? yearDay leap m' 1).

(** The zone at the end of a wire text. *)
Definition zoneText (offset : Z) : string :=
  if offset =? 0 then "Z"
  else
    let zone := Z.quot offset 60 in
    (if zone <? 0 then "-" else "+")
      +:+ time.appendInt (Z.abs zone / 60) 2 +:+ ":" +:+ time.appendInt (Z.abs zone mod 60) 2.

(** The wire text of a civil date-time with a zone. *)
Definition wireTextAt (y m d h mi s : Z) (zone : string) : string :=
  time.appendInt y 4 +:+ String "-" (time.appendInt m 2 +:+ String "-"
    (time.appendInt d 2 +:+ String "T" (time.appendInt h 2 +:+ String ":"
      (time.appendInt mi 2 +:+ String ":" (time.appendInt s 2 +:+ zone))))).

(** The order of two civil date-times, field by field. *)
Definition civilBefore (a b : Z * Z * Z * Z * Z) : bool :=
  let '(y, m, d, h, mi) := a in
  let '(y', m', d', h', mi') := b in
  (y <? y') || ((y =? y') &&
   ((m <? m') || ((m =? m') &&
    ((d <? d') || ((d =? d') &&
     ((h <? h') || ((h =? h') && (mi <? mi')))))))).

(** A text given by its bytes. *)
Definition text (bs : list Z) : string :=
  string_of_list_ascii (map (fun b => ascii_of_nat (Z.to_nat b)) bs).

(** The runes [unicode.IsSpace] accepts, in UTF-8: tab to carriage
    return and space, U+0085, U+00A0, U+1680, U+2000 to U+200A, U+2028,
    U+2029, U+202F, U+205F and U+3000. *)
Definition whiteSpace : list string :=
  map text
    [ [9]; [10]; [11]; [12]; [13]; [32]; [194; 133]; [194; 160]; [225; 154; 128];
      [226; 128; 128]; [226; 128; 129]; [226; 128; 130]; [226; 128; 131];
      [226; 128; 132]; [226; 128; 133]; [226; 128; 134]; [226; 128; 135];
      [226; 128; 136]; [226; 128; 137]; [226; 128; 138];
      [226; 128; 168]; [226; 128; 169]; [226; 128; 175]; [226; 129; 159];
      [227; 128; 128] ].

(** A path element that [Clean] keeps as it is: not empty, not "." or
    "..", and without a separator. *)
Definition plainElem (e : string) : bool :=
  negb (String.eqb e "") && negb (String.eqb e ".") && negb (String.eqb e "..")
  && forallb (fun c => negb (Ascii.eqb c "/")) (list_ascii_of_string e).

(* ===================================================================== *)
(** * The library models on known inputs *)
(* ===================================================================== *)

(** [fmt.Sscanf] counts operands: 1 for any text that starts with an
    integer, whatever the integer, 0 with an error for the rest. *)
Example Sscanf_two : fmt.Sscanf_d "2" = (1, None).
Proof. reflexivity. Qed.

Example Sscanf_seven : fmt.Sscanf_d "7" = (1, None).
Proof. reflexivity. Qed.

Example Sscanf_digits_then_text : fmt.Sscanf_d "2abc" = (1, None).
Proof. reflexivity. Qed.

Example Sscanf_identifier :
  fmt.Sscanf_d "cal_abcdef" = (0, Some (ScanError "expected integer")).
Proof. reflexivity. Qed.

Example Sscanf_empty : fst (fmt.Sscanf_d "") = 0.
Proof. reflexivity. Qed.

Example scanInt_value : fmt.scanInt "-17 rest" = Ok (-17).
Proof. reflexivity. Qed.

(** 2024-03-15 09:30 UTC is second 1710495000 of the Unix era, which
    starts 62135596800 seconds after the zero [Time]. *)
Example Parse_civil :
  time.Parse timeFormat "2024-03-15 09:30"
  = Ok (time.mkTime (1710495000 + 62135596800) 0 0).
Proof. vm_compute. reflexivity. Qed.

Example Format_wire :
  time.Format (time.mkTime (1710495000 + 62135596800) 0 0) time.RFC3339
  = "2024-03-15T09:30:00Z".
Proof. vm_compute. reflexivity. Qed.

Example Format_offset :
  time.Format (time.mkTime (1710495000 + 62135596800) 0 19800) time.RFC3339
  = "2024-03-15T15:00:00+05:30".
Proof. vm_compute. reflexivity. Qed.

Example Parse_wire_offset :
  time.Parse time.RFC3339 "2024-03-15T15:00:00+05:30"
  = Ok (time.mkTime (1710495000 + 62135596800) 0 19800).
Proof. vm_compute. reflexivity. Qed.

Example Parse_wire_fraction :
  time.Parse time.RFC3339 "2024-03-15T09:30:00.25Z"
  = Ok (time.mkTime (1710495000 + 62135596800) 250000000 0).
Proof. vm_compute. reflexivity. Qed.

Example Parse_leap_day : isOk (time.Parse timeFormat "2024-02-29 10:00") = true.
Proof. vm_compute. reflexivity. Qed.

Example Parse_no_leap_day : isOk (time.Parse timeFormat "2023-02-29 10:00") = false.
Proof. vm_compute. reflexivity. Qed.

Example Parse_trailing_text : isOk (time.Parse timeFormat "2024-03-15 09:30:00") = false.
Proof. vm_compute. reflexivity. Qed.

Example Parse_date_only : isOk (time.Parse time.RFC3339 "2024-03-15") = false.
Proof. vm_compute. reflexivity. Qed.

Example Format_zero : time.Format time.zero time.RFC3339 = "0001-01-01T00:00:00Z".
Proof. vm_compute. reflexivity. Qed.

Example TrimSpace_answer : TrimSpace "  Y  " = "Y" /\ TrimSpace "   " = "".
Proof. split; reflexivity. Qed.

(* ===================================================================== *)
(** * Facts about bytes and digits *)
(* ===================================================================== *)

(** Running [allBelow] settles the property for every number below [n]. *)
Lemma allBelow_spec (n : Z) (p : Z -> bool) :
  allBelow n p = true -> forall x, 0 <= x < n -> p x = true.
Proof.
  unfold allBelow. rewrite forallb_forall. intros H x Hx.
  apply H. apply in_map_iff. exists (Z.to_nat x). split; [lia|].
  apply in_seq. lia.
Qed.

Lemma byte_range (c : ascii) : 0 <= byte c < 256.
Proof.
  unfold byte. pose proof (nat_ascii_bounded c). lia.
Qed.

Lemma byte_inj (a b : ascii) : byte a = byte b -> a = b.
Proof.
  unfold byte. intros H. apply Nat2Z.inj in H.
  rewrite <- (ascii_nat_embedding a), <- (ascii_nat_embedding b). congruence.
Qed.

Lemma isDigitChar_digitChar (d : Z) : 0 <= d <= 9 -> isDigitChar (digitChar d) = true.
Proof.
  intros H.
  apply (allBelow_spec 10 (fun d => isDigitChar (digitChar d))); [reflexivity | lia].
Qed.

Lemma digitVal_digitChar (d : Z) : 0 <= d <= 9 -> digitVal (digitChar d) = d.
Proof.
  intros H. apply Z.eqb_eq.
  apply (allBelow_spec 10 (fun d => digitVal (digitChar d) =? d)); [reflexivity | lia].
Qed.

Lemma digitVal_range (c : ascii) : isDigitChar c = true -> 0 <= digitVal c <= 9.
Proof.
  unfold isDigitChar, digitVal. intros H.
  apply andb_true_iff in H as [H1 H2]. lia.
Qed.

Lemma digitChar_digitVal (c : ascii) : isDigitChar c = true -> digitChar (digitVal c) = c.
Proof.
  intros H. pose proof (digitVal_range c H) as R.
  apply byte_inj. unfold digitChar, digitVal in *.
  unfold byte at 1. rewrite nat_ascii_embedding by (pose proof (byte_range c); lia).
  pose proof (byte_range c). lia.
Qed.

(** The fields [Format] prints in two and in four digits. *)
Lemma appendInt_2 (x : Z) : 0 <= x < 100 -> time.appendInt x 2 = time.twoDigits x.
Proof.
  intros H. unfold time.appendInt.
  replace (x <? 0) with false by lia. rewrite Z.abs_eq by lia.
  replace (x <? 100) with true by lia. reflexivity.
Qed.

Lemma appendInt_4 (x : Z) :
  0 <= x < 10000 ->
  time.appendInt x 4 = time.twoDigits (x / 100) +:+ time.twoDigits (x mod 100).
Proof.
  intros H. unfold time.appendInt.
  replace (x <? 0) with false by lia. rewrite Z.abs_eq by lia.
  replace (x <? 10000) with true by lia. reflexivity.
Qed.

(* ===================================================================== *)
(** * The calendar: [absDate] inverts [dayNumber] *)
(* ===================================================================== *)

Lemma cut_mono (a b : Z) : 0 <= a <= b -> cut a <= cut b.
Proof.
  intros H. unfold cut. rewrite !Z.shiftr_div_pow2 by lia.
  change (2 ^ 2) with 4. Z.div_mod_to_equations. lia.
Qed.

(** A quotient that is the same at both ends of an interval is the same
    inside it; so is the corrected quotient [cut]. *)
Lemma div_sandwich (c lo hi n : Z) :
  0 < c -> lo <= n <= hi -> hi / c = lo / c -> n / c = lo / c.
Proof.
  intros Hc Hn E.
  pose proof (Z.div_le_mono lo n c Hc ltac:(lia)).
  pose proof (Z.div_le_mono n hi c Hc ltac:(lia)). lia.
Qed.

Lemma cut_div_sandwich (c lo hi n : Z) :
  0 < c -> 0 <= lo -> lo <= n <= hi ->
  cut (hi / c) = cut (lo / c) -> cut (n / c) = cut (lo / c).
Proof.
  intros Hc H0 Hn E.
  pose proof (Z.div_le_mono lo n c Hc ltac:(lia)).
  pose proof (Z.div_le_mono n hi c Hc ltac:(lia)).
  pose proof (Z.div_pos lo c H0 Hc).
  pose proof (cut_mono (lo / c) (n / c) ltac:(lia)).
  pose proof (cut_mono (n / c) (hi / c) ltac:(lia)). lia.
Qed.

(** The years 1 to 400, one full cycle of the calendar. *)
Lemma checkYear_cycle : allBelow 400 (fun y => checkYear (y + 1)) = true.
Proof. vm_compute. reflexivity. Qed.

(** Inside the first cycle [absYear] finds the year and the day of the
    year of every day of that year. *)
Lemma absYear_first_cycle (y yd : Z) :
  1 <= y <= 400 -> 0 <= yd < yearLength y ->
  time.absYear (time.daysSinceEpoch y + yd) = (y, yd)
  /\ 0 <= time.daysSinceEpoch y + yd < time.daysPer400Years.
Proof.
  intros Hy Hyd.
  pose proof (allBelow_spec _ _ checkYear_cycle (y - 1) ltac:(lia)) as C.
  cbv beta in C. replace (y - 1 + 1) with y in C by lia.
  unfold checkYear in C. cbv zeta in C.
  set (lo := time.daysSinceEpoch y) in *.
  repeat (apply andb_true_iff in C as [C ?]).
  set (n := lo + yd).
  assert (lo <= n <= lo + yearLength y - 1) as Hn by (subst n; lia).
  change time.daysPer400Years with 146097.
  split; [|lia].
  unfold time.absYear. cbv zeta.
  change time.daysPer400Years with 146097.
  change time.daysPer100Years with 36524.
  change time.daysPer4Years with 1461.
  assert (n / 146097 = 0) as -> by (apply Z.div_small; lia).
  replace (n - 146097 * 0) with n by lia.
  assert (cut (n / 36524) = cut (lo / 36524)) as E2
    by (apply (cut_div_sandwich 36524 lo (lo + yearLength y - 1) n); lia).
  fold (cut (n / 36524)). rewrite E2.
  set (b := cut (lo / 36524)) in *.
  assert ((n - 36524 * b) / 1461 = (lo - 36524 * b) / 1461) as E3
    by (apply (div_sandwich 1461 _ (lo + yearLength y - 1 - 36524 * b)); lia).
  rewrite E3.
  set (c := (lo - 36524 * b) / 1461) in *.
  assert (cut ((n - 36524 * b - 1461 * c) / 365)
          = cut ((lo - 36524 * b - 1461 * c) / 365)) as E4
    by (apply (cut_div_sandwich 365 _ (lo + yearLength y - 1 - 36524 * b - 1461 * c));
        lia).
  fold (cut ((n - 36524 * b - 1461 * c) / 365)). rewrite E4.
  set (e := cut ((lo - 36524 * b - 1461 * c) / 365)) in *.
  f_equal; subst n; lia.
Qed.

(** The calendar repeats every 400 years, that is every 146097 days. *)
Lemma isLeap_period (y k : Z) : time.isLeap (y + 400 * k) = time.isLeap y.
Proof.
  unfold time.isLeap.
  replace ((y + 400 * k) mod 4) with (y mod 4) by (Z.div_mod_to_equations; lia).
  replace ((y + 400 * k) mod 100) with (y mod 100) by (Z.div_mod_to_equations; lia).
  replace ((y + 400 * k) mod 400) with (y mod 400) by (Z.div_mod_to_equations; lia).
  reflexivity.
Qed.

Lemma daysSinceEpoch_period (y k : Z) :
  time.daysSinceEpoch (y + 400 * k)
  = time.daysSinceEpoch y + time.daysPer400Years * k.
Proof.
  unfold time.daysSinceEpoch, time.daysPer400Years, time.daysPer100Years,
    time.daysPer4Years.
  cbv zeta. Z.div_mod_to_equations. lia.
Qed.

Lemma absYear_period (n k : Z) :
  time.absYear (n + time.daysPer400Years * k)
  = (fst (time.absYear n) + 400 * k, snd (time.absYear n)).
Proof.
  unfold time.absYear. cbv zeta.
  assert (time.daysPer400Years = 146097) as E by reflexivity.
  replace ((n + time.daysPer400Years * k) / time.daysPer400Years)
    with (n / time.daysPer400Years + k)
    by (rewrite E; Z.div_mod_to_equations; lia).
  replace (n + time.daysPer400Years * k
           - time.daysPer400Years * (n / time.daysPer400Years + k))
    with (n - time.daysPer400Years * (n / time.daysPer400Years)) by lia.
  cbn [fst snd]. f_equal. lia.
Qed.

(** [absYear] finds the year and the day of the year, in every year. *)
Lemma absYear_daysSinceEpoch (y yd : Z) :
  0 <= yd < yearLength y ->
  time.absYear (time.daysSinceEpoch y + yd) = (y, yd).
Proof.
  intros Hyd.
  set (k := (y - 1) / 400).
  set (y0 := y - 400 * k).
  assert (1 <= y0 <= 400) as Hy0
    by (subst y0 k; Z.div_mod_to_equations; lia).
  assert (y = y0 + 400 * k) as Ey by (subst y0; lia).
  clearbody y0 k. subst y.
  unfold yearLength in Hyd. rewrite isLeap_period in Hyd.
  destruct (absYear_first_cycle y0 yd Hy0 Hyd) as [E _].
  rewrite daysSinceEpoch_period.
  replace (time.daysSinceEpoch y0 + time.daysPer400Years * k + yd)
    with (time.daysSinceEpoch y0 + yd + time.daysPer400Years * k) by lia.
  rewrite absYear_period, E. reflexivity.
Qed.

(** Every day of every month, in leap years and in the others. *)
Lemma checkMonthDay_all (leap : bool) :
  allBelow 12 (fun m => allBelow 31 (fun d => checkMonthDay leap (m + 1) (d + 1))) = true.
Proof. destruct leap; vm_compute; reflexivity. Qed.

Lemma daysInMonth_le_31 (leap : bool) (m : Z) : 1 <= m <= 12 -> daysInMonth leap m <= 31.
Proof.
  intros H.
  assert (m = 1 \/ m = 2 \/ m = 3 \/ m = 4 \/ m = 5 \/ m = 6 \/ m = 7 \/ m = 8
          \/ m = 9 \/ m = 10 \/ m = 11 \/ m = 12) as C by lia.
  repeat (destruct C as [-> | C]; [destruct leap; vm_compute; discriminate|]).
  subst m. destruct leap; vm_compute; discriminate.
Qed.

Lemma monthDay_yearDay (leap : bool) (m d : Z) :
  1 <= m <= 12 -> 1 <= d <= daysInMonth leap m ->
  time.monthDay leap (yearDay leap m d) = (m, d)
  /\ 0 <= yearDay leap m d < (if leap then 366 else 365).
Proof.
  intros Hm Hd.
  pose proof (daysInMonth_le_31 leap m Hm) as H31.
  pose proof (allBelow_spec _ _ (checkMonthDay_all leap) (m - 1) ltac:(lia)) as C1.
  cbv beta in C1.
  pose proof (allBelow_spec _ _ C1 (d - 1) ltac:(lia)) as C2. cbv beta in C2.
  replace (m - 1 + 1) with m in C2 by lia.
  replace (d - 1 + 1) with d in C2 by lia.
  unfold checkMonthDay in C2.
  apply orb_true_iff in C2 as [C2 | C2].
  - apply negb_true_iff in C2. lia.
  - cbv zeta in C2.
    destruct (time.monthDay leap (yearDay leap m d)) as [m' d'].
    repeat (apply andb_true_iff in C2 as [C2 ?]).
    split; [f_equal; lia | destruct leap; lia].
Qed.

(** The civil date of the day on which a valid date falls is that date. *)
Lemma absDate_dayNumber (y m d : Z) :
  validDate y m d -> time.absDate (time.dayNumber y m d) = (y, m, d).
Proof.
  intros [Hm Hd].
  assert (time.dayNumber y m d = time.daysSinceEpoch y + yearDay (time.isLeap y) m d) as ->
    by (unfold time.dayNumber, yearDay; lia).
  destruct (monthDay_yearDay (time.isLeap y) m d Hm Hd) as [E R].
  unfold time.absDate.
  rewrite absYear_daysSinceEpoch by (unfold yearLength; destruct (time.isLeap y); lia).
  rewrite E. reflexivity.
Qed.

(* ===================================================================== *)
(** * Reading and printing the two layouts *)
(* ===================================================================== *)

Lemma chunks_timeFormat : time.chunks timeFormat = timeFormat_chunks.
Proof. reflexivity. Qed.

Lemma chunks_RFC3339 : time.chunks time.RFC3339 = RFC3339_chunks.
Proof. reflexivity. Qed.

Lemma num2_range (a b : ascii) :
  isDigitChar a = true -> isDigitChar b = true -> 0 <= time.num2 a b <= 99.
Proof.
  intros Ha Hb. unfold time.num2.
  pose proof (digitVal_range a Ha). pose proof (digitVal_range b Hb). lia.
Qed.

Lemma eqb_ascii_true (a b : ascii) : Ascii.eqb a b = true -> a = b.
Proof. apply Ascii.eqb_eq. Qed.

#[local] Arguments isDigitChar : simpl never.
#[local] Arguments digitVal : simpl never.
#[local] Arguments time.num2 : simpl never.
#[local] Arguments time.daysIn : simpl never.
#[local] Arguments time.Date : simpl never.
#[local] Arguments time.cutspace : simpl never.
#[local] Arguments Z.mul : simpl never.
#[local] Arguments Z.add : simpl never.
#[local] Arguments Z.leb : simpl never.
#[local] Arguments Z.ltb : simpl never.
#[local] Arguments Z.eqb : simpl never.

(** One step of a case analysis that follows the parser: split the text,
    then decide the test in front. *)
Ltac parse_step :=
  simpl;
  match goal with
  | |- context [match ?s with EmptyString => _ | String _ _ => _ end] =>
      is_var s; destruct s
  | |- context [if isDigitChar ?c then _ else _] =>
      let E := fresh "Hd" in destruct (isDigitChar c) eqn:E
  | |- context [isDigitChar ?c && _] =>
      let E := fresh "Hd" in destruct (isDigitChar c) eqn:E
  | |- context [if Ascii.eqb ?c ?d then _ else _] =>
      let E := fresh "He" in
      destruct (Ascii.eqb c d) eqn:E; [apply eqb_ascii_true in E; subst c|]
  | |- context [Ascii.eqb ?c ?d && _] =>
      let E := fresh "He" in
      destruct (Ascii.eqb c d) eqn:E; [apply eqb_ascii_true in E; subst c|]
  | |- context [?a =? ?b] => destruct (Z.eqb_spec a b)
  | |- context [?a <=? ?b] => destruct (Z.leb_spec a b)
  | |- context [?a <? ?b] => destruct (Z.ltb_spec a b)
  end.

Ltac digit_facts :=
  try match goal with
      | H : isDigitChar (Ascii _ _ _ _ _ _ _ _) = true |- _ =>
          vm_compute in H; discriminate H
      end;
  repeat match goal with
         | H : isDigitChar ?c = true |- _ => apply digitVal_range in H
         end;
  unfold time.num2 in *.

(** [time.Parse] under [timeFormat] and the description of the accepted
    texts agree: a text is parsed exactly when [readCivil] reads five
    numbers that [validCivil] lets through, and the result is the date
    and clock they name, at second 0, in UTC. *)
Lemma Parse_timeFormat_spec (s : string) :
  match time.Parse timeFormat s with
  | Ok t => exists y m d h mi,
      readCivil s = Some (y, m, d, h, mi)
      /\ validCivil (y, m, d, h, mi) = true
      /\ 0 <= y <= 9999 /\ 0 <= h /\ 0 <= mi
      /\ t = time.Date y m d h mi 0 0
  | Err _ => acceptedFormat s = false
  end.
Proof.
  unfold time.Parse, acceptedFormat. rewrite chunks_timeFormat.
  unfold timeFormat_chunks, readCivil.
  unfold time.parseChunks, time.parseChunk, time.parseYear, time.getnum, time.skip.
  repeat parse_step; try reflexivity.
  (* the month is out of range *)
  all: try solve [ destruct (readClock _) as [[h mi]|]; [|reflexivity];
                   unfold validCivil; digit_facts;
                   repeat parse_step; try reflexivity; exfalso; lia ].
  (* the clock, after the spaces *)
  all: change (time.cutspace (String " " s)) with (time.cutspace s).
  all: generalize (time.cutspace s); intros r.
  all: unfold readClock, validCivil.
  all: repeat parse_step; try reflexivity; digit_facts; try (exfalso; lia).
  all: do 5 eexists; split; [reflexivity|];
       split; [repeat parse_step; try reflexivity; exfalso; lia|];
       repeat split; try lia.
Qed.

Lemma cutspace_digit (c : ascii) (r : string) :
  isDigitChar c = true -> time.cutspace (String c r) = String c r.
Proof.
  destruct c as [[] [] [] [] [] [] [] []]; intros H; try reflexivity;
    vm_compute in H; discriminate H.
Qed.

(** A text in the strict pattern is one of the texts [readCivil] reads:
    whether it is accepted depends on its numbers only. *)
Lemma matchesPattern_readCivil (s : string) :
  matchesPattern s = true -> exists c, readCivil s = Some c.
Proof.
  unfold matchesPattern, readCivil.
  do 17 (destruct s as [|? s]; try discriminate).
  repeat parse_step; try discriminate.
  intros Hlast. cbn [andb] in Hlast. rewrite cutspace_digit by assumption.
  unfold readClock.
  repeat match goal with
         | E : isDigitChar ?c = true |- _ => rewrite E; clear E
         end.
  cbn [andb Ascii.eqb Bool.eqb]. eexists. reflexivity.
Qed.

Lemma daysIn_le_31 (m y : Z) : 1 <= m <= 12 -> time.daysIn m y <= 31.
Proof. intros H. exact (daysInMonth_le_31 (time.isLeap y) m H). Qed.

(** The civil reading of a date and clock in UTC is that date and
    clock. *)
Lemma civil_Date (y m d h mi s ns : Z) :
  validDate y m d -> 0 <= h < 24 -> 0 <= mi < 60 -> 0 <= s < 60 ->
  time.civil (time.Date y m d h mi s ns) = time.mkCivil y m d h mi s.
Proof.
  intros V Hh Hmi Hs. unfold time.civil, time.Date.
  cbn [time.sec time.offset]. unfold time.secondsPerDay.
  set (D := time.dayNumber y m d).
  assert ((D * 86400 + h * 3600 + mi * 60 + s + 0) / 86400 = D) as ->
    by (Z.div_mod_to_equations; lia).
  assert ((D * 86400 + h * 3600 + mi * 60 + s + 0) mod 86400 = h * 3600 + mi * 60 + s)
    as -> by (Z.div_mod_to_equations; lia).
  subst D. rewrite absDate_dayNumber by assumption.
  f_equal; Z.div_mod_to_equations; lia.
Qed.

(** What [Format] prints for it under the wire layout. *)
Lemma Format_Date (y m d h mi s ns : Z) :
  validDate y m d -> 0 <= h < 24 -> 0 <= mi < 60 -> 0 <= s < 60 ->
  time.Format (time.Date y m d h mi s ns) time.RFC3339 = wireText y m d h mi s.
Proof.
  intros V Hh Hmi Hs. unfold time.Format. rewrite chunks_RFC3339.
  unfold RFC3339_chunks, time.formatChunks, time.formatChunk.
  rewrite civil_Date by assumption.
  cbn [time.year time.month time.day time.hour time.minute time.second].
  reflexivity.
Qed.

Lemma twoDigits_digits (x : Z) :
  0 <= x < 100 ->
  exists a b, time.twoDigits x = String a (String b EmptyString)
              /\ isDigitChar a = true /\ isDigitChar b = true /\ time.num2 a b = x.
Proof.
  intros H. exists (digitChar (x / 10)), (digitChar (x mod 10)).
  assert (0 <= x / 10 <= 9) by (Z.div_mod_to_equations; lia).
  assert (0 <= x mod 10 <= 9) by (Z.div_mod_to_equations; lia).
  repeat split; try (apply isDigitChar_digitChar; assumption).
  unfold time.num2. rewrite !digitVal_digitChar by assumption.
  Z.div_mod_to_equations; lia.
Qed.

(** Reading back what [Format] printed. *)
Lemma Parse_wireText (y m d h mi s : Z) :
  0 <= y <= 9999 -> validDate y m d -> 0 <= h < 24 -> 0 <= mi < 60 -> 0 <= s < 60 ->
  time.Parse time.RFC3339 (wireText y m d h mi s) = Ok (time.Date y m d h mi s 0).
Proof.
  intros Hy V Hh Hmi Hs.
  pose proof V as [Vm Vd]. pose proof (daysIn_le_31 m y Vm) as H31.
  unfold wireText. rewrite appendInt_4, !appendInt_2 by lia.
  destruct (twoDigits_digits (y / 100)) as (y1 & y2 & -> & Hy1 & Hy2 & Ey);
    [Z.div_mod_to_equations; lia|].
  destruct (twoDigits_digits (y mod 100)) as (y3 & y4 & -> & Hy3 & Hy4 & Ey');
    [Z.div_mod_to_equations; lia|].
  destruct (twoDigits_digits m) as (m1 & m2 & -> & Hm1 & Hm2 & Em); [lia|].
  destruct (twoDigits_digits d) as (d1 & d2 & -> & Hd1 & Hd2 & Ed); [lia|].
  destruct (twoDigits_digits h) as (h1 & h2 & -> & Hh1 & Hh2 & Eh); [lia|].
  destruct (twoDigits_digits mi) as (n1 & n2 & -> & Hn1 & Hn2 & En); [lia|].
  destruct (twoDigits_digits s) as (s1 & s2 & -> & Hs1 & Hs2 & Es); [lia|].
  unfold time.Parse. rewrite chunks_RFC3339.
  unfold RFC3339_chunks.
  unfold time.parseChunks, time.parseChunk, time.parseYear, time.parseSecond,
    time.parseZone, time.getnum, time.skip.
  repeat (simpl;
          progress (rewrite ?Hy1, ?Hy2, ?Hy3, ?Hy4, ?Hm1, ?Hm2, ?Hd1, ?Hd2,
                      ?Hh1, ?Hh2, ?Hn1, ?Hn2, ?Hs1, ?Hs2,
                      ?Ey, ?Ey', ?Em, ?Eh, ?En, ?Es;
                    try replace ((m <=? 0) || (12 <? m)) with false by lia;
                    try replace ((h <? 0) || (24 <=? h)) with false by lia;
                    try replace ((mi <? 0) || (60 <=? mi)) with false by lia;
                    try replace ((s <? 0) || (60 <=? s)) with false by lia)).
  simpl.
  rewrite Ed.
  replace (m =? -1) with false by lia.
  replace (d =? -1) with false by lia.
  replace ((d <? 1) || (time.daysIn m (y / 100 * 100 + y mod 100) <? d)) with false.
  - do 2 f_equal. Z.div_mod_to_equations; lia.
  - replace (y / 100 * 100 + y mod 100) with y by (Z.div_mod_to_equations; lia).
    lia.
Qed.

Lemma string_append_assoc (a b c : string) : (a +:+ b) +:+ c = a +:+ (b +:+ c).
Proof.
  induction a as [|x a IH]; [reflexivity|].
  change ((String x a +:+ b) +:+ c) with (String x ((a +:+ b) +:+ c)).
  now rewrite IH.
Qed.

Lemma string_append_cons (a b : string) (x : ascii) :
  String x a +:+ b = String x (a +:+ b).
Proof. reflexivity. Qed.

Lemma wireText_Z (y m d h mi s : Z) : wireText y m d h mi s = wireBody y m d h mi s +:+ "Z".
Proof.
  unfold wireText, wireBody.
  repeat (rewrite string_append_assoc; rewrite string_append_cons).
  reflexivity.
Qed.

Lemma Parse_timeFormat_ok (s : string) (t : time.Time) :
  time.Parse timeFormat s = Ok t ->
  exists y m d h mi,
    readCivil s = Some (y, m, d, h, mi)
    /\ 0 <= y <= 9999 /\ validDate y m d /\ 0 <= h < 24 /\ 0 <= mi < 60
    /\ t = time.Date y m d h mi 0 0.
Proof.
  intros E. pose proof (Parse_timeFormat_spec s) as S. rewrite E in S.
  destruct S as (y & m & d & h & mi & R & V & Hy & Hh & Hmi & ->).
  exists y, m, d, h, mi. unfold validCivil in V.
  repeat (apply andb_true_iff in V as [V ?]).
  unfold validDate. repeat split; try assumption; lia.
Qed.

Lemma Parse_timeFormat_accepts (s : string) :
  acceptedFormat s = true -> exists t, time.Parse timeFormat s = Ok t.
Proof.
  intros A. pose proof (Parse_timeFormat_spec s) as S.
  destruct (time.Parse timeFormat s) as [t|e]; [eauto | congruence].
Qed.

Lemma Parse_timeFormat_rejects (s : string) :
  acceptedFormat s = false -> exists e, time.Parse timeFormat s = Err e.
Proof.
  intros A. pose proof (Parse_timeFormat_spec s) as S.
  destruct (time.Parse timeFormat s) as [t|e]; [|eauto].
  destruct S as (y & m & d & h & mi & R & V & _).
  unfold acceptedFormat in A. rewrite R in A. congruence.
Qed.

(** What [parseTime] returns on a text it takes: the wire text of the
    same civil date-time, which reads back as the same [Time]. *)
Lemma parseTime_ok (input : string) (t : time.Time) :
  time.Parse timeFormat input = Ok t ->
  exists y m d h mi,
    readCivil input = Some (y, m, d, h, mi)
    /\ 0 <= y <= 9999 /\ validDate y m d /\ 0 <= h < 24 /\ 0 <= mi < 60
    /\ t = time.Date y m d h mi 0 0
    /\ parseTime input = (wireText y m d h mi 0, None)
    /\ time.Parse time.RFC3339 (wireText y m d h mi 0) = Ok t.
Proof.
  intros E.
  destruct (Parse_timeFormat_ok input t E) as (y & m & d & h & mi & R & Hy & V & Hh & Hmi & ->).
  exists y, m, d, h, mi. repeat split; try assumption; try lia; try apply V.
  - unfold parseTime. rewrite E. rewrite Format_Date by (assumption || lia). reflexivity.
  - apply Parse_wireText; (assumption || lia).
Qed.

(* ===================================================================== *)
(** * Strings typed at the terminal *)
(* ===================================================================== *)

(** White space of several bytes ends in a byte that is not ASCII. *)
Lemma isSpace2_last (a b : ascii) : isSpace2 a b = true -> 128 <= byte b.
Proof.
  unfold isSpace2. intros H.
  apply andb_true_iff in H as [_ H]. apply orb_true_iff in H. lia.
Qed.

Lemma isSpace3_last (a b c : ascii) : isSpace3 a b c = true -> 128 <= byte c.
Proof.
  unfold isSpace3. intros H.
  repeat (apply orb_true_iff in H as [H|H]);
    repeat (apply andb_true_iff in H as [H ?]);
    repeat match goal with
           | X : (_ || _) = true |- _ => apply orb_true_iff in X as [X|X]
           | X : (_ && _) = true |- _ => apply andb_true_iff in X as [X ?]
           end; lia.
Qed.

Lemma isSpace2_nl (a : ascii) : isSpace2 a (ascii_of_nat 10) = false.
Proof.
  destruct (isSpace2 a (ascii_of_nat 10)) eqn:E; [|reflexivity].
  apply isSpace2_last in E. vm_compute in E. contradiction E. reflexivity.
Qed.

Lemma isSpace3_nl (a b : ascii) : isSpace3 a b (ascii_of_nat 10) = false.
Proof.
  destruct (isSpace3 a b (ascii_of_nat 10)) eqn:E; [|reflexivity].
  apply isSpace3_last in E. vm_compute in E. contradiction E. reflexivity.
Qed.

(** [TrimLeftSpace] takes one white-space rune off the front at a time. *)
Lemma TrimLeftSpace_step (s : string) :
  TrimLeftSpace s = match cutSpace s with
                    | Some r => TrimLeftSpace r
                    | None => s
                    end.
Proof.
  destruct s as [|a [|b [|c r]]]; cbn [TrimLeftSpace cutSpace]; try reflexivity.
  - destruct (isSpace a); reflexivity.
  - destruct (isSpace a); [reflexivity|]. destruct (isSpace2 a b); reflexivity.
  - destruct (isSpace a); [reflexivity|]. destruct (isSpace2 a b); [reflexivity|].
    destruct (isSpace3 a b c); reflexivity.
Qed.

Lemma trimSpaceRev_step (bs : list ascii) :
  trimSpaceRev bs = match cutSpaceRev bs with
                    | Some r => trimSpaceRev r
                    | None => bs
                    end.
Proof.
  destruct bs as [|c [|b [|a r]]]; cbn [trimSpaceRev cutSpaceRev]; try reflexivity.
  - destruct (isSpace c); reflexivity.
  - destruct (isSpace c); [reflexivity|]. destruct (isSpace2 b c); reflexivity.
  - destruct (isSpace c); [reflexivity|]. destruct (isSpace2 b c); [reflexivity|].
    destruct (isSpace3 a b c); reflexivity.
Qed.

Lemma cutSpace_shorter (s r : string) :
  cutSpace s = Some r -> (String.length r < String.length s)%nat.
Proof.
  destruct s as [|a [|b [|c t]]]; cbn [cutSpace]; try discriminate.
  - destruct (isSpace a); [|discriminate]. intros E. injection E as <-. cbn. lia.
  - destruct (isSpace a); [intros E; injection E as <-; cbn; lia|].
    destruct (isSpace2 a b); [|discriminate]. intros E. injection E as <-. cbn. lia.
  - destruct (isSpace a); [intros E; injection E as <-; cbn; lia|].
    destruct (isSpace2 a b); [intros E; injection E as <-; cbn; lia|].
    destruct (isSpace3 a b c); [|discriminate]. intros E. injection E as <-. cbn. lia.
Qed.

Lemma cutSpaceRev_shorter (bs r : list ascii) :
  cutSpaceRev bs = Some r -> (length r < length bs)%nat.
Proof.
  destruct bs as [|c [|b [|a t]]]; cbn [cutSpaceRev]; try discriminate.
  - destruct (isSpace c); [|discriminate]. intros E. injection E as <-. cbn. lia.
  - destruct (isSpace c); [intros E; injection E as <-; cbn; lia|].
    destruct (isSpace2 b c); [|discriminate]. intros E. injection E as <-. cbn. lia.
  - destruct (isSpace c); [intros E; injection E as <-; cbn; lia|].
    destruct (isSpace2 b c); [intros E; injection E as <-; cbn; lia|].
    destruct (isSpace3 a b c); [|discriminate]. intros E. injection E as <-. cbn. lia.
Qed.

(** Induction along the runes that [TrimLeftSpace] takes off. *)
Lemma cutSpace_ind (P : string -> Prop) :
  (forall s, (forall r, cutSpace s = Some r -> P r) -> P s) -> forall s, P s.
Proof.
  intros Step s.
  assert (forall n s, (String.length s < n)%nat -> P s) as H.
  { induction n as [|n IH]; intros t L; [lia|].
    apply Step. intros r E. apply IH. apply cutSpace_shorter in E. lia. }
  apply (H (S (String.length s))). lia.
Qed.

Lemma cutSpaceRev_ind (P : list ascii -> Prop) :
  (forall bs, (forall r, cutSpaceRev bs = Some r -> P r) -> P bs) -> forall bs, P bs.
Proof.
  intros Step bs.
  assert (forall n bs, (length bs < n)%nat -> P bs) as H.
  { induction n as [|n IH]; intros t L; [lia|].
    apply Step. intros r E. apply IH. apply cutSpaceRev_shorter in E. lia. }
  apply (H (S (length bs))). lia.
Qed.

(** A line feed after the text does not change what is cut off its
    front, unless the text is empty. *)
Lemma cutSpace_nl (s : string) :
  s <> "" ->
  cutSpace (s +:+ nl) = match cutSpace s with
                        | Some r => Some (r +:+ nl)
                        | None => None
                        end.
Proof.
  intros N. destruct s as [|a [|b [|c r]]]; [congruence| | |].
  - change (String a "" +:+ nl) with (String a (String (ascii_of_nat 10) "")).
    cbn [cutSpace]. destruct (isSpace a); [reflexivity|].
    rewrite isSpace2_nl. reflexivity.
  - change (String a (String b "") +:+ nl)
      with (String a (String b (String (ascii_of_nat 10) ""))).
    cbn [cutSpace]. destruct (isSpace a); [reflexivity|].
    destruct (isSpace2 a b); [reflexivity|].
    rewrite isSpace3_nl. reflexivity.
  - change (String a (String b (String c r)) +:+ nl)
      with (String a (String b (String c (r +:+ nl)))).
    cbn [cutSpace]. destruct (isSpace a); [reflexivity|].
    destruct (isSpace2 a b); [reflexivity|].
    destruct (isSpace3 a b c); reflexivity.
Qed.

Lemma TrimLeftSpace_nl (s : string) :
  TrimLeftSpace (s +:+ nl)
  = match TrimLeftSpace s with
    | EmptyString => EmptyString
    | t => t +:+ nl
    end.
Proof.
  induction s as [s IH] using cutSpace_ind.
  destruct s as [|a t] eqn:Es; [reflexivity|]. rewrite <- Es in *.
  assert (s <> "") as N by (rewrite Es; discriminate).
  rewrite (TrimLeftSpace_step (s +:+ nl)), (TrimLeftSpace_step s).
  rewrite (cutSpace_nl s N).
  destruct (cutSpace s) as [r|]; [apply IH; reflexivity|].
  rewrite Es. reflexivity.
Qed.

Lemma list_ascii_of_string_app (a b : string) :
  list_ascii_of_string (a +:+ b) = (list_ascii_of_string a ++ list_ascii_of_string b)%list.
Proof.
  induction a as [|c a IH]; [reflexivity|].
  change (String c a +:+ b) with (String c (a +:+ b)).
  cbn [list_ascii_of_string app]. now rewrite IH.
Qed.

(** The line feed that ends a line is trimmed away with the rest. *)
Lemma TrimRightSpace_nl (s : string) : TrimRightSpace (s +:+ nl) = TrimRightSpace s.
Proof.
  unfold TrimRightSpace. rewrite list_ascii_of_string_app, rev_app_distr.
  reflexivity.
Qed.

Lemma TrimSpace_line (l : string) : TrimSpace (l +:+ nl) = TrimSpace l.
Proof.
  unfold TrimSpace. rewrite TrimLeftSpace_nl.
  destruct (TrimLeftSpace l) as [|c t]; [reflexivity|].
  apply TrimRightSpace_nl.
Qed.

(** Only "y" and "Y" are "y" in lower case. *)
Lemma lowerChar_y (c : ascii) :
  lowerChar c = "y"%char <-> c = "y"%char \/ c = "Y"%char.
Proof.
  destruct c as [[] [] [] [] [] [] [] []]; vm_compute;
    split; intros H; try discriminate H; try (destruct H as [H|H]; discriminate H);
    auto.
Qed.

Lemma ToLower_y (s : string) : ToLower s = "y" <-> s = "y" \/ s = "Y".
Proof.
  destruct s as [|c [|c' s]]; cbn [ToLower].
  - split; [discriminate | intros [H|H]; discriminate H].
  - split.
    + intros H. injection H as H. apply lowerChar_y in H as [-> | ->]; auto.
    + intros [H|H]; injection H as ->; reflexivity.
  - split; [discriminate | intros [H|H]; discriminate H].
Qed.

Lemma isEmpty_true (s : string) : isEmpty s = true <-> s = "".
Proof. destruct s; cbn; split; congruence. Qed.

Lemma isEmpty_false (s : string) : isEmpty s = false <-> s <> "".
Proof. destruct s; cbn; split; congruence. Qed.

(* ===================================================================== *)
(** * Running the program *)
(* ===================================================================== *)

Lemma bind_run {A B} (m : M A) (k : A -> M B) (w : World) :
  (m ≫= k) w = match m w with
               | (Ok a, w') => k a w'
               | (Err e, w') => (Err e, w')
               end.
Proof. reflexivity. Qed.

(** A prompt with a line to read, and one at the end of the input. *)
Lemma promptForInput_line (msg l : string) (rest : list string) (out : string)
    (cs : list Call) (fs : gmap string string) (dn : gset string) :
  promptForInput msg (mkWorld (l :: rest) out cs fs dn)
  = (Ok (TrimSpace l), mkWorld rest (out +:+ msg) cs fs dn).
Proof.
  unfold promptForInput, mbind, M_bind, print, readLine, mret, M_ret.
  cbn [stdin stdout calls files denied]. now rewrite TrimSpace_line.
Qed.

Lemma promptForInput_eof (msg out : string)
    (cs : list Call) (fs : gmap string string) (dn : gset string) :
  promptForInput msg (mkWorld [] out cs fs dn)
  = (Err EOF, mkWorld [] (out +:+ msg) cs fs dn).
Proof. reflexivity. Qed.

Lemma setStartDateTime_same (e : Event) : setStartDateTime e (DateTime (Start e)) = e.
Proof. destruct e as [i s d [a b c] en st at_]. reflexivity. Qed.

Lemma setEndDateTime_same (e : Event) : setEndDateTime e (DateTime (End_ e)) = e.
Proof. destruct e as [i s d st [a b c] sta at_]. reflexivity. Qed.

Lemma submitUpdate_run (srv : Service) (calendarID id : string) (event : Event)
    (inp : list string) (out : string) (cs : list Call)
    (fs : gmap string string) (dn : gset string) :
  exists r out',
    submitUpdate srv calendarID id event (mkWorld inp out cs fs dn)
    = (r, mkWorld inp out' (cs ++ [CallUpdate calendarID id event]) fs dn).
Proof.
  unfold submitUpdate, mbind, M_bind, send. cbn [stdin stdout calls files denied].
  destruct (Events_Update srv calendarID id event) as [updated|err];
    eexists _, _; reflexivity.
Qed.

Lemma parseTimeM_run (input : string) (w : World) :
  parseTimeM input w
  = match parseTime input with
    | (_, Some err) => (Err err, w)
    | (s, None) => (Ok s, w)
    end.
Proof.
  unfold parseTimeM. destruct (parseTime input) as [s [err|]]; reflexivity.
Qed.

(** The time gate, prompt by prompt. *)
Lemma updateTimes_run (event : Event) (startLine endLine : string)
    (rest : list string) (out : string) (cs : list Call)
    (fs : gmap string string) (dn : gset string) :
  exists out1 out2,
    updateTimes event (mkWorld (startLine :: endLine :: rest) out cs fs dn)
    = match mergeBound (DateTime (Start event)) (TrimSpace startLine) with
      | (_, Some err) => (Err err, mkWorld (endLine :: rest) out1 cs fs dn)
      | (s, None) =>
          match mergeBound (DateTime (End_ event)) (TrimSpace endLine) with
          | (_, Some err) => (Err err, mkWorld rest out2 cs fs dn)
          | (e, None) =>
              if time.Before (time.valueOf (time.Parse time.RFC3339 e))
                             (time.valueOf (time.Parse time.RFC3339 s))
              then (Err ValidationError, mkWorld rest out2 cs fs dn)
              else (Ok (mergedTimes event s e), mkWorld rest out2 cs fs dn)
          end
      end.
Proof.
  eexists _, _. unfold updateTimes, mergeBound, mergedTimes.
  rewrite bind_run, promptForInput_line.
  rewrite bind_run.
  destruct (isEmpty (TrimSpace startLine)) eqn:Es; cbn [negb].
  - unfold mret at 1, M_ret at 1.
    rewrite bind_run, promptForInput_line, bind_run.
    destruct (isEmpty (TrimSpace endLine)) eqn:Ee; cbn [negb].
    + unfold mret at 1, M_ret at 1.
      rewrite setStartDateTime_same, setEndDateTime_same.
      destruct (time.Before _ _); reflexivity.
    + rewrite bind_run, parseTimeM_run.
      destruct (parseTime (TrimSpace endLine)) as [e [err|]]; [reflexivity|].
      unfold mret at 1, M_ret at 1.
      rewrite setStartDateTime_same.
      destruct (time.Before _ _); reflexivity.
  - rewrite bind_run, parseTimeM_run.
    destruct (parseTime (TrimSpace startLine)) as [s [err|]]; [reflexivity|].
    unfold mret at 1, M_ret at 1.
    rewrite bind_run, promptForInput_line, bind_run.
    destruct (isEmpty (TrimSpace endLine)) eqn:Ee; cbn [negb].
    + unfold mret at 1, M_ret at 1.
      change (DateTime (End_ (setStartDateTime event s))) with (DateTime (End_ event)).
      replace (setEndDateTime (setStartDateTime event s) (DateTime (End_ event)))
        with (setStartDateTime event s)
        by (symmetry; apply (setEndDateTime_same (setStartDateTime event s))).
      destruct (time.Before _ _); reflexivity.
    + rewrite bind_run, parseTimeM_run.
      destruct (parseTime (TrimSpace endLine)) as [e [err|]]; [reflexivity|].
      unfold mret at 1, M_ret at 1.
      destruct (time.Before _ _); reflexivity.
Qed.

(** [updateEvent] up to the time gate. *)
Lemma updateEvent_run (srv : Service) (calendarID idLine titleLine descLine gateLine : string)
    (rest : list string) (out : string) (cs : list Call)
    (fs : gmap string string) (dn : gset string) (event : Event) :
  Events_Get srv calendarID (TrimSpace idLine) = Ok event ->
  exists out3,
    updateEvent srv calendarID
      (mkWorld (idLine :: titleLine :: descLine :: gateLine :: rest) out cs fs dn)
    = let id := TrimSpace idLine in
      let merged := mergedText event (TrimSpace titleLine) (TrimSpace descLine) in
      let w3 := mkWorld rest out3 (cs ++ [CallGet calendarID id]) fs dn in
      if String.eqb (ToLower (TrimSpace gateLine)) "y" then
        match updateTimes merged w3 with
        | (Ok event', w4) => submitUpdate srv calendarID id event' w4
        | (Err err, w4) => (Err err, w4)
        end
      else submitUpdate srv calendarID id merged w3.
Proof.
  intros G. eexists. unfold updateEvent.
  rewrite bind_run, promptForInput_line.
  rewrite bind_run. unfold send at 1. cbn [stdin stdout calls files denied].
  rewrite G.
  rewrite bind_run. unfold print at 1. cbn [stdin stdout calls files denied].
  rewrite bind_run, promptForInput_line.
  rewrite bind_run. unfold print at 1. cbn [stdin stdout calls files denied].
  rewrite bind_run, promptForInput_line.
  rewrite bind_run, promptForInput_line.
  rewrite bind_run. cbv zeta. unfold mergedText.
  destruct (String.eqb (ToLower (TrimSpace gateLine)) "y"); reflexivity.
Qed.

Lemma eqb_y_true (s : string) : String.eqb (ToLower s) "y" = true <-> s = "y" \/ s = "Y".
Proof. rewrite String.eqb_eq. apply ToLower_y. Qed.

Lemma eqb_y_false (s : string) :
  String.eqb (ToLower s) "y" = false <-> s <> "y" /\ s <> "Y".
Proof.
  rewrite String.eqb_neq, ToLower_y. tauto.
Qed.

(** With the gate declined the merged event is submitted. *)
Lemma updateEvent_declined (srv : Service)
    (calendarID idLine titleLine descLine gateLine : string)
    (rest : list string) (out : string) (cs : list Call)
    (fs : gmap string string) (dn : gset string) (event : Event) :
  Events_Get srv calendarID (TrimSpace idLine) = Ok event ->
  TrimSpace gateLine <> "y" -> TrimSpace gateLine <> "Y" ->
  exists r w',
    updateEvent srv calendarID
      (mkWorld (idLine :: titleLine :: descLine :: gateLine :: rest) out cs fs dn)
    = (r, w')
    /\ calls w' = (cs ++ [CallGet calendarID (TrimSpace idLine);
                         CallUpdate calendarID (TrimSpace idLine)
                           (mergedText event (TrimSpace titleLine) (TrimSpace descLine))])%list.
Proof.
  intros G N1 N2.
  destruct (updateEvent_run srv calendarID idLine titleLine descLine gateLine
              rest out cs fs dn event G) as [out3 E].
  rewrite E. cbv zeta.
  replace (String.eqb (ToLower (TrimSpace gateLine)) "y") with false
    by (symmetry; apply eqb_y_false; auto).
  destruct (submitUpdate_run srv calendarID (TrimSpace idLine)
              (mergedText event (TrimSpace titleLine) (TrimSpace descLine))
              rest out3 (cs ++ [CallGet calendarID (TrimSpace idLine)]) fs dn)
    as (r & out' & S).
  rewrite S. eexists _, _. split; [reflexivity|].
  cbn [calls]. now rewrite <- app_assoc.
Qed.

(** With the gate entered: what the two bound prompts and the check
    decide. *)
Lemma updateEvent_entered (srv : Service)
    (calendarID idLine titleLine descLine gateLine startLine endLine : string)
    (rest : list string) (out : string) (cs : list Call)
    (fs : gmap string string) (dn : gset string) (event : Event) (s e : string) :
  Events_Get srv calendarID (TrimSpace idLine) = Ok event ->
  TrimSpace gateLine = "y" \/ TrimSpace gateLine = "Y" ->
  mergeBound (DateTime (Start event)) (TrimSpace startLine) = (s, None) ->
  mergeBound (DateTime (End_ event)) (TrimSpace endLine) = (e, None) ->
  exists r w',
    updateEvent srv calendarID
      (mkWorld (idLine :: titleLine :: descLine :: gateLine :: startLine :: endLine :: rest)
         out cs fs dn)
    = (r, w')
    /\ if time.Before (time.valueOf (time.Parse time.RFC3339 e))
                      (time.valueOf (time.Parse time.RFC3339 s))
       then r = Err ValidationError
            /\ calls w' = (cs ++ [CallGet calendarID (TrimSpace idLine)])%list
       else calls w' = (cs ++ [CallGet calendarID (TrimSpace idLine);
                              CallUpdate calendarID (TrimSpace idLine)
                                (mergedTimes
                                   (mergedText event (TrimSpace titleLine) (TrimSpace descLine))
                                   s e)])%list.
Proof.
  intros G Y Ms Me.
  destruct (updateEvent_run srv calendarID idLine titleLine descLine gateLine
              (startLine :: endLine :: rest) out cs fs dn event G) as [out3 E].
  rewrite E. cbv zeta.
  replace (String.eqb (ToLower (TrimSpace gateLine)) "y") with true
    by (symmetry; apply eqb_y_true; auto).
  set (merged := mergedText event (TrimSpace titleLine) (TrimSpace descLine)).
  destruct (updateTimes_run merged startLine endLine rest out3
              (cs ++ [CallGet calendarID (TrimSpace idLine)]) fs dn)
    as (out1 & out2 & T).
  rewrite T.
  assert (DateTime (Start merged) = DateTime (Start event)) as ->
    by (unfold merged, mergedText;
        destruct (isEmpty (TrimSpace titleLine)), (isEmpty (TrimSpace descLine));
        reflexivity).
  assert (DateTime (End_ merged) = DateTime (End_ event)) as ->
    by (unfold merged, mergedText;
        destruct (isEmpty (TrimSpace titleLine)), (isEmpty (TrimSpace descLine));
        reflexivity).
  rewrite Ms, Me.
  destruct (time.Before _ _).
  - eexists _, _. split; [reflexivity|]. split; reflexivity.
  - destruct (submitUpdate_run srv calendarID (TrimSpace idLine) (mergedTimes merged s e)
                rest out2 (cs ++ [CallGet calendarID (TrimSpace idLine)]) fs dn)
      as (r & out' & S).
    rewrite S. eexists _, _. split; [reflexivity|].
    cbn [calls]. now rewrite <- app_assoc.
Qed.

(** [createEvent] with its four answers read and both times parsed. *)
Lemma createEvent_run (srv : Service) (calendarID titleLine descLine startLine endLine : string)
    (rest : list string) (out : string) (cs : list Call)
    (fs : gmap string string) (dn : gset string) (ts te : time.Time) :
  time.Parse timeFormat (TrimSpace startLine) = Ok ts ->
  time.Parse timeFormat (TrimSpace endLine) = Ok te ->
  exists r w',
    createEvent srv calendarID
      (mkWorld (titleLine :: descLine :: startLine :: endLine :: rest) out cs fs dn)
    = (r, w')
    /\ if time.Before te ts
       then r = Err ValidationError /\ calls w' = cs
       else calls w' =
              (cs ++ [CallInsert calendarID
                        (mkEvent "" (TrimSpace titleLine) (TrimSpace descLine)
                           (mkEventDateTime "" (fst (parseTime (TrimSpace startLine))) timeZone)
                           (mkEventDateTime "" (fst (parseTime (TrimSpace endLine))) timeZone)
                           "" [])])%list.
Proof.
  intros Ps Pe.
  destruct (parseTime_ok _ _ Ps) as (y & m & d & h & mi & _ & _ & _ & _ & _ & _ & Es & Rs).
  destruct (parseTime_ok _ _ Pe) as (y' & m' & d' & h' & mi' & _ & _ & _ & _ & _ & _ & Ee & Re).
  unfold createEvent.
  rewrite bind_run, promptForInput_line.
  rewrite bind_run, promptForInput_line.
  rewrite bind_run, promptForInput_line.
  rewrite bind_run, parseTimeM_run, Es.
  rewrite bind_run, promptForInput_line.
  rewrite bind_run, parseTimeM_run, Ee.
  cbv zeta. rewrite Rs, Re. cbn [time.valueOf fst].
  destruct (time.Before te ts).
  - eexists _, _. split; [reflexivity|]. split; reflexivity.
  - rewrite bind_run. unfold send at 1. cbn [stdin stdout calls files denied].
    destruct (Events_Insert srv calendarID _) as [created|err];
      eexists _, _; (split; [reflexivity|]); reflexivity.
Qed.

(** [deleteEvent] with its two answers read. *)
Lemma deleteEvent_run (srv : Service) (calendarID idLine confirmLine : string)
    (rest : list string) (out : string) (cs : list Call)
    (fs : gmap string string) (dn : gset string) :
  let id := TrimSpace idLine in
  let asked := (out +:+ "Event ID to delete: ")
               +:+ ("Are you sure you want to delete event " +:+ id +:+ "? (y/n): ") in
  deleteEvent srv calendarID (mkWorld (idLine :: confirmLine :: rest) out cs fs dn)
  = if String.eqb (ToLower (TrimSpace confirmLine)) "y" then
      match Events_Delete srv calendarID id with
      | Some err =>
          (Err (Wrapf "unable to delete event: " err),
           mkWorld rest asked (cs ++ [CallDelete calendarID id]) fs dn)
      | None =>
          (Ok tt,
           mkWorld rest (asked +:+ ("Event deleted successfully." +:+ nl))
             (cs ++ [CallDelete calendarID id]) fs dn)
      end
    else (Ok tt, mkWorld rest (asked +:+ ("Deletion cancelled." +:+ nl)) cs fs dn).
Proof.
  cbv zeta. unfold deleteEvent.
  rewrite bind_run, promptForInput_line.
  rewrite bind_run, promptForInput_line.
  destruct (String.eqb (ToLower (TrimSpace confirmLine)) "y"); cbn [negb].
  - rewrite bind_run. unfold send at 1. cbn [stdin stdout calls files denied].
    destruct (Events_Delete srv calendarID (TrimSpace idLine)); reflexivity.
  - reflexivity.
Qed.

Lemma printCalendars_run (cals : list CalendarListEntry) (i : Z)
    (inp : list string) (out : string) (cs : list Call)
    (fs : gmap string string) (dn : gset string) :
  exists out', printCalendars i cals (mkWorld inp out cs fs dn)
               = (Ok tt, mkWorld inp out' cs fs dn).
Proof.
  revert i out. induction cals as [|cal cals IH]; intros i out.
  - eexists. reflexivity.
  - cbn [printCalendars]. rewrite bind_run. unfold print at 1.
    cbn [stdin stdout calls files denied]. apply IH.
Qed.

Lemma listCalendars_run (srv : Service) (items : list CalendarListEntry)
    (inp : list string) (out : string) (cs : list Call)
    (fs : gmap string string) (dn : gset string) :
  CalendarList_List srv = Ok items ->
  exists out', listCalendars srv (mkWorld inp out cs fs dn)
               = (Ok items, mkWorld inp out' (cs ++ [CallCalendarList]) fs dn).
Proof.
  intros L. unfold listCalendars.
  rewrite bind_run. unfold send at 1. cbn [stdin stdout calls files denied].
  rewrite L. rewrite bind_run. unfold println at 1, print at 1.
  cbn [stdin stdout calls files denied].
  rewrite bind_run.
  destruct (printCalendars_run items 0 inp
              (out +:+ (nl +:+ "Available calendars:") +:+ nl)
              (cs ++ [CallCalendarList]) fs dn) as [out' P].
  rewrite P. rewrite bind_run. unfold println at 1, print at 1.
  cbn [stdin stdout calls files denied]. eexists. reflexivity.
Qed.

(** The decision [selectCalendar] takes after the prompt: any text that
    scans as an integer selects the FIRST calendar, any other text is
    the identifier itself. *)
Lemma selectCalendar_run (srv : Service) (first : CalendarListEntry)
    (others : list CalendarListEntry) (line : string)
    (rest : list string) (out : string) (cs : list Call)
    (fs : gmap string string) (dn : gset string) :
  CalendarList_List srv = Ok (first :: others) ->
  exists w',
    selectCalendar srv (mkWorld (line :: rest) out cs fs dn)
    = (Ok (if isOk (fmt.scanInt (TrimSpace line)) then cal_Id first else TrimSpace line),
       w').
Proof.
  intros L. unfold selectCalendar.
  rewrite bind_run.
  destruct (listCalendars_run srv _ (line :: rest) out cs fs dn L) as [out' E].
  rewrite E.
  change (Z.of_nat (length (first :: others)) =? 0) with false. cbv iota.
  rewrite bind_run, promptForInput_line.
  unfold fmt.Sscanf_d.
  destruct (fmt.scanInt (TrimSpace line)) as [v|e]; cbn [isOk isNil andb].
  - change (0 <? 1) with true. cbv iota.
    replace (1 <=? Z.of_nat (length (first :: others))) with true
      by (symmetry; apply Z.leb_le;
          change (length (first :: others)) with (S (length others)); lia).
    cbn [andb]. change (Z.to_nat (1 - 1)) with 0%nat. cbn [nth_error].
    eexists. reflexivity.
  - eexists. reflexivity.
Qed.

(* ===================================================================== *)
(** * The credential store *)
(* ===================================================================== *)

Section CredentialStoreFacts.

Variable json_Marshal : Token -> Result string.
Variable json_Decode : string -> Result Token.

(** A save that can open the path leaves exactly the encoding and a line
    feed there, whatever was there before. *)
Lemma saveToken_run (path : string) (token : Token) (data : string)
    (inp : list string) (out : string) (cs : list Call)
    (fs : gmap string string) (dn : gset string) :
  path ∉ dn ->
  json_Marshal token = Ok data ->
  saveToken json_Marshal path token (mkWorld inp out cs fs dn)
  = (Ok tt, mkWorld inp out cs (<[path := data +:+ nl]> fs) dn).
Proof.
  intros Hp Hm. unfold saveToken. rewrite bind_run.
  unfold orWrap, os_OpenFile_trunc. cbn [stdin stdout calls files denied].
  destruct (decide (path ∈ dn)) as [Hin|_]; [contradiction|].
  rewrite bind_run. unfold lift. rewrite Hm.
  unfold os_Write. cbn [stdin stdout calls files denied].
  rewrite lookup_insert_eq. cbn [default].
  rewrite insert_insert_eq. reflexivity.
Qed.

Lemma saveToken_denied (path : string) (token : Token) (w : World) :
  path ∈ denied w ->
  exists err, saveToken json_Marshal path token w
              = (Err (Wrapf "unable to cache oauth token: " err), w).
Proof.
  intros Hp. unfold saveToken. rewrite bind_run.
  unfold orWrap, os_OpenFile_trunc.
  destruct (decide (path ∈ denied w)) as [_|Hn]; [|contradiction].
  eexists. reflexivity.
Qed.

Lemma tokenFromFile_missing (file : string) (w : World) :
  file ∉ denied w -> files w !! file = None ->
  tokenFromFile json_Decode file w
  = (Err (PathError "open" file "no such file or directory"), w).
Proof.
  intros Hd Hf. unfold tokenFromFile. rewrite bind_run. unfold os_Open.
  destruct (decide (file ∈ denied w)) as [Hin|_]; [contradiction|].
  rewrite Hf. reflexivity.
Qed.

Lemma tokenFromFile_present (file contents : string) (w : World) :
  file ∉ denied w -> files w !! file = Some contents ->
  tokenFromFile json_Decode file w = (json_Decode contents, w).
Proof.
  intros Hd Hf. unfold tokenFromFile. rewrite bind_run. unfold os_Open.
  destruct (decide (file ∈ denied w)) as [Hin|_]; [contradiction|].
  rewrite Hf. reflexivity.
Qed.

End CredentialStoreFacts.

(* ===================================================================== *)
(** * The claims *)
(* ===================================================================== *)

(** C1.  What the calendar selector does with a number.  [fmt.Sscanf]
    returns the count of scanned operands, which is 1 whenever the input
    starts with an integer, and [selectCalendar] uses that count as the
    position.  So for every non-empty calendar list, every input that
    scans as an integer [n], in range or not, selects the FIRST
    calendar: the [n]-th one is not reached and no number is refused.
    Only input that does not scan as an integer is treated as the claim
    says: it is returned unchanged. *)
Theorem selectCalendar_number_selects_first
    (srv : Service) (first : CalendarListEntry) (others : list CalendarListEntry)
    (line : string) (rest : list string) (out : string) (cs : list Call)
    (fs : gmap string string) (dn : gset string) :
  CalendarList_List srv = Ok (first :: others) ->
  let w := mkWorld (line :: rest) out cs fs dn in
  (forall n : Z, fmt.scanInt (TrimSpace line) = Ok n ->
                 fst (selectCalendar srv w) = Ok (cal_Id first))
  /\ (isOk (fmt.scanInt (TrimSpace line)) = false ->
      fst (selectCalendar srv w) = Ok (TrimSpace line)).
Proof.
  intros L. cbv zeta.
  destruct (selectCalendar_run srv first others line rest out cs fs dn L) as [w' E].
  rewrite E. cbn [fst]. split.
  - intros n S. rewrite S. reflexivity.
  - intros S. rewrite S. reflexivity.
Qed.

Lemma selectCalendar_number_selects_first_witness :
  nth_error threeCalendars 1 = Some (mkCalendar "id_home" "Home")
  /\ fst (selectCalendar sampleService (terminal ["2"])) = Ok "id_work"
  /\ fst (selectCalendar sampleService (terminal ["7"])) = Ok "id_work"
  /\ fst (selectCalendar sampleService (terminal ["cal_abcdef"])) = Ok "cal_abcdef".
Proof.
  split; [reflexivity|]. split; [|split].
  - apply (proj1 (selectCalendar_number_selects_first sampleService
                    (mkCalendar "id_work" "Work") _ "2" [] "" [] ∅ ∅ eq_refl) 2).
    reflexivity.
  - apply (proj1 (selectCalendar_number_selects_first sampleService
                    (mkCalendar "id_work" "Work") _ "7" [] "" [] ∅ ∅ eq_refl) 7).
    reflexivity.
  - apply (proj2 (selectCalendar_number_selects_first sampleService
                    (mkCalendar "id_work" "Work") _ "cal_abcdef" [] "" [] ∅ ∅ eq_refl)).
    reflexivity.
Defined.

(** C2.  An end before the start is refused before anything is sent.
    Create: whenever both answers parse, an end before the start makes
    [createEvent] return the validation error with no request recorded,
    and any other pair lets the Insert through.  Update, inside the time
    gate: the same for the merged bounds (each the parsed answer, or the
    current text when the answer is empty) whenever both read as wire
    timestamps; the only request recorded on refusal is the Get. *)
Theorem end_before_start_is_refused :
  (forall (srv : Service) (calendarID titleLine descLine startLine endLine : string)
          (rest : list string) (out : string) (cs : list Call)
          (fs : gmap string string) (dn : gset string) (ts te : time.Time),
      time.Parse timeFormat (TrimSpace startLine) = Ok ts ->
      time.Parse timeFormat (TrimSpace endLine) = Ok te ->
      exists r w',
        createEvent srv calendarID
          (mkWorld (titleLine :: descLine :: startLine :: endLine :: rest) out cs fs dn)
        = (r, w')
        /\ (time.Before te ts = true -> r = Err ValidationError /\ calls w' = cs)
        /\ (time.Before te ts = false ->
            exists event, calls w' = (cs ++ [CallInsert calendarID event])%list))
  /\
  (forall (srv : Service)
          (calendarID idLine titleLine descLine gateLine startLine endLine : string)
          (rest : list string) (out : string) (cs : list Call)
          (fs : gmap string string) (dn : gset string)
          (event : Event) (s e : string) (ts te : time.Time),
      Events_Get srv calendarID (TrimSpace idLine) = Ok event ->
      TrimSpace gateLine = "y" \/ TrimSpace gateLine = "Y" ->
      mergeBound (DateTime (Start event)) (TrimSpace startLine) = (s, None) ->
      mergeBound (DateTime (End_ event)) (TrimSpace endLine) = (e, None) ->
      time.Parse time.RFC3339 s = Ok ts ->
      time.Parse time.RFC3339 e = Ok te ->
      exists r w',
        updateEvent srv calendarID
          (mkWorld (idLine :: titleLine :: descLine :: gateLine :: startLine :: endLine :: rest)
             out cs fs dn)
        = (r, w')
        /\ (time.Before te ts = true ->
            r = Err ValidationError
            /\ calls w' = (cs ++ [CallGet calendarID (TrimSpace idLine)])%list)
        /\ (time.Before te ts = false ->
            exists event',
              calls w' = (cs ++ [CallGet calendarID (TrimSpace idLine);
                                 CallUpdate calendarID (TrimSpace idLine) event'])%list)).
Proof.
  split.
  - intros srv calendarID titleLine descLine startLine endLine rest out cs fs dn ts te Ps Pe.
    destruct (createEvent_run srv calendarID titleLine descLine startLine endLine
                rest out cs fs dn ts te Ps Pe) as (r & w' & E & C).
    exists r, w'. split; [exact E|].
    destruct (time.Before te ts); split; intros B; try discriminate B.
    + exact C.
    + eexists. exact C.
  - intros srv calendarID idLine titleLine descLine gateLine startLine endLine
      rest out cs fs dn event s e ts te G Y Ms Me Ps Pe.
    destruct (updateEvent_entered srv calendarID idLine titleLine descLine gateLine
                startLine endLine rest out cs fs dn event s e G Y Ms Me)
      as (r & w' & E & C).
    rewrite Ps, Pe in C. cbn [time.valueOf] in C.
    exists r, w'. split; [exact E|].
    destruct (time.Before te ts); split; intros B; try discriminate B.
    + exact C.
    + eexists. exact C.
Qed.

Lemma end_before_start_is_refused_witness :
  (exists w', createEvent sampleService "id_work"
                (terminal ["Review"; "Quarterly"; "2024-03-15 09:30"; "2024-03-15 08:30"])
              = (Err ValidationError, w') /\ calls w' = [])
  /\ (exists w', updateEvent sampleService "id_work"
                   (terminal ["evt1"; ""; ""; "y"; ""; "2024-03-15 03:00"])
                 = (Err ValidationError, w') /\ calls w' = [CallGet "id_work" "evt1"]).
Proof.
  split.
  - destruct (proj1 end_before_start_is_refused sampleService "id_work"
                "Review" "Quarterly" "2024-03-15 09:30" "2024-03-15 08:30" [] "" [] ∅ ∅
                (time.mkTime 63846091800 0 0) (time.mkTime 63846088200 0 0)
                eq_refl eq_refl) as (r & w' & E & R & _).
    destruct (R eq_refl) as [-> C]. exists w'. split; [exact E | exact C].
  - destruct (proj2 end_before_start_is_refused sampleService "id_work"
                "evt1" "" "" "y" "" "2024-03-15 03:00" [] "" [] ∅ ∅
                standup "2024-03-15T09:30:00+05:30" "2024-03-15T03:00:00Z"
                (time.mkTime 63846072000 0 19800) (time.mkTime 63846068400 0 0)
                eq_refl (or_introl eq_refl) eq_refl eq_refl eq_refl eq_refl)
      as (r & w' & E & R & _).
    destruct (R eq_refl) as [-> C]. exists w'. split; [exact E | exact C].
Defined.

(** C3.  Delete asks before it acts.  With the identifier and the
    confirmation typed, any confirmation other than "y" or "Y" sends
    nothing, prints the cancellation notice and returns without error;
    "y" or "Y" sends the Delete request. *)
Theorem deleteEvent_needs_confirmation
    (srv : Service) (calendarID idLine confirmLine : string)
    (rest : list string) (out : string) (cs : list Call)
    (fs : gmap string string) (dn : gset string) :
  let w := mkWorld (idLine :: confirmLine :: rest) out cs fs dn in
  let id := TrimSpace idLine in
  let confirm := TrimSpace confirmLine in
  let asked := (out +:+ "Event ID to delete: ")
               +:+ ("Are you sure you want to delete event " +:+ id +:+ "? (y/n): ") in
  (confirm <> "y" -> confirm <> "Y" ->
   deleteEvent srv calendarID w
   = (Ok tt, mkWorld rest (asked +:+ ("Deletion cancelled." +:+ nl)) cs fs dn))
  /\ (confirm = "y" \/ confirm = "Y" ->
      exists r w', deleteEvent srv calendarID w = (r, w')
                   /\ calls w' = (cs ++ [CallDelete calendarID id])%list).
Proof.
  cbv zeta. pose proof (deleteEvent_run srv calendarID idLine confirmLine
                          rest out cs fs dn) as R. cbv zeta in R.
  split.
  - intros N1 N2. rewrite R.
    replace (String.eqb (ToLower (TrimSpace confirmLine)) "y") with false
      by (symmetry; apply eqb_y_false; auto).
    reflexivity.
  - intros Y. rewrite R.
    replace (String.eqb (ToLower (TrimSpace confirmLine)) "y") with true
      by (symmetry; apply eqb_y_true; auto).
    destruct (Events_Delete srv calendarID (TrimSpace idLine));
      eexists _, _; split; reflexivity.
Qed.

Lemma deleteEvent_needs_confirmation_witness :
  deleteEvent sampleService "id_work" (terminal ["evt1"; "n"])
  = (Ok tt,
     mkWorld []
       ((("" +:+ "Event ID to delete: ")
         +:+ ("Are you sure you want to delete event " +:+ "evt1" +:+ "? (y/n): "))
        +:+ ("Deletion cancelled." +:+ nl)) [] ∅ ∅)
  /\ exists r w', deleteEvent sampleService "id_work" (terminal ["evt1"; " Y "]) = (r, w')
                  /\ calls w' = [CallDelete "id_work" "evt1"].
Proof.
  split.
  - apply (proj1 (deleteEvent_needs_confirmation sampleService "id_work" "evt1" "n"
                    [] "" [] ∅ ∅)); discriminate.
  - apply (proj2 (deleteEvent_needs_confirmation sampleService "id_work" "evt1" " Y "
                    [] "" [] ∅ ∅)). right. reflexivity.
Defined.

(** The time gate sends nothing and touches nothing but the two
    date-time texts, however much of the input is there. *)
Lemma updateTimes_frame (event : Event) (w w' : World) (r : Result Event) :
  updateTimes event w = (r, w') ->
  calls w' = calls w
  /\ forall event', r = Ok event' ->
       exists s e, event' = mergedTimes event s e.
Proof.
  destruct w as [inp out cs fs dn].
  destruct inp as [|startLine [|endLine rest]].
  - unfold updateTimes. rewrite bind_run, promptForInput_eof.
    intros E. injection E as <- <-. split; [reflexivity | discriminate].
  - unfold updateTimes. rewrite bind_run, promptForInput_line, bind_run.
    destruct (isEmpty (TrimSpace startLine)); cbn [negb].
    + unfold mret at 1, M_ret at 1. rewrite bind_run, promptForInput_eof.
      intros E. injection E as <- <-. split; [reflexivity | discriminate].
    + rewrite bind_run, parseTimeM_run.
      destruct (parseTime (TrimSpace startLine)) as [s [err|]].
      * intros E. injection E as <- <-. split; [reflexivity | discriminate].
      * unfold mret at 1, M_ret at 1. rewrite bind_run, promptForInput_eof.
        intros E. injection E as <- <-. split; [reflexivity | discriminate].
  - destruct (updateTimes_run event startLine endLine rest out cs fs dn)
      as (out1 & out2 & T).
    rewrite T.
    destruct (mergeBound _ (TrimSpace startLine)) as [s [err|]].
    + intros E. injection E as <- <-. split; [reflexivity | discriminate].
    + destruct (mergeBound _ (TrimSpace endLine)) as [e [err|]].
      * intros E. injection E as <- <-. split; [reflexivity | discriminate].
      * destruct (time.Before _ _); intros E; injection E as <- <-;
          (split; [reflexivity|]); [discriminate|].
        intros event' E. injection E as <-. eauto.
Qed.

(** Every run of [updateEvent] that got the event records the Get and
    then at most one Update, of the merged texts with some bounds. *)
Lemma updateEvent_calls (srv : Service)
    (calendarID idLine titleLine descLine gateLine : string)
    (rest : list string) (out : string) (cs : list Call)
    (fs : gmap string string) (dn : gset string) (event : Event)
    (r : Result unit) (w' : World) :
  Events_Get srv calendarID (TrimSpace idLine) = Ok event ->
  updateEvent srv calendarID
    (mkWorld (idLine :: titleLine :: descLine :: gateLine :: rest) out cs fs dn)
  = (r, w') ->
  let id := TrimSpace idLine in
  let merged := mergedText event (TrimSpace titleLine) (TrimSpace descLine) in
  calls w' = (cs ++ [CallGet calendarID id])%list
  \/ (String.eqb (ToLower (TrimSpace gateLine)) "y" = false
      /\ calls w' = (cs ++ [CallGet calendarID id; CallUpdate calendarID id merged])%list)
  \/ (String.eqb (ToLower (TrimSpace gateLine)) "y" = true
      /\ exists s e,
           calls w' = (cs ++ [CallGet calendarID id;
                              CallUpdate calendarID id (mergedTimes merged s e)])%list).
Proof.
  intros G. cbv zeta.
  destruct (updateEvent_run srv calendarID idLine titleLine descLine gateLine
              rest out cs fs dn event G) as [out3 E].
  rewrite E. cbv zeta. clear E.
  set (id := TrimSpace idLine).
  set (merged := mergedText event (TrimSpace titleLine) (TrimSpace descLine)).
  destruct (String.eqb (ToLower (TrimSpace gateLine)) "y").
  - destruct (updateTimes merged _) as [[event'|err] w4] eqn:T.
    + destruct (updateTimes_frame _ _ _ _ T) as [C F].
      destruct (F event' eq_refl) as (s & e & ->).
      destruct w4 as [inp4 out4 cs4 fs4 dn4]. cbn [calls] in C. subst cs4.
      destruct (submitUpdate_run srv calendarID id (mergedTimes merged s e)
                  inp4 out4 (cs ++ [CallGet calendarID id]) fs4 dn4) as (r0 & out' & S).
      rewrite S. intros X. injection X as <- <-.
      right. right. split; [reflexivity|]. exists s, e.
      cbn [calls]. now rewrite <- app_assoc.
    + destruct (updateTimes_frame _ _ _ _ T) as [C _].
      intros X. injection X as <- <-. left. exact C.
  - destruct (submitUpdate_run srv calendarID id merged
                rest out3 (cs ++ [CallGet calendarID id]) fs dn) as (r0 & out' & S).
    rewrite S. intros X. injection X as <- <-.
    right. left. split; [reflexivity|]. cbn [calls]. now rewrite <- app_assoc.
Qed.

Lemma mergedText_blank_title (event : Event) (desc : string) :
  Summary (mergedText event "" desc) = Summary event.
Proof. unfold mergedText. destruct (isEmpty desc); reflexivity. Qed.

Lemma mergedText_blank_desc (event : Event) (title : string) :
  Description (mergedText event title "") = Description event.
Proof. unfold mergedText. destruct (isEmpty title); reflexivity. Qed.

Lemma mergedText_title_only (event : Event) (title : string) :
  title <> "" -> mergedText event title "" = setSummary event title.
Proof.
  intros N. unfold mergedText. apply isEmpty_false in N. rewrite N. reflexivity.
Qed.

Lemma mergedText_nothing (event : Event) : mergedText event "" "" = event.
Proof. reflexivity. Qed.

Lemma mergedText_title (event : Event) (title desc : string) :
  title <> "" -> Summary (mergedText event title desc) = title.
Proof.
  intros N. unfold mergedText. apply isEmpty_false in N. rewrite N. cbn [negb].
  destruct (isEmpty desc); reflexivity.
Qed.

Lemma mergedText_frame (event : Event) (title desc : string) :
  let merged := mergedText event title desc in
  Id merged = Id event /\ Start merged = Start event /\ End_ merged = End_ event
  /\ Status merged = Status event /\ Attendees merged = Attendees event.
Proof.
  unfold mergedText. destruct (isEmpty title), (isEmpty desc); repeat split.
Qed.

(** C4.  Update leaves alone what the operator leaves blank.  In every
    run that fetched the event and submitted an Update: a blank title
    answer leaves the title of the submitted event as fetched, and a
    blank description answer its description; a title answer becomes the
    title and changes nothing else: identifier, status and attendees are
    always as fetched, both bounds are as fetched when the time gate is
    declined, and with a blank description answer and the gate declined
    the submitted event is the fetched one with the title replaced. *)
Theorem updateEvent_blank_keeps_field
    (srv : Service) (calendarID idLine titleLine descLine gateLine : string)
    (rest : list string) (out : string) (cs : list Call)
    (fs : gmap string string) (dn : gset string)
    (event submitted : Event) (r : Result unit) (w' : World) :
  Events_Get srv calendarID (TrimSpace idLine) = Ok event ->
  updateEvent srv calendarID
    (mkWorld (idLine :: titleLine :: descLine :: gateLine :: rest) out cs fs dn)
  = (r, w') ->
  calls w' = (cs ++ [CallGet calendarID (TrimSpace idLine);
                     CallUpdate calendarID (TrimSpace idLine) submitted])%list ->
  let declined := TrimSpace gateLine <> "y" /\ TrimSpace gateLine <> "Y" in
  (TrimSpace titleLine = "" -> Summary submitted = Summary event)
  /\ (TrimSpace descLine = "" -> Description submitted = Description event)
  /\ (TrimSpace titleLine <> "" -> Summary submitted = TrimSpace titleLine)
  /\ (Id submitted = Id event /\ Status submitted = Status event
      /\ Attendees submitted = Attendees event)
  /\ (declined -> Start submitted = Start event /\ End_ submitted = End_ event)
  /\ (TrimSpace titleLine <> "" -> TrimSpace descLine = "" -> declined ->
      submitted = setSummary event (TrimSpace titleLine)).
Proof.
  intros G E C. cbv zeta.
  pose proof (updateEvent_calls srv calendarID idLine titleLine descLine gateLine
                rest out cs fs dn event r w' G E) as K. cbv zeta in K.
  rewrite C in K.
  pose proof (mergedText_frame event (TrimSpace titleLine) (TrimSpace descLine)) as F.
  cbv zeta in F. destruct F as (Fi & Fs & Fe & Ft & Fa).
  destruct K as [K | [[Y K] | [Y (s & e & K)]]].
  - apply app_inv_head in K. discriminate K.
  - apply app_inv_head in K. injection K as ->.
    repeat split; try assumption.
    + intros ->. apply mergedText_blank_title.
    + intros ->. apply mergedText_blank_desc.
    + intros T. apply mergedText_title. exact T.
    + intros T D _. rewrite D. apply mergedText_title_only. exact T.
  - apply app_inv_head in K. injection K as ->.
    apply eqb_y_true in Y.
    repeat split; try assumption; try (intros; tauto).
    + intros ->. apply (mergedText_blank_title event (TrimSpace descLine)).
    + intros ->. apply (mergedText_blank_desc event (TrimSpace titleLine)).
    + intros T. apply (mergedText_title event _ (TrimSpace descLine) T).
Qed.

Lemma updateEvent_blank_keeps_field_witness :
  exists r w',
    updateEvent sampleService "id_work" (terminal ["evt1"; "Retro"; ""; "n"]) = (r, w')
    /\ calls w' = [CallGet "id_work" "evt1";
                   CallUpdate "id_work" "evt1" (setSummary standup "Retro")]
    /\ Description (setSummary standup "Retro") = Description standup
    /\ Start (setSummary standup "Retro") = Start standup
    /\ End_ (setSummary standup "Retro") = End_ standup.
Proof.
  destruct (updateEvent sampleService "id_work"
              (mkWorld ["evt1"; "Retro"; ""; "n"] "" [] ∅ ∅)) as [r w'] eqn:E.
  pose proof E as E'. vm_compute in E'. injection E' as <- <-.
  pose proof (updateEvent_blank_keeps_field sampleService "id_work"
                "evt1" "Retro" "" "n" [] "" [] ∅ ∅ standup (setSummary standup "Retro")
                _ _ eq_refl E eq_refl) as (_ & D & _ & _ & B & _).
  cbv zeta in B. destruct B as [S F]; [split; discriminate|].
  eexists _, _. split; [exact E|]. split; [reflexivity|].
  split; [exact (D eq_refl)|]. split; assumption.
Defined.

(** C5.  Parsing and re-parsing agree.  Every text [parseTime] takes (a
    date that exists, spaces, a clock) is turned into a wire timestamp
    that [time.Parse] reads back, under the wire layout, as the very
    [Time] the text was parsed to: the same instant in the same zone. *)
Theorem parseTime_roundtrip (input : string) :
  acceptedFormat input = true ->
  exists t wire,
    time.Parse timeFormat input = Ok t
    /\ parseTime input = (wire, None)
    /\ time.Parse time.RFC3339 wire = Ok t
    /\ time.Equal (time.valueOf (time.Parse time.RFC3339 wire)) t = true.
Proof.
  intros A.
  destruct (Parse_timeFormat_accepts input A) as [t P].
  destruct (parseTime_ok input t P)
    as (y & m & d & h & mi & _ & _ & _ & _ & _ & _ & E & R).
  exists t, (wireText y m d h mi 0).
  repeat split; try assumption.
  rewrite R. cbn [time.valueOf]. unfold time.Equal.
  rewrite !Z.eqb_refl. reflexivity.
Qed.

Lemma parseTime_roundtrip_witness :
  exists t wire,
    time.Parse timeFormat "2024-03-15 09:30" = Ok t
    /\ parseTime "2024-03-15 09:30" = (wire, None)
    /\ time.Parse time.RFC3339 wire = Ok t
    /\ time.Equal (time.valueOf (time.Parse time.RFC3339 wire)) t = true.
Proof. apply (parseTime_roundtrip "2024-03-15 09:30"). reflexivity. Defined.

(** C6, as the specification has it, fails: a text that does not match
    the pattern YYYY-MM-DD HH:MM is parsed all the same when the hour
    has one digit (and when several spaces separate date and clock). *)
Lemma parseTime_takes_one_digit_hour :
  matchesPattern "2024-03-15 9:30" = false
  /\ parseTime "2024-03-15 9:30" = ("2024-03-15T09:30:00Z", None)
  /\ matchesPattern "2024-03-15   09:30" = false
  /\ parseTime "2024-03-15   09:30" = ("2024-03-15T09:30:00Z", None).
Proof. repeat split; vm_compute; reflexivity. Qed.

(** C6, amended.  Every text that is not a four-digit year, "-", a
    two-digit month, "-", a two-digit day (a date that exists), one or
    more spaces, and a clock H:MM or HH:MM with the hour below 24 and
    the minute below 60, is refused: [parseTime] returns the empty
    string and an error whose message starts with the expected pattern
    and wraps the cause.  No text yields both a timestamp and an
    error. *)
Theorem parseTime_refuses_other_text (input : string) :
  acceptedFormat input = false ->
  exists cause,
    parseTime input
    = ("", Some (Wrapf "invalid time format (use YYYY-MM-DD HH:MM): " cause))
    /\ Error (Wrapf "invalid time format (use YYYY-MM-DD HH:MM): " cause)
       = "invalid time format (use YYYY-MM-DD HH:MM): " +:+ Error cause.
Proof.
  intros A. destruct (Parse_timeFormat_rejects input A) as [cause P].
  exists cause. unfold parseTime. rewrite P. split; reflexivity.
Qed.

Lemma parseTime_refuses_other_text_witness :
  exists cause,
    parseTime "tomorrow at nine"
    = ("", Some (Wrapf "invalid time format (use YYYY-MM-DD HH:MM): " cause))
    /\ Error (Wrapf "invalid time format (use YYYY-MM-DD HH:MM): " cause)
       = "invalid time format (use YYYY-MM-DD HH:MM): " +:+ Error cause.
Proof. apply (parseTime_refuses_other_text "tomorrow at nine"). reflexivity. Defined.

(** C7.  [parseTime] never looks at [timeZone].  Every timestamp it
    produces is the civil text read in UTC: it reads back with offset 0
    as the [Time] that [time.Parse] gave without any zone, and it ends
    in the UTC designator "Z".  The instant the same text denotes in the
    configured zone, Asia/Kolkata, is a different, earlier one. *)
Theorem parseTime_reads_utc (input wire : string) :
  parseTime input = (wire, None) ->
  exists t body,
    time.Parse timeFormat input = Ok t
    /\ time.Parse time.RFC3339 wire = Ok t
    /\ time.offset t = 0
    /\ wire = body +:+ "Z"
    /\ time.Before (readIn kolkataOffset t) t = true
    /\ time.Equal (readIn kolkataOffset t) t = false.
Proof.
  intros E. unfold parseTime in E.
  destruct (time.Parse timeFormat input) as [t|err] eqn:P; [|discriminate E].
  destruct (parseTime_ok input t P)
    as (y & m & d & h & mi & _ & _ & _ & _ & _ & Et & E' & R).
  unfold parseTime in E'. rewrite P in E'. rewrite E' in E. injection E as <-.
  exists t, (wireBody y m d h mi 0). split; [reflexivity|]. split; [exact R|].
  split; [subst t; reflexivity|]. split; [apply wireText_Z|].
  unfold time.Before, time.Equal, readIn, kolkataOffset. cbn [time.sec time.nsec].
  split.
  - apply orb_true_iff. left. lia.
  - apply andb_false_iff. left. lia.
Qed.

Lemma parseTime_reads_utc_witness :
  exists t body,
    time.Parse timeFormat "2024-03-15 09:30" = Ok t
    /\ time.Parse time.RFC3339 "2024-03-15T09:30:00Z" = Ok t
    /\ time.offset t = 0
    /\ "2024-03-15T09:30:00Z" = body +:+ "Z"
    /\ time.Before (readIn kolkataOffset t) t = true
    /\ time.Equal (readIn kolkataOffset t) t = false.
Proof.
  apply (parseTime_reads_utc "2024-03-15 09:30" "2024-03-15T09:30:00Z"). reflexivity.
Defined.

(** What the operator of C7 gets: the event that [createEvent] submits
    for "09:30" carries the UTC timestamp next to the zone name, and the
    timestamp with the offset of that zone is another instant. *)
Lemma createEvent_submits_utc :
  calls (snd (createEvent sampleService "id_work"
                (terminal ["Review"; ""; "2024-03-15 09:30"; "2024-03-15 10:30"])))
  = [CallInsert "id_work"
       (mkEvent "" "Review" ""
          (mkEventDateTime "" "2024-03-15T09:30:00Z" "Asia/Kolkata")
          (mkEventDateTime "" "2024-03-15T10:30:00Z" "Asia/Kolkata") "" [])]
  /\ time.Parse time.RFC3339 "2024-03-15T09:30:00+05:30"
     = Ok (readIn kolkataOffset
             (time.valueOf (time.Parse time.RFC3339 "2024-03-15T09:30:00Z"))).
Proof. split; vm_compute; reflexivity. Qed.

(** C9.  Update has no short cut for a session that changes nothing.
    Once the identifier is read and the event fetched, and the answers
    to the title, description and gate prompts are read: with the gate
    declined the run records the Get and exactly one Update, of the
    event with the merged texts, and with every answer blank that is
    the fetched event itself; with the gate entered, both bounds merged
    and the end not before the start, it records the Get and exactly one
    Update, of the event with the merged texts and bounds. *)
Theorem updateEvent_always_submits
    (srv : Service) (calendarID idLine titleLine descLine gateLine : string)
    (rest : list string) (out : string) (cs : list Call)
    (fs : gmap string string) (dn : gset string) (event : Event) :
  Events_Get srv calendarID (TrimSpace idLine) = Ok event ->
  let id := TrimSpace idLine in
  let merged := mergedText event (TrimSpace titleLine) (TrimSpace descLine) in
  let w := mkWorld (idLine :: titleLine :: descLine :: gateLine :: rest) out cs fs dn in
  (TrimSpace gateLine <> "y" -> TrimSpace gateLine <> "Y" ->
   exists r w',
     updateEvent srv calendarID w = (r, w')
     /\ calls w' = (cs ++ [CallGet calendarID id; CallUpdate calendarID id merged])%list
     /\ (TrimSpace titleLine = "" -> TrimSpace descLine = "" -> merged = event))
  /\ (forall (startLine endLine : string) (rest' : list string) (s e : string),
        rest = startLine :: endLine :: rest' ->
        TrimSpace gateLine = "y" \/ TrimSpace gateLine = "Y" ->
        mergeBound (DateTime (Start event)) (TrimSpace startLine) = (s, None) ->
        mergeBound (DateTime (End_ event)) (TrimSpace endLine) = (e, None) ->
        time.Before (time.valueOf (time.Parse time.RFC3339 e))
                    (time.valueOf (time.Parse time.RFC3339 s)) = false ->
        exists r w',
          updateEvent srv calendarID w = (r, w')
          /\ calls w' = (cs ++ [CallGet calendarID id;
                                CallUpdate calendarID id (mergedTimes merged s e)])%list).
Proof.
  intros G. cbv zeta. split.
  - intros N1 N2.
    destruct (updateEvent_declined srv calendarID idLine titleLine descLine gateLine
                rest out cs fs dn event G N1 N2) as (r & w' & E & C).
    exists r, w'. split; [exact E|]. split; [exact C|].
    intros -> ->. apply mergedText_nothing.
  - intros startLine endLine rest' s e -> Y Ms Me B.
    destruct (updateEvent_entered srv calendarID idLine titleLine descLine gateLine
                startLine endLine rest' out cs fs dn event s e G Y Ms Me)
      as (r & w' & E & C).
    rewrite B in C. exists r, w'. split; [exact E | exact C].
Qed.

Lemma updateEvent_always_submits_witness :
  exists r w',
    updateEvent sampleService "id_work" (terminal ["evt1"; ""; ""; "n"]) = (r, w')
    /\ calls w' = [CallGet "id_work" "evt1"; CallUpdate "id_work" "evt1" standup].
Proof.
  destruct (proj1 (updateEvent_always_submits sampleService "id_work"
                     "evt1" "" "" "n" [] "" [] ∅ ∅ standup eq_refl))
    as (r & w' & E & C & _); [discriminate | discriminate |].
  exists r, w'. split; [exact E | exact C].
Defined.

(** C10.  A bound that does not read as a wire timestamp counts as the
    zero instant.  [time.valueOf] of a failed parse is the zero [Time];
    so inside the time gate, with both answers blank and neither current
    bound a wire timestamp (an all-day event: the date-time texts are
    empty), the end is not before the start, the check passes and the
    Update is recorded. *)
Theorem updateEvent_unreadable_bounds_pass
    (srv : Service)
    (calendarID idLine titleLine descLine gateLine startLine endLine : string)
    (rest : list string) (out : string) (cs : list Call)
    (fs : gmap string string) (dn : gset string) (event : Event) :
  Events_Get srv calendarID (TrimSpace idLine) = Ok event ->
  TrimSpace gateLine = "y" \/ TrimSpace gateLine = "Y" ->
  TrimSpace startLine = "" ->
  TrimSpace endLine = "" ->
  isOk (time.Parse time.RFC3339 (DateTime (Start event))) = false ->
  isOk (time.Parse time.RFC3339 (DateTime (End_ event))) = false ->
  time.valueOf (time.Parse time.RFC3339 (DateTime (Start event))) = time.zero
  /\ time.valueOf (time.Parse time.RFC3339 (DateTime (End_ event))) = time.zero
  /\ exists r w',
       updateEvent srv calendarID
         (mkWorld (idLine :: titleLine :: descLine :: gateLine :: startLine :: endLine :: rest)
            out cs fs dn)
       = (r, w')
       /\ calls w' = (cs ++ [CallGet calendarID (TrimSpace idLine);
                             CallUpdate calendarID (TrimSpace idLine)
                               (mergedText event (TrimSpace titleLine)
                                  (TrimSpace descLine))])%list.
Proof.
  intros G Y Bs Be Us Ue.
  assert (time.valueOf (time.Parse time.RFC3339 (DateTime (Start event))) = time.zero)
    as Zs by (destruct (time.Parse _ (DateTime (Start event))); [discriminate Us | reflexivity]).
  assert (time.valueOf (time.Parse time.RFC3339 (DateTime (End_ event))) = time.zero)
    as Ze by (destruct (time.Parse _ (DateTime (End_ event))); [discriminate Ue | reflexivity]).
  split; [exact Zs|]. split; [exact Ze|].
  destruct (updateEvent_entered srv calendarID idLine titleLine descLine gateLine
              startLine endLine rest out cs fs dn event
              (DateTime (Start event)) (DateTime (End_ event)) G Y)
    as (r & w' & E & C).
  - unfold mergeBound. rewrite Bs. reflexivity.
  - unfold mergeBound. rewrite Be. reflexivity.
  - rewrite Zs, Ze in C. change (time.Before time.zero time.zero) with false in C.
    exists r, w'. split; [exact E|]. rewrite C.
    unfold mergedTimes.
    set (merged := mergedText event (TrimSpace titleLine) (TrimSpace descLine)).
    assert (DateTime (Start event) = DateTime (Start merged)) as ->
      by (unfold merged, mergedText;
          destruct (isEmpty (TrimSpace titleLine)), (isEmpty (TrimSpace descLine));
          reflexivity).
    assert (DateTime (End_ event) = DateTime (End_ (setStartDateTime merged (DateTime (Start merged)))))
      as ->
      by (unfold merged, mergedText;
          destruct (isEmpty (TrimSpace titleLine)), (isEmpty (TrimSpace descLine));
          reflexivity).
    rewrite setEndDateTime_same, setStartDateTime_same. reflexivity.
Qed.

Lemma updateEvent_unreadable_bounds_pass_witness :
  exists r w',
    updateEvent sampleService "id_work" (terminal ["evt2"; ""; ""; "y"; ""; ""]) = (r, w')
    /\ calls w' = [CallGet "id_work" "evt2"; CallUpdate "id_work" "evt2" holiday].
Proof.
  destruct (updateEvent_unreadable_bounds_pass sampleService "id_work"
              "evt2" "" "" "y" "" "" [] "" [] ∅ ∅ holiday
              eq_refl (or_introl eq_refl) eq_refl eq_refl eq_refl eq_refl)
    as (_ & _ & r & w' & E & C).
  exists r, w'. split; [exact E | exact C].
Defined.

(** The other side of C10: the zero instant is January 1 of year 1, so
    an unreadable end next to a readable start of our era is before the
    start, and the untouched event is refused. *)
Example unreadable_end_is_refused :
  let run := updateEvent sampleService "id_work" (terminal ["evt3"; ""; ""; "y"; ""; ""]) in
  fst run = Err ValidationError /\ calls (snd run) = [CallGet "id_work" "evt3"].
Proof. vm_compute. split; reflexivity. Qed.

(* ===================================================================== *)
(** * More on the operations: short input, failures of the service, and
      what is never sent *)
(* ===================================================================== *)

Lemma string_append_empty (s : string) : s +:+ "" = s.
Proof.
  induction s as [|c s IH]; [reflexivity|].
  change (String c s +:+ "") with (String c (s +:+ "")). now rewrite IH.
Qed.

Lemma printAttendees_run (attendees : list EventAttendee)
    (inp : list string) (out : string) (cs : list Call)
    (fs : gmap string string) (dn : gset string) :
  exists out', printAttendees attendees (mkWorld inp out cs fs dn)
               = (Ok tt, mkWorld inp out' cs fs dn).
Proof.
  revert out. induction attendees as [|a attendees IH]; intros out.
  - eexists. reflexivity.
  - cbn [printAttendees]. rewrite bind_run. unfold print at 1.
    cbn [stdin stdout calls files denied]. apply IH.
Qed.

(** [getEvent] once the identifier is read. *)
Lemma getEvent_run (srv : Service) (calendarID idLine : string)
    (rest : list string) (out : string) (cs : list Call)
    (fs : gmap string string) (dn : gset string) :
  let id := TrimSpace idLine in
  match Events_Get srv calendarID id with
  | Err err =>
      getEvent srv calendarID (mkWorld (idLine :: rest) out cs fs dn)
      = (Err (Wrapf "unable to retrieve event: " err),
         mkWorld rest (out +:+ "Event ID: ") (cs ++ [CallGet calendarID id]) fs dn)
  | Ok event =>
      exists out',
        getEvent srv calendarID (mkWorld (idLine :: rest) out cs fs dn)
        = (Ok tt, mkWorld rest out' (cs ++ [CallGet calendarID id]) fs dn)
  end.
Proof.
  cbv zeta. unfold getEvent.
  rewrite bind_run, promptForInput_line.
  rewrite bind_run. unfold send at 1. cbn [stdin stdout calls files denied].
  destruct (Events_Get srv calendarID (TrimSpace idLine)) as [event|err]; [|reflexivity].
  repeat (rewrite bind_run; unfold print at 1; cbn [stdin stdout calls files denied]).
  destruct (0 <? Z.of_nat (length (Attendees event))).
  - rewrite bind_run. unfold println at 1, print at 1.
    cbn [stdin stdout calls files denied].
    match goal with
    | |- context [printAttendees ?a (mkWorld ?i ?o ?c ?f ?d)] =>
        destruct (printAttendees_run a i o c f d) as [out' P]
    end.
    exists out'. exact P.
  - eexists. reflexivity.
Qed.

(** [createEvent] with its four answers read, both times parsed and the
    end not before the start: the event is sent, and the answer of the
    service decides how the run ends. *)
Lemma createEvent_sent (srv : Service) (calendarID titleLine descLine startLine endLine : string)
    (rest : list string) (out : string) (cs : list Call)
    (fs : gmap string string) (dn : gset string) (ts te : time.Time) :
  time.Parse timeFormat (TrimSpace startLine) = Ok ts ->
  time.Parse timeFormat (TrimSpace endLine) = Ok te ->
  time.Before te ts = false ->
  let event := mkEvent "" (TrimSpace titleLine) (TrimSpace descLine)
                 (mkEventDateTime "" (fst (parseTime (TrimSpace startLine))) timeZone)
                 (mkEventDateTime "" (fst (parseTime (TrimSpace endLine))) timeZone)
                 "" [] in
  let asked := (((out +:+ "Title: ") +:+ "Description: ")
                +:+ "Start (YYYY-MM-DD HH:MM): ") +:+ "End   (YYYY-MM-DD HH:MM): " in
  createEvent srv calendarID
    (mkWorld (titleLine :: descLine :: startLine :: endLine :: rest) out cs fs dn)
  = match Events_Insert srv calendarID event with
    | Ok created =>
        (Ok tt,
         mkWorld rest (asked +:+ ("Event created successfully! ID: " +:+ Id created +:+ nl))
           (cs ++ [CallInsert calendarID event]) fs dn)
    | Err err =>
        (Err (Wrapf "unable to create event: " err),
         mkWorld rest asked (cs ++ [CallInsert calendarID event]) fs dn)
    end.
Proof.
  intros Ps Pe B.
  destruct (parseTime_ok _ _ Ps) as (y & m & d & h & mi & _ & _ & _ & _ & _ & _ & Es & Rs).
  destruct (parseTime_ok _ _ Pe) as (y' & m' & d' & h' & mi' & _ & _ & _ & _ & _ & _ & Ee & Re).
  cbv zeta. unfold createEvent.
  rewrite bind_run, promptForInput_line.
  rewrite bind_run, promptForInput_line.
  rewrite bind_run, promptForInput_line.
  rewrite bind_run, parseTimeM_run, Es.
  rewrite bind_run, promptForInput_line.
  rewrite bind_run, parseTimeM_run, Ee.
  cbv zeta. rewrite Rs, Re. cbn [time.valueOf fst]. rewrite B.
  rewrite bind_run. unfold send at 1. cbn [stdin stdout calls files denied].
  destruct (Events_Insert srv calendarID _) as [created|err]; reflexivity.
Qed.

Lemma parseTime_refused (input : string) :
  acceptedFormat input = false ->
  exists cause,
    parseTime input = ("", Some (Wrapf "invalid time format (use YYYY-MM-DD HH:MM): " cause)).
Proof.
  intros A. destruct (Parse_timeFormat_rejects input A) as [cause P].
  exists cause. unfold parseTime. rewrite P. reflexivity.
Qed.

Lemma parseTime_accepted (input : string) :
  acceptedFormat input = true ->
  exists t wire, time.Parse timeFormat input = Ok t /\ parseTime input = (wire, None).
Proof.
  intros A. destruct (Parse_timeFormat_accepts input A) as [t P].
  exists t. unfold parseTime. rewrite P. eauto.
Qed.

(** What [TrimLeftSpace] leaves does not start with white space, and
    what [trimSpaceRev] leaves does not end in it. *)
Lemma cutSpace_TrimLeftSpace (s : string) : cutSpace (TrimLeftSpace s) = None.
Proof.
  induction s as [s IH] using cutSpace_ind.
  rewrite TrimLeftSpace_step. destruct (cutSpace s) as [r|] eqn:E.
  - apply IH. reflexivity.
  - exact E.
Qed.

Lemma cutSpaceRev_trimSpaceRev (bs : list ascii) : cutSpaceRev (trimSpaceRev bs) = None.
Proof.
  induction bs as [bs IH] using cutSpaceRev_ind.
  rewrite trimSpaceRev_step. destruct (cutSpaceRev bs) as [r|] eqn:E.
  - apply IH. reflexivity.
  - exact E.
Qed.

Lemma TrimLeftSpace_fixed (s : string) : cutSpace s = None -> TrimLeftSpace s = s.
Proof. intros E. rewrite TrimLeftSpace_step, E. reflexivity. Qed.

Lemma trimSpaceRev_fixed (bs : list ascii) : cutSpaceRev bs = None -> trimSpaceRev bs = bs.
Proof. intros E. rewrite trimSpaceRev_step, E. reflexivity. Qed.

(** A white-space rune at the front of a text is at the front of every
    text that starts with it. *)
Lemma cutSpace_app (p q r : string) :
  cutSpace p = Some r -> cutSpace (p +:+ q) = Some (r +:+ q).
Proof.
  destruct p as [|a [|b [|c t]]]; cbn [cutSpace]; try discriminate.
  - change (String a "" +:+ q) with (String a q). cbn [cutSpace].
    destruct (isSpace a); [|discriminate]. intros E. injection E as <-. reflexivity.
  - change (String a (String b "") +:+ q) with (String a (String b q)). cbn [cutSpace].
    destruct (isSpace a); [intros E; injection E as <-; reflexivity|].
    destruct (isSpace2 a b); [|discriminate]. intros E. injection E as <-. reflexivity.
  - change (String a (String b (String c t)) +:+ q)
      with (String a (String b (String c (t +:+ q)))). cbn [cutSpace].
    destruct (isSpace a); [intros E; injection E as <-; reflexivity|].
    destruct (isSpace2 a b); [intros E; injection E as <-; reflexivity|].
    destruct (isSpace3 a b c); [|discriminate]. intros E. injection E as <-. reflexivity.
Qed.

(** What [trimSpaceRev] leaves is the end of what it was given. *)
Lemma trimSpaceRev_suffix (bs : list ascii) :
  exists d, bs = (d ++ trimSpaceRev bs)%list.
Proof.
  induction bs as [bs IH] using cutSpaceRev_ind.
  rewrite trimSpaceRev_step. destruct (cutSpaceRev bs) as [r|] eqn:E.
  - destruct (IH r eq_refl) as [d D].
    assert (exists d', bs = (d' ++ r)%list) as [d' ->].
    { destruct bs as [|c [|b [|a t]]]; cbn [cutSpaceRev] in E; try discriminate.
      - destruct (isSpace c); [|discriminate]. injection E as <-. exists [c]. reflexivity.
      - destruct (isSpace c); [injection E as <-; exists [c]; reflexivity|].
        destruct (isSpace2 b c); [|discriminate]. injection E as <-.
        exists [c; b]. reflexivity.
      - destruct (isSpace c); [injection E as <-; exists [c]; reflexivity|].
        destruct (isSpace2 b c); [injection E as <-; exists [c; b]; reflexivity|].
        destruct (isSpace3 a b c); [|discriminate]. injection E as <-.
        exists [c; b; a]. reflexivity. }
    exists (d' ++ d)%list. rewrite <- app_assoc, <- D. reflexivity.
  - exists []. reflexivity.
Qed.

Lemma string_of_list_ascii_app (a b : list ascii) :
  string_of_list_ascii (a ++ b) = string_of_list_ascii a +:+ string_of_list_ascii b.
Proof.
  induction a as [|c a IH]; [reflexivity|].
  cbn [app string_of_list_ascii]. rewrite IH. reflexivity.
Qed.

(** What [TrimRightSpace] leaves is the start of what it was given. *)
Lemma TrimRightSpace_prefix (s : string) : exists q, s = TrimRightSpace s +:+ q.
Proof.
  unfold TrimRightSpace.
  destruct (trimSpaceRev_suffix (rev (list_ascii_of_string s))) as [d D].
  exists (string_of_list_ascii (rev d)).
  rewrite <- string_of_list_ascii_app, <- rev_app_distr, <- D, rev_involutive.
  symmetry. apply string_of_list_ascii_of_string.
Qed.

(** Trimming twice is trimming once. *)
Lemma TrimRightSpace_idem (s : string) : TrimRightSpace (TrimRightSpace s) = TrimRightSpace s.
Proof.
  unfold TrimRightSpace. rewrite list_ascii_of_string_of_list_ascii, rev_involutive.
  rewrite (trimSpaceRev_fixed _ (cutSpaceRev_trimSpaceRev _)). reflexivity.
Qed.

Lemma cutSpace_TrimSpace (s : string) : cutSpace (TrimSpace s) = None.
Proof.
  unfold TrimSpace.
  destruct (TrimRightSpace_prefix (TrimLeftSpace s)) as [q Q].
  destruct (cutSpace (TrimRightSpace (TrimLeftSpace s))) as [r|] eqn:E; [|reflexivity].
  pose proof (cutSpace_app _ q _ E) as A. rewrite <- Q in A.
  rewrite cutSpace_TrimLeftSpace in A. discriminate A.
Qed.

Lemma cutSpaceRev_TrimSpace (s : string) :
  cutSpaceRev (rev (list_ascii_of_string (TrimSpace s))) = None.
Proof.
  unfold TrimSpace, TrimRightSpace.
  rewrite list_ascii_of_string_of_list_ascii, rev_involutive.
  apply cutSpaceRev_trimSpaceRev.
Qed.

Lemma TrimSpace_idem (s : string) : TrimSpace (TrimSpace s) = TrimSpace s.
Proof.
  unfold TrimSpace at 1. rewrite (TrimLeftSpace_fixed _ (cutSpace_TrimSpace s)).
  unfold TrimSpace. apply TrimRightSpace_idem.
Qed.

(** A text made of white-space runes only is trimmed to nothing. *)
Lemma cutSpace_whiteSpace (rune rest : string) :
  In rune whiteSpace -> cutSpace (rune +:+ rest) = Some rest.
Proof.
  unfold whiteSpace. cbn [map In]. intros H.
  repeat (destruct H as [<-|H]; [reflexivity|]). contradiction H.
Qed.

Lemma TrimLeftSpace_blank (runes : list string) :
  Forall (fun rune => In rune whiteSpace) runes ->
  TrimLeftSpace (String.concat "" runes) = "".
Proof.
  intros F.
  assert (forall rest, TrimLeftSpace (fold_right String.append rest runes)
                       = TrimLeftSpace rest) as G.
  { induction F as [|rune runes Hr F IH]; intros rest; [reflexivity|].
    cbn [fold_right]. rewrite TrimLeftSpace_step.
    change (String.append rune ?x) with (rune +:+ x).
    rewrite (cutSpace_whiteSpace rune _ Hr). apply IH. }
  assert (String.concat "" runes = fold_right String.append "" runes) as ->.
  { clear. induction runes as [|r [|r' rs] IH]; [reflexivity| |].
    - cbn [String.concat fold_right]. symmetry. apply string_append_empty.
    - change (String.concat "" (r :: r' :: rs))
        with (r +:+ "" +:+ String.concat "" (r' :: rs)).
      rewrite IH. reflexivity. }
  rewrite G. reflexivity.
Qed.

(* ===================================================================== *)
(** * Further properties of the operations *)
(* ===================================================================== *)

(** X1.  An answer read by [promptForInput] is trimmed for good: it is
    the line without the white space at its two ends, ASCII or not; it
    neither starts nor ends with a white-space rune, and trimming it
    again changes nothing.  The prompt is the only text printed and
    exactly one line is used up; a line of white-space runes only gives
    the empty answer. *)
Theorem promptForInput_answer_is_trimmed (msg : string) (w : World) (answer : string) :
  fst (promptForInput msg w) = Ok answer ->
  TrimSpace answer = answer
  /\ cutSpace answer = None
  /\ cutSpaceRev (rev (list_ascii_of_string answer)) = None
  /\ (exists line, stdin w = line :: stdin (snd (promptForInput msg w))
                   /\ answer = TrimSpace line
                   /\ (forall runes, Forall (fun rune => In rune whiteSpace) runes ->
                                     line = String.concat "" runes -> answer = ""))
  /\ stdout (snd (promptForInput msg w)) = stdout w +:+ msg.
Proof.
  destruct w as [inp out cs fs dn]. destruct inp as [|line rest].
  - rewrite promptForInput_eof. discriminate.
  - rewrite promptForInput_line. cbn [fst snd stdin stdout].
    intros E. injection E as <-.
    split; [apply TrimSpace_idem|].
    split; [apply cutSpace_TrimSpace|].
    split; [apply cutSpaceRev_TrimSpace|].
    split; [|reflexivity].
    exists line. split; [reflexivity|]. split; [reflexivity|].
    intros runes F ->. unfold TrimSpace. rewrite (TrimLeftSpace_blank runes F). reflexivity.
Qed.

Lemma promptForInput_answer_is_trimmed_witness :
  TrimSpace "evt1" = "evt1"
  /\ cutSpace "evt1" = None
  /\ cutSpaceRev (rev (list_ascii_of_string "evt1")) = None
  /\ (exists line,
        stdin (terminal [text [194; 160] +:+ " evt1 " +:+ text [226; 128; 137]; "y"])
        = line :: stdin (snd (promptForInput "Event ID: "
                                (terminal [text [194; 160] +:+ " evt1 "
                                           +:+ text [226; 128; 137]; "y"])))
        /\ "evt1" = TrimSpace line
        /\ (forall runes, Forall (fun rune => In rune whiteSpace) runes ->
                          line = String.concat "" runes -> "evt1" = ""))
  /\ stdout (snd (promptForInput "Event ID: "
                    (terminal [text [194; 160] +:+ " evt1 " +:+ text [226; 128; 137]; "y"])))
     = stdout (terminal [text [194; 160] +:+ " evt1 " +:+ text [226; 128; 137]; "y"])
       +:+ "Event ID: ".
Proof.
  apply (promptForInput_answer_is_trimmed "Event ID: "
           (terminal [text [194; 160] +:+ " evt1 " +:+ text [226; 128; 137]; "y"]) "evt1").
  reflexivity.
Defined.

(** X2.  Without calendars nothing is asked.  When the account has no
    calendar, [selectCalendar] prints the empty list and returns its
    error with the input untouched; when the listing fails it returns
    the failure, wrapped, having printed nothing.  Either way the
    listing is the only request. *)
Theorem selectCalendar_without_calendars (srv : Service)
    (inp : list string) (out : string) (cs : list Call)
    (fs : gmap string string) (dn : gset string) :
  (CalendarList_List srv = Ok [] ->
   selectCalendar srv (mkWorld inp out cs fs dn)
   = (Err (Errorf "no calendars found in your account"),
      mkWorld inp ((out +:+ (nl +:+ "Available calendars:" +:+ nl)) +:+ nl)
        (cs ++ [CallCalendarList]) fs dn))
  /\ (forall err, CalendarList_List srv = Err err ->
        selectCalendar srv (mkWorld inp out cs fs dn)
        = (Err (Wrapf "unable to retrieve calendars: " err),
           mkWorld inp out (cs ++ [CallCalendarList]) fs dn)).
Proof.
  split.
  - intros L. unfold selectCalendar, listCalendars.
    rewrite !bind_run. unfold send at 1. cbn [stdin stdout calls files denied].
    rewrite L. reflexivity.
  - intros err L. unfold selectCalendar, listCalendars.
    rewrite !bind_run. unfold send at 1. cbn [stdin stdout calls files denied].
    rewrite L. reflexivity.
Qed.

Lemma selectCalendar_without_calendars_witness :
  selectCalendar emptyService (terminal ["1"])
  = (Err (Errorf "no calendars found in your account"),
     mkWorld ["1"] (("" +:+ (nl +:+ "Available calendars:" +:+ nl)) +:+ nl)
       [CallCalendarList] ∅ ∅)
  /\ selectCalendar offlineService (terminal ["1"])
     = (Err (Wrapf "unable to retrieve calendars: " (RemoteError "dial tcp: i/o timeout")),
        mkWorld ["1"] "" [CallCalendarList] ∅ ∅).
Proof.
  split.
  - apply (proj1 (selectCalendar_without_calendars emptyService ["1"] "" [] ∅ ∅)).
    reflexivity.
  - apply (proj2 (selectCalendar_without_calendars offlineService ["1"] "" [] ∅ ∅)).
    reflexivity.
Defined.

(** X3.  Create stops at the first answer that is not a date and time.
    A start answer that is not accepted ends the run with the format
    error before the end is asked for; an end answer that is not
    accepted ends it after the fourth prompt.  In both cases nothing is
    sent. *)
Theorem createEvent_stops_at_bad_time (srv : Service)
    (calendarID titleLine descLine startLine : string)
    (rest : list string) (out : string) (cs : list Call)
    (fs : gmap string string) (dn : gset string) :
  let asked := ((out +:+ "Title: ") +:+ "Description: ")
               +:+ "Start (YYYY-MM-DD HH:MM): " in
  (acceptedFormat (TrimSpace startLine) = false ->
   exists cause,
     createEvent srv calendarID
       (mkWorld (titleLine :: descLine :: startLine :: rest) out cs fs dn)
     = (Err (Wrapf "invalid time format (use YYYY-MM-DD HH:MM): " cause),
        mkWorld rest asked cs fs dn))
  /\ (forall endLine rest',
        rest = endLine :: rest' ->
        acceptedFormat (TrimSpace startLine) = true ->
        acceptedFormat (TrimSpace endLine) = false ->
        exists cause,
          createEvent srv calendarID
            (mkWorld (titleLine :: descLine :: startLine :: rest) out cs fs dn)
          = (Err (Wrapf "invalid time format (use YYYY-MM-DD HH:MM): " cause),
             mkWorld rest' (asked +:+ "End   (YYYY-MM-DD HH:MM): ") cs fs dn)).
Proof.
  cbv zeta. split.
  - intros A. destruct (parseTime_refused _ A) as [cause P]. exists cause.
    unfold createEvent.
    rewrite bind_run, promptForInput_line.
    rewrite bind_run, promptForInput_line.
    rewrite bind_run, promptForInput_line.
    rewrite bind_run, parseTimeM_run, P. reflexivity.
  - intros endLine rest' -> As Ae.
    destruct (parseTime_accepted _ As) as (t & wire & _ & Ps).
    destruct (parseTime_refused _ Ae) as [cause Pe]. exists cause.
    unfold createEvent.
    rewrite bind_run, promptForInput_line.
    rewrite bind_run, promptForInput_line.
    rewrite bind_run, promptForInput_line.
    rewrite bind_run, parseTimeM_run, Ps.
    rewrite bind_run, promptForInput_line.
    rewrite bind_run, parseTimeM_run, Pe. reflexivity.
Qed.

Lemma createEvent_stops_at_bad_time_witness :
  (exists cause,
     createEvent sampleService "id_work"
       (terminal ["Review"; ""; "15/03/2024 09:30"; "2024-03-15 10:30"])
     = (Err (Wrapf "invalid time format (use YYYY-MM-DD HH:MM): " cause),
        mkWorld ["2024-03-15 10:30"]
          ((("" +:+ "Title: ") +:+ "Description: ") +:+ "Start (YYYY-MM-DD HH:MM): ")
          [] ∅ ∅))
  /\ (exists cause,
        createEvent sampleService "id_work"
          (terminal ["Review"; ""; "2024-03-15 09:30"; "10:30"])
        = (Err (Wrapf "invalid time format (use YYYY-MM-DD HH:MM): " cause),
           mkWorld []
             (((("" +:+ "Title: ") +:+ "Description: ") +:+ "Start (YYYY-MM-DD HH:MM): ")
              +:+ "End   (YYYY-MM-DD HH:MM): ")
             [] ∅ ∅)).
Proof.
  split.
  - apply (proj1 (createEvent_stops_at_bad_time sampleService "id_work"
                    "Review" "" "15/03/2024 09:30" ["2024-03-15 10:30"] "" [] ∅ ∅)).
    reflexivity.
  - apply (proj2 (createEvent_stops_at_bad_time sampleService "id_work"
                    "Review" "" "2024-03-15 09:30" ["10:30"] "" [] ∅ ∅)
             "10:30" []); reflexivity.
Defined.

(** X4.  Create needs all four answers.  When the input ends before the
    fourth answer, [createEvent] returns an error and has sent
    nothing. *)
Theorem createEvent_short_input (srv : Service) (calendarID : string) (w : World) :
  (length (stdin w) < 4)%nat ->
  exists err,
    fst (createEvent srv calendarID w) = Err err
    /\ calls (snd (createEvent srv calendarID w)) = calls w
    /\ stdin (snd (createEvent srv calendarID w)) = [].
Proof.
  destruct w as [inp out cs fs dn]. cbn [stdin calls].
  destruct inp as [|t [|d [|s [|e rest]]]]; intros L; unfold createEvent.
  - rewrite bind_run, promptForInput_eof. eexists. repeat split.
  - rewrite bind_run, promptForInput_line.
    rewrite bind_run, promptForInput_eof. eexists. repeat split.
  - rewrite bind_run, promptForInput_line.
    rewrite bind_run, promptForInput_line.
    rewrite bind_run, promptForInput_eof. eexists. repeat split.
  - rewrite bind_run, promptForInput_line.
    rewrite bind_run, promptForInput_line.
    rewrite bind_run, promptForInput_line.
    rewrite bind_run, parseTimeM_run.
    destruct (parseTime (TrimSpace s)) as [wire [err|]].
    + eexists. repeat split.
    + rewrite bind_run, promptForInput_eof. eexists. repeat split.
  - cbn [length] in L. lia.
Qed.

Lemma createEvent_short_input_witness :
  exists err,
    fst (createEvent sampleService "id_work"
           (terminal ["Review"; ""; "2024-03-15 09:30"])) = Err err
    /\ calls (snd (createEvent sampleService "id_work"
                     (terminal ["Review"; ""; "2024-03-15 09:30"]))) = []
    /\ stdin (snd (createEvent sampleService "id_work"
                     (terminal ["Review"; ""; "2024-03-15 09:30"]))) = [].
Proof.
  apply (createEvent_short_input sampleService "id_work"
           (terminal ["Review"; ""; "2024-03-15 09:30"])).
  cbn. lia.
Defined.

(** X5.  Create reports what the service answers.  With four answers
    read, both times accepted and the end not before the start, the
    event is sent once; a refusal of the service is returned wrapped and
    no success is printed; otherwise the success line carries the
    identifier of the event the service answered with, not of the event
    that was sent. *)
Theorem createEvent_reports_the_answer (srv : Service)
    (calendarID titleLine descLine startLine endLine : string)
    (rest : list string) (out : string) (cs : list Call)
    (fs : gmap string string) (dn : gset string) (ts te : time.Time) :
  time.Parse timeFormat (TrimSpace startLine) = Ok ts ->
  time.Parse timeFormat (TrimSpace endLine) = Ok te ->
  time.Before te ts = false ->
  let event := mkEvent "" (TrimSpace titleLine) (TrimSpace descLine)
                 (mkEventDateTime "" (fst (parseTime (TrimSpace startLine))) timeZone)
                 (mkEventDateTime "" (fst (parseTime (TrimSpace endLine))) timeZone)
                 "" [] in
  let asked := (((out +:+ "Title: ") +:+ "Description: ")
                +:+ "Start (YYYY-MM-DD HH:MM): ") +:+ "End   (YYYY-MM-DD HH:MM): " in
  let w := mkWorld (titleLine :: descLine :: startLine :: endLine :: rest) out cs fs dn in
  (forall err, Events_Insert srv calendarID event = Err err ->
     createEvent srv calendarID w
     = (Err (Wrapf "unable to create event: " err),
        mkWorld rest asked (cs ++ [CallInsert calendarID event]) fs dn))
  /\ (forall created, Events_Insert srv calendarID event = Ok created ->
        createEvent srv calendarID w
        = (Ok tt,
           mkWorld rest (asked +:+ ("Event created successfully! ID: " +:+ Id created +:+ nl))
             (cs ++ [CallInsert calendarID event]) fs dn)).
Proof.
  intros Ps Pe B. cbv zeta.
  pose proof (createEvent_sent srv calendarID titleLine descLine startLine endLine
                rest out cs fs dn ts te Ps Pe B) as R. cbv zeta in R.
  split; intros x I; rewrite R, I; reflexivity.
Qed.

Lemma createEvent_reports_the_answer_witness :
  createEvent strictService "id_work"
    (terminal ["Review"; ""; "2024-03-15 09:30"; "2024-03-15 10:30"])
  = (Err (Wrapf "unable to create event: "
            (RemoteError "googleapi: Error 403: Forbidden, forbidden")),
     mkWorld []
       (((("" +:+ "Title: ") +:+ "Description: ")
         +:+ "Start (YYYY-MM-DD HH:MM): ") +:+ "End   (YYYY-MM-DD HH:MM): ")
       ([] ++ [CallInsert "id_work"
                 (mkEvent "" (TrimSpace "Review") (TrimSpace "")
                    (mkEventDateTime "" (fst (parseTime (TrimSpace "2024-03-15 09:30"))) timeZone)
                    (mkEventDateTime "" (fst (parseTime (TrimSpace "2024-03-15 10:30"))) timeZone)
                    "" [])]) ∅ ∅).
Proof.
  apply (proj1 (createEvent_reports_the_answer strictService "id_work"
                  "Review" "" "2024-03-15 09:30" "2024-03-15 10:30" [] "" [] ∅ ∅
                  (time.Date 2024 3 15 9 30 0 0) (time.Date 2024 3 15 10 30 0 0)
                  ltac:(vm_compute; reflexivity) ltac:(vm_compute; reflexivity)
                  ltac:(vm_compute; reflexivity))).
  reflexivity.
Defined.

(** X6.  A failed fetch is passed on by Get.  When the service has no
    answer for the identifier, [getEvent] returns its error behind the
    words "unable to retrieve event: ", after one Get request and with
    nothing printed but the prompt. *)
Theorem getEvent_failure_is_wrapped (srv : Service) (calendarID idLine : string)
    (rest : list string) (out : string) (cs : list Call)
    (fs : gmap string string) (dn : gset string) (err : error) :
  Events_Get srv calendarID (TrimSpace idLine) = Err err ->
  getEvent srv calendarID (mkWorld (idLine :: rest) out cs fs dn)
  = (Err (Wrapf "unable to retrieve event: " err),
     mkWorld rest (out +:+ "Event ID: ") (cs ++ [CallGet calendarID (TrimSpace idLine)]) fs dn)
  /\ Error (Wrapf "unable to retrieve event: " err)
     = "unable to retrieve event: " +:+ Error err.
Proof.
  intros G.
  pose proof (getEvent_run srv calendarID idLine rest out cs fs dn) as R.
  cbv zeta in R. rewrite G in R. split; [exact R | reflexivity].
Qed.

Lemma getEvent_failure_is_wrapped_witness :
  getEvent strictService "id_work" (terminal ["evt9"])
  = (Err (Wrapf "unable to retrieve event: " notFound),
     mkWorld [] ("" +:+ "Event ID: ") ([] ++ [CallGet "id_work" (TrimSpace "evt9")]) ∅ ∅)
  /\ Error (Wrapf "unable to retrieve event: " notFound)
     = "unable to retrieve event: " +:+ Error notFound.
Proof.
  apply (getEvent_failure_is_wrapped strictService "id_work" "evt9" [] "" [] ∅ ∅ notFound).
  reflexivity.
Defined.

(** X7.  Get only reads.  Whatever the input and the service, a run of
    [getEvent] uses at most one line, leaves the files alone, and sends
    nothing or exactly one Get request, for the trimmed first line.  It
    returns without error only if that request was answered, and an
    answer that is an error comes back behind the words "unable to
    retrieve event: ". *)
Theorem getEvent_only_reads (srv : Service) (calendarID : string) (w : World) :
  let r := fst (getEvent srv calendarID w) in
  let w' := snd (getEvent srv calendarID w) in
  stdin w' = tail (stdin w) /\ files w' = files w /\ denied w' = denied w
  /\ ((r = Err EOF /\ stdin w = [] /\ calls w' = calls w)
      \/ exists idLine, head (stdin w) = Some idLine
           /\ calls w' = (calls w ++ [CallGet calendarID (TrimSpace idLine)])%list
           /\ (isOk r = true ->
               isOk (Events_Get srv calendarID (TrimSpace idLine)) = true)
           /\ (forall err, Events_Get srv calendarID (TrimSpace idLine) = Err err ->
                 r = Err (Wrapf "unable to retrieve event: " err))).
Proof.
  cbv zeta. destruct w as [inp out cs fs dn]. destruct inp as [|idLine rest].
  - unfold getEvent. rewrite bind_run, promptForInput_eof.
    cbn [fst snd stdin calls files denied tail]. repeat split. left. repeat split.
  - pose proof (getEvent_run srv calendarID idLine rest out cs fs dn) as R.
    cbv zeta in R.
    destruct (Events_Get srv calendarID (TrimSpace idLine)) as [event|err] eqn:G.
    + destruct R as [out' ->]. cbn [fst snd stdin calls files denied tail head].
      do 3 (split; [reflexivity|]). right. exists idLine.
      do 2 (split; [reflexivity|]). rewrite G. split; [reflexivity | discriminate].
    + rewrite R. cbn [fst snd stdin calls files denied tail head].
      do 3 (split; [reflexivity|]). right. exists idLine.
      do 2 (split; [reflexivity|]). rewrite G. split; [discriminate|].
      intros err' E. injection E as <-. reflexivity.
Qed.

(** [updateEvent] when the fetch fails. *)
Lemma updateEvent_no_event (srv : Service) (calendarID idLine : string)
    (rest : list string) (out : string) (cs : list Call)
    (fs : gmap string string) (dn : gset string) (err : error) :
  Events_Get srv calendarID (TrimSpace idLine) = Err err ->
  updateEvent srv calendarID (mkWorld (idLine :: rest) out cs fs dn)
  = (Err (Wrapf "unable to retrieve event for update: " err),
     mkWorld rest (out +:+ "Event ID: ") (cs ++ [CallGet calendarID (TrimSpace idLine)]) fs dn).
Proof.
  intros G. unfold updateEvent.
  rewrite bind_run, promptForInput_line.
  rewrite bind_run. unfold send at 1. cbn [stdin stdout calls files denied].
  rewrite G. reflexivity.
Qed.

(** X8.  Update fails fast when the event is not there.  A failed fetch
    ends [updateEvent] with the error of the service behind the words
    "unable to retrieve event for update: "; no further line is read,
    nothing but the prompt is printed and no Update is sent. *)
Theorem updateEvent_fails_fast (srv : Service) (calendarID idLine : string)
    (rest : list string) (out : string) (cs : list Call)
    (fs : gmap string string) (dn : gset string) (err : error) :
  Events_Get srv calendarID (TrimSpace idLine) = Err err ->
  updateEvent srv calendarID (mkWorld (idLine :: rest) out cs fs dn)
  = (Err (Wrapf "unable to retrieve event for update: " err),
     mkWorld rest (out +:+ "Event ID: ") (cs ++ [CallGet calendarID (TrimSpace idLine)]) fs dn)
  /\ Error (Wrapf "unable to retrieve event for update: " err)
     = "unable to retrieve event for update: " +:+ Error err.
Proof.
  intros G. split; [apply updateEvent_no_event; exact G | reflexivity].
Qed.

Lemma updateEvent_fails_fast_witness :
  updateEvent strictService "id_work" (terminal ["evt9"; "New title"; ""; "n"])
  = (Err (Wrapf "unable to retrieve event for update: " notFound),
     mkWorld ["New title"; ""; "n"] ("" +:+ "Event ID: ")
       ([] ++ [CallGet "id_work" (TrimSpace "evt9")]) ∅ ∅)
  /\ Error (Wrapf "unable to retrieve event for update: " notFound)
     = "unable to retrieve event for update: " +:+ Error notFound.
Proof.
  apply (updateEvent_fails_fast strictService "id_work" "evt9" ["New title"; ""; "n"]
           "" [] ∅ ∅ notFound).
  reflexivity.
Defined.

(** [updateEvent] when the input ends before the gate is answered. *)
Lemma updateEvent_short_run (srv : Service) (calendarID idLine : string)
    (rest : list string) (out : string) (cs : list Call)
    (fs : gmap string string) (dn : gset string) (event : Event) :
  Events_Get srv calendarID (TrimSpace idLine) = Ok event ->
  (length rest < 3)%nat ->
  exists out',
    updateEvent srv calendarID (mkWorld (idLine :: rest) out cs fs dn)
    = (Err EOF, mkWorld [] out' (cs ++ [CallGet calendarID (TrimSpace idLine)]) fs dn).
Proof.
  intros G L. unfold updateEvent.
  rewrite bind_run, promptForInput_line.
  rewrite bind_run. unfold send at 1. cbn [stdin stdout calls files denied].
  rewrite G.
  rewrite bind_run. unfold print at 1. cbn [stdin stdout calls files denied].
  destruct rest as [|t [|d [|g rest]]].
  - rewrite bind_run, promptForInput_eof. eexists. reflexivity.
  - rewrite bind_run, promptForInput_line.
    rewrite bind_run. unfold print at 1. cbn [stdin stdout calls files denied].
    rewrite bind_run, promptForInput_eof. eexists. reflexivity.
  - rewrite bind_run, promptForInput_line.
    rewrite bind_run. unfold print at 1. cbn [stdin stdout calls files denied].
    rewrite bind_run, promptForInput_line.
    rewrite bind_run, promptForInput_eof. eexists. reflexivity.
  - cbn [length] in L. lia.
Qed.

Lemma mergedTimes_frame (event : Event) (s e : string) :
  let merged := mergedTimes event s e in
  Id merged = Id event /\ Status merged = Status event
  /\ Attendees merged = Attendees event
  /\ Summary merged = Summary event /\ Description merged = Description event
  /\ Date (Start merged) = Date (Start event)
  /\ TimeZone (Start merged) = TimeZone (Start event)
  /\ Date (End_ merged) = Date (End_ event)
  /\ TimeZone (End_ merged) = TimeZone (End_ event).
Proof. repeat split. Qed.

(** The time gate touches neither the files nor the record of requests. *)
Lemma updateTimes_files (event : Event) (w w' : World) (r : Result Event) :
  updateTimes event w = (r, w') ->
  files w' = files w /\ denied w' = denied w.
Proof.
  destruct w as [inp out cs fs dn].
  destruct inp as [|startLine [|endLine rest]].
  - unfold updateTimes. rewrite bind_run, promptForInput_eof.
    intros E. injection E as <- <-. split; reflexivity.
  - unfold updateTimes. rewrite bind_run, promptForInput_line, bind_run.
    destruct (isEmpty (TrimSpace startLine)); cbn [negb].
    + unfold mret at 1, M_ret at 1. rewrite bind_run, promptForInput_eof.
      intros E. injection E as <- <-. split; reflexivity.
    + rewrite bind_run, parseTimeM_run.
      destruct (parseTime (TrimSpace startLine)) as [s [err|]].
      * intros E. injection E as <- <-. split; reflexivity.
      * unfold mret at 1, M_ret at 1. rewrite bind_run, promptForInput_eof.
        intros E. injection E as <- <-. split; reflexivity.
  - destruct (updateTimes_run event startLine endLine rest out cs fs dn)
      as (out1 & out2 & T).
    rewrite T.
    destruct (mergeBound _ (TrimSpace startLine)) as [s [err|]].
    + intros E. injection E as <- <-. split; reflexivity.
    + destruct (mergeBound _ (TrimSpace endLine)) as [e [err|]].
      * intros E. injection E as <- <-. split; reflexivity.
      * destruct (time.Before _ _); intros E; injection E as <- <-; split; reflexivity.
Qed.

(** X9.  What a run of Update can send.  Whatever the input and the
    service, [updateEvent] leaves the files alone and sends nothing, or
    one Get, or one Get followed by one Update of the event that Get
    answered with, under the same identifier.  The event it submits has
    the identifier, the status, the attendees and, in both bounds, the
    date and the zone of the fetched one: only titles, descriptions and
    date-times are ever written. *)
Theorem updateEvent_submission_frame (srv : Service) (calendarID : string) (w : World) :
  let w' := snd (updateEvent srv calendarID w) in
  files w' = files w /\ denied w' = denied w
  /\ (calls w' = calls w
      \/ (exists id, calls w' = (calls w ++ [CallGet calendarID id])%list)
      \/ (exists id event submitted,
            Events_Get srv calendarID id = Ok event
            /\ calls w' = (calls w ++ [CallGet calendarID id;
                                       CallUpdate calendarID id submitted])%list
            /\ Id submitted = Id event /\ Status submitted = Status event
            /\ Attendees submitted = Attendees event
            /\ Date (Start submitted) = Date (Start event)
            /\ TimeZone (Start submitted) = TimeZone (Start event)
            /\ Date (End_ submitted) = Date (End_ event)
            /\ TimeZone (End_ submitted) = TimeZone (End_ event))).
Proof.
  cbv zeta. destruct w as [inp out cs fs dn]. destruct inp as [|idLine inp].
  - unfold updateEvent. rewrite bind_run, promptForInput_eof.
    cbn [snd calls files denied]. auto.
  - destruct (Events_Get srv calendarID (TrimSpace idLine)) as [event|err] eqn:G.
    2:{ rewrite (updateEvent_no_event _ _ _ _ _ _ _ _ _ G).
        cbn [snd calls files denied]. repeat split. right. left. eauto. }
    destruct (Nat.lt_ge_cases (length inp) 3) as [L|L].
    { destruct (updateEvent_short_run srv calendarID idLine inp out cs fs dn event G L)
        as [out' ->].
      cbn [snd calls files denied]. repeat split. right. left. eauto. }
    destruct inp as [|titleLine [|descLine [|gateLine rest]]];
      try (cbn [length] in L; lia).
    destruct (updateEvent_run srv calendarID idLine titleLine descLine gateLine
                rest out cs fs dn event G) as [out3 E].
    rewrite E. cbv zeta. clear E.
    set (id := TrimSpace idLine).
    set (merged := mergedText event (TrimSpace titleLine) (TrimSpace descLine)).
    pose proof (mergedText_frame event (TrimSpace titleLine) (TrimSpace descLine)) as F.
    cbv zeta in F. fold merged in F. destruct F as (F1 & F2 & F3 & F4 & F5).
    destruct (String.eqb (ToLower (TrimSpace gateLine)) "y").
    + destruct (updateTimes merged (mkWorld rest out3 (cs ++ [CallGet calendarID id]) fs dn))
        as [[event'|err] w4] eqn:T.
      * destruct (updateTimes_frame _ _ _ _ T) as [C M].
        destruct (updateTimes_files _ _ _ _ T) as [Fs Dn].
        destruct (M event' eq_refl) as (s & e & ->).
        destruct w4 as [inp4 out4 cs4 fs4 dn4]. cbn [calls files denied] in C, Fs, Dn.
        subst cs4 fs4 dn4.
        destruct (submitUpdate_run srv calendarID id (mergedTimes merged s e) inp4 out4
                    (cs ++ [CallGet calendarID id]) fs dn) as (r & out' & ->).
        cbn [snd calls files denied]. repeat split. right. right.
        exists id, event, (mergedTimes merged s e). rewrite <- app_assoc. cbn [app].
        pose proof (mergedTimes_frame merged s e) as T'. cbv zeta in T'.
        destruct T' as (T1 & T2 & T3 & _ & _ & T6 & T7 & T8 & T9).
        rewrite T1, T2, T3, T6, T7, T8, T9, F2, F3.
        repeat split; assumption.
      * destruct (updateTimes_frame _ _ _ _ T) as [C _].
        destruct (updateTimes_files _ _ _ _ T) as [Fs Dn].
        cbn [snd]. cbn [calls files denied] in C, Fs, Dn.
        repeat split; try assumption. right. left. exists id. exact C.
    + destruct (submitUpdate_run srv calendarID id merged rest out3
                  (cs ++ [CallGet calendarID id]) fs dn) as (r & out' & ->).
      cbn [snd calls files denied]. repeat split. right. right.
      exists id, event, merged. rewrite <- app_assoc. cbn [app].
      rewrite F2, F3. repeat split; assumption.
Qed.

(** X10.  Inside the time gate a bad start ends the update.  With the
    event fetched and the gate entered, a start answer that is neither
    blank nor a date and time ends [updateEvent] with the format error:
    the end is not asked for, and the Get stays the only request. *)
Theorem updateEvent_stops_at_bad_start (srv : Service)
    (calendarID idLine titleLine descLine gateLine startLine : string)
    (rest : list string) (out : string) (cs : list Call)
    (fs : gmap string string) (dn : gset string) (event : Event) :
  Events_Get srv calendarID (TrimSpace idLine) = Ok event ->
  TrimSpace gateLine = "y" \/ TrimSpace gateLine = "Y" ->
  TrimSpace startLine <> "" ->
  acceptedFormat (TrimSpace startLine) = false ->
  exists cause out',
    updateEvent srv calendarID
      (mkWorld (idLine :: titleLine :: descLine :: gateLine :: startLine :: rest) out cs fs dn)
    = (Err (Wrapf "invalid time format (use YYYY-MM-DD HH:MM): " cause),
       mkWorld rest out' (cs ++ [CallGet calendarID (TrimSpace idLine)]) fs dn).
Proof.
  intros G Y N A.
  destruct (updateEvent_run srv calendarID idLine titleLine descLine gateLine
              (startLine :: rest) out cs fs dn event G) as [out3 E].
  rewrite E. cbv zeta. clear E.
  replace (String.eqb (ToLower (TrimSpace gateLine)) "y") with true
    by (symmetry; apply eqb_y_true; auto).
  destruct (parseTime_refused _ A) as [cause P]. exists cause.
  unfold updateTimes.
  rewrite bind_run, promptForInput_line. rewrite bind_run.
  apply isEmpty_false in N. rewrite N. cbn [negb].
  rewrite bind_run, parseTimeM_run, P. eexists. reflexivity.
Qed.

Lemma updateEvent_stops_at_bad_start_witness :
  exists cause out',
    updateEvent sampleService "id_work"
      (terminal ["evt1"; ""; ""; "y"; "tomorrow"; "2024-03-15 11:00"])
    = (Err (Wrapf "invalid time format (use YYYY-MM-DD HH:MM): " cause),
       mkWorld ["2024-03-15 11:00"] out' ([] ++ [CallGet "id_work" (TrimSpace "evt1")]) ∅ ∅).
Proof.
  apply (updateEvent_stops_at_bad_start sampleService "id_work"
           "evt1" "" "" "y" "tomorrow" ["2024-03-15 11:00"] "" [] ∅ ∅ standup
           eq_refl (or_introl eq_refl)).
  - discriminate.
  - reflexivity.
Defined.

(** X11.  Inside the time gate each bound is kept or replaced on its
    own.  With the event fetched and the gate entered: a blank start
    next to an accepted end submits the fetched start untouched and the
    end with the new timestamp and its old date and zone; a blank end
    next to an accepted start does the same the other way round.  (The
    end must not be before the start, as the operation checks.) *)
Theorem updateEvent_blank_bound_is_kept (srv : Service)
    (calendarID idLine titleLine descLine gateLine startLine endLine : string)
    (rest : list string) (out : string) (cs : list Call)
    (fs : gmap string string) (dn : gset string) (event : Event) (wire : string) :
  Events_Get srv calendarID (TrimSpace idLine) = Ok event ->
  TrimSpace gateLine = "y" \/ TrimSpace gateLine = "Y" ->
  let id := TrimSpace idLine in
  let w := mkWorld (idLine :: titleLine :: descLine :: gateLine :: startLine :: endLine :: rest)
             out cs fs dn in
  (TrimSpace startLine = "" -> TrimSpace endLine <> "" ->
   parseTime (TrimSpace endLine) = (wire, None) ->
   time.Before (time.valueOf (time.Parse time.RFC3339 wire))
               (time.valueOf (time.Parse time.RFC3339 (DateTime (Start event)))) = false ->
   exists submitted,
     calls (snd (updateEvent srv calendarID w))
     = (cs ++ [CallGet calendarID id; CallUpdate calendarID id submitted])%list
     /\ Start submitted = Start event
     /\ End_ submitted = mkEventDateTime (Date (End_ event)) wire (TimeZone (End_ event)))
  /\ (TrimSpace endLine = "" -> TrimSpace startLine <> "" ->
      parseTime (TrimSpace startLine) = (wire, None) ->
      time.Before (time.valueOf (time.Parse time.RFC3339 (DateTime (End_ event))))
                  (time.valueOf (time.Parse time.RFC3339 wire)) = false ->
      exists submitted,
        calls (snd (updateEvent srv calendarID w))
        = (cs ++ [CallGet calendarID id; CallUpdate calendarID id submitted])%list
        /\ Start submitted = mkEventDateTime (Date (Start event)) wire (TimeZone (Start event))
        /\ End_ submitted = End_ event).
Proof.
  intros G Y. cbv zeta.
  pose proof (mergedText_frame event (TrimSpace titleLine) (TrimSpace descLine)) as F.
  cbv zeta in F. destruct F as (_ & F2 & F3 & _).
  split.
  - intros Bs Ne P B.
    assert (mergeBound (DateTime (Start event)) (TrimSpace startLine)
            = (DateTime (Start event), None)) as Ms
      by (unfold mergeBound; rewrite Bs; reflexivity).
    assert (mergeBound (DateTime (End_ event)) (TrimSpace endLine) = (wire, None)) as Me
      by (unfold mergeBound; apply isEmpty_false in Ne; rewrite Ne; exact P).
    destruct (updateEvent_entered srv calendarID idLine titleLine descLine gateLine
                startLine endLine rest out cs fs dn event _ _ G Y Ms Me)
      as (r & w' & -> & C).
    rewrite B in C. cbn [snd]. eexists. split; [exact C|].
    unfold mergedTimes. cbn [Start End_ setEndDateTime setStartDateTime setDateTime].
    rewrite F2, F3. split; [|reflexivity].
    destruct (Start event); reflexivity.
  - intros Be Ns P B.
    assert (mergeBound (DateTime (Start event)) (TrimSpace startLine) = (wire, None)) as Ms
      by (unfold mergeBound; apply isEmpty_false in Ns; rewrite Ns; exact P).
    assert (mergeBound (DateTime (End_ event)) (TrimSpace endLine)
            = (DateTime (End_ event), None)) as Me
      by (unfold mergeBound; rewrite Be; reflexivity).
    destruct (updateEvent_entered srv calendarID idLine titleLine descLine gateLine
                startLine endLine rest out cs fs dn event _ _ G Y Ms Me)
      as (r & w' & -> & C).
    rewrite B in C. cbn [snd]. eexists. split; [exact C|].
    unfold mergedTimes. cbn [Start End_ setEndDateTime setStartDateTime setDateTime].
    rewrite F2, F3. split; [reflexivity|].
    destruct (End_ event); reflexivity.
Qed.

Lemma updateEvent_blank_bound_is_kept_witness :
  exists submitted,
    calls (snd (updateEvent sampleService "id_work"
                  (terminal ["evt1"; ""; ""; "y"; ""; "2024-03-15 11:00"])))
    = ([] ++ [CallGet "id_work" (TrimSpace "evt1");
              CallUpdate "id_work" (TrimSpace "evt1") submitted])%list
    /\ Start submitted = Start standup
    /\ End_ submitted
       = mkEventDateTime (Date (End_ standup)) "2024-03-15T11:00:00Z" (TimeZone (End_ standup)).
Proof.
  apply (proj1 (updateEvent_blank_bound_is_kept sampleService "id_work"
                  "evt1" "" "" "y" "" "2024-03-15 11:00" [] "" [] ∅ ∅ standup
                  "2024-03-15T11:00:00Z" eq_refl (or_introl eq_refl))).
  - reflexivity.
  - discriminate.
  - vm_compute. reflexivity.
  - vm_compute. reflexivity.
Defined.

(** X12.  What a run of Delete can send.  Whatever the input and the
    service, [deleteEvent] leaves the files alone and sends nothing or
    exactly one Delete; it sends one only after two lines were read, the
    second of them "y" or "Y", for the identifier on the first.  When
    the input ends before the confirmation the run ends with the
    end-of-file error. *)
Theorem deleteEvent_sends_at_most_one (srv : Service) (calendarID : string) (w : World) :
  let r := fst (deleteEvent srv calendarID w) in
  let w' := snd (deleteEvent srv calendarID w) in
  files w' = files w /\ denied w' = denied w
  /\ ((length (stdin w) < 2)%nat -> r = Err EOF /\ calls w' = calls w)
  /\ (calls w' = calls w
      \/ exists idLine confirmLine rest,
           stdin w = idLine :: confirmLine :: rest
           /\ (TrimSpace confirmLine = "y" \/ TrimSpace confirmLine = "Y")
           /\ calls w' = (calls w ++ [CallDelete calendarID (TrimSpace idLine)])%list).
Proof.
  cbv zeta. destruct w as [inp out cs fs dn].
  destruct inp as [|idLine [|confirmLine rest]].
  - unfold deleteEvent. rewrite bind_run, promptForInput_eof.
    cbn [fst snd stdin calls files denied]. auto.
  - unfold deleteEvent. rewrite bind_run, promptForInput_line.
    rewrite bind_run, promptForInput_eof.
    cbn [fst snd stdin calls files denied]. auto.
  - pose proof (deleteEvent_run srv calendarID idLine confirmLine rest out cs fs dn) as R.
    cbv zeta in R. rewrite R. clear R. cbn [stdin length].
    destruct (String.eqb (ToLower (TrimSpace confirmLine)) "y") eqn:Y.
    + apply eqb_y_true in Y.
      destruct (Events_Delete srv calendarID (TrimSpace idLine));
        cbn [fst snd stdin calls files denied];
        (repeat split; [lia | lia |]); right; exists idLine, confirmLine, rest; auto.
    + cbn [fst snd stdin calls files denied]. repeat split; try lia. auto.
Qed.

Lemma deleteEvent_sends_at_most_one_witness :
  fst (deleteEvent sampleService "id_work" (terminal ["evt1"])) = Err EOF
  /\ calls (snd (deleteEvent sampleService "id_work" (terminal ["evt1"])))
     = calls (terminal ["evt1"]).
Proof.
  apply (deleteEvent_sends_at_most_one sampleService "id_work" (terminal ["evt1"])).
  cbn. lia.
Defined.

(** X13.  A Delete the service refuses.  After a confirmed deletion that
    the service refuses, [deleteEvent] returns its error behind the
    words "unable to delete event: " and prints no success; the request
    was sent once. *)
Theorem deleteEvent_failure_is_wrapped (srv : Service) (calendarID idLine confirmLine : string)
    (rest : list string) (out : string) (cs : list Call)
    (fs : gmap string string) (dn : gset string) (err : error) :
  TrimSpace confirmLine = "y" \/ TrimSpace confirmLine = "Y" ->
  Events_Delete srv calendarID (TrimSpace idLine) = Some err ->
  let id := TrimSpace idLine in
  deleteEvent srv calendarID (mkWorld (idLine :: confirmLine :: rest) out cs fs dn)
  = (Err (Wrapf "unable to delete event: " err),
     mkWorld rest
       ((out +:+ "Event ID to delete: ")
        +:+ ("Are you sure you want to delete event " +:+ id +:+ "? (y/n): "))
       (cs ++ [CallDelete calendarID id]) fs dn).
Proof.
  intros Y D. cbv zeta.
  pose proof (deleteEvent_run srv calendarID idLine confirmLine rest out cs fs dn) as R.
  cbv zeta in R. rewrite R.
  replace (String.eqb (ToLower (TrimSpace confirmLine)) "y") with true
    by (symmetry; apply eqb_y_true; auto).
  rewrite D. reflexivity.
Qed.

Lemma deleteEvent_failure_is_wrapped_witness :
  deleteEvent strictService "id_work" (terminal ["evt9"; "Y"])
  = (Err (Wrapf "unable to delete event: " notFound),
     mkWorld []
       (("" +:+ "Event ID to delete: ")
        +:+ ("Are you sure you want to delete event " +:+ TrimSpace "evt9" +:+ "? (y/n): "))
       ([] ++ [CallDelete "id_work" (TrimSpace "evt9")]) ∅ ∅).
Proof.
  apply (deleteEvent_failure_is_wrapped strictService "id_work" "evt9" "Y" [] "" [] ∅ ∅
           notFound (or_intror eq_refl) eq_refl).
Defined.

(* ===================================================================== *)
(** * The authenticator *)
(* ===================================================================== *)

Lemma bindS_run {A B} (m : MS A) (k : A -> MS B) (s : Session) :
  (m ≫= k) s = match m s with
               | (Ok a, s') => k a s'
               | (Err e, s') => (Err e, s')
               end.
Proof. reflexivity. Qed.

Lemma inWorld_run {A} (m : M A) (w : World) (e : string) (rq : list Request) :
  inWorld m (mkSession w e rq) = (fst (m w), mkSession (snd (m w)) e rq).
Proof. unfold inWorld. cbn [world stderr requests]. destruct (m w); reflexivity. Qed.

(** [getTokenFromWeb] with the code typed, and with no input left. *)
Lemma getTokenFromWeb_run (config : Config) (codeLine : string)
    (rest : list string) (out : string) (cs : list Call)
    (fs : gmap string string) (dn : gset string) (e : string) (rq : list Request) :
  let code := TrimSpace codeLine in
  let s' := mkSession
              (mkWorld rest ((out +:+ invitation config) +:+ "Authorization code: ") cs fs dn)
              e (rq ++ [ReqExchange code]) in
  getTokenFromWeb config (mkSession (mkWorld (codeLine :: rest) out cs fs dn) e rq)
  = match Exchange config code with
    | Ok tok => (Ok tok, s')
    | Err err => (Err (Wrapf "unable to retrieve token from web: " err), s')
    end.
Proof.
  cbv zeta. unfold getTokenFromWeb.
  rewrite bindS_run, inWorld_run. unfold print at 1 2.
  cbn [fst snd stdin stdout calls files denied].
  rewrite bindS_run, inWorld_run. unfold orWrap. rewrite promptForInput_line.
  cbn [fst snd]. rewrite bindS_run. unfold request at 1. cbn [world stderr requests].
  destruct (Exchange config (TrimSpace codeLine)); reflexivity.
Qed.

Lemma getTokenFromWeb_eof (config : Config) (out : string) (cs : list Call)
    (fs : gmap string string) (dn : gset string) (e : string) (rq : list Request) :
  getTokenFromWeb config (mkSession (mkWorld [] out cs fs dn) e rq)
  = (Err (Wrapf "failed to read authorization code: " EOF),
     mkSession (mkWorld [] ((out +:+ invitation config) +:+ "Authorization code: ") cs fs dn)
       e rq).
Proof.
  unfold getTokenFromWeb.
  rewrite bindS_run, inWorld_run. unfold print at 1 2.
  cbn [fst snd stdin stdout calls files denied].
  rewrite bindS_run, inWorld_run. unfold orWrap. rewrite promptForInput_eof.
  reflexivity.
Qed.

Section AuthenticatorFacts.

Variable json_Marshal : Token -> Result string.
Variable json_Decode : string -> Result Token.

(** Loading reads: the world is the same afterwards. *)
Lemma tokenFromFile_world (file : string) (w : World) :
  snd (tokenFromFile json_Decode file w) = w.
Proof.
  unfold tokenFromFile. rewrite bind_run. unfold os_Open.
  destruct (decide (file ∈ denied w)); [reflexivity|].
  destruct (files w !! file); reflexivity.
Qed.

(** [getClient] by the outcome of the load. *)
Lemma getClient_run (host : Host) (config : Config) (home : string) (s : Session) :
  user_Current host = Ok home ->
  let tokPath := filepath.Join home "token.json" in
  getClient json_Marshal json_Decode host config s
  = match fst (tokenFromFile json_Decode tokPath (world s)) with
    | Ok tok => (Ok (mkClient tok), s)
    | Err _ =>
        match getTokenFromWeb config s with
        | (Ok tok, s') =>
            match saveToken json_Marshal tokPath tok (world s') with
            | (Ok _, w'') => (Ok (mkClient tok), mkSession w'' (stderr s') (requests s'))
            | (Err err, w'') => (Err err, mkSession w'' (stderr s') (requests s'))
            end
        | (Err err, s') => (Err err, s')
        end
    end.
Proof.
  intros U. cbv zeta. unfold getClient, getTokenFilePath. rewrite U.
  destruct s as [w e rq]. rewrite inWorld_run. cbn [world].
  rewrite tokenFromFile_world.
  destruct (fst (tokenFromFile json_Decode (filepath.Join home "token.json") w))
    as [tok|err]; [reflexivity|].
  rewrite bindS_run.
  destruct (getTokenFromWeb config (mkSession w e rq)) as [[tok|err'] s']; [|reflexivity].
  rewrite bindS_run. destruct s' as [w' e' rq']. rewrite inWorld_run.
  cbn [world stderr requests].
  destruct (saveToken json_Marshal (filepath.Join home "token.json") tok w')
    as [[[]|err'] w'']; reflexivity.
Qed.

(** With a token file that decodes, [getClient] is done at once. *)
Lemma getClient_cached (host : Host) (config : Config) (home contents : string)
    (tok : Token) (s : Session) :
  user_Current host = Ok home ->
  filepath.Join home "token.json" ∉ denied (world s) ->
  files (world s) !! filepath.Join home "token.json" = Some contents ->
  json_Decode contents = Ok tok ->
  getClient json_Marshal json_Decode host config s = (Ok (mkClient tok), s).
Proof.
  intros U Dn F D.
  rewrite (getClient_run host config home s U). cbv zeta.
  rewrite (tokenFromFile_present json_Decode _ contents _ Dn F).
  cbn [fst]. rewrite D. reflexivity.
Qed.

End AuthenticatorFacts.

(** X14.  A cached credential is used as it is.  When the token file
    under the home directory decodes, [getClient] returns the client of
    that token and leaves everything as it was: nothing is printed or
    read, no code is exchanged, no file is written. *)
Theorem getClient_reuses_cached_token
    (json_Marshal : Token -> Result string) (json_Decode : string -> Result Token)
    (host : Host) (config : Config) (home contents : string) (tok : Token) (s : Session) :
  user_Current host = Ok home ->
  let tokPath := filepath.Join home "token.json" in
  tokPath ∉ denied (world s) ->
  files (world s) !! tokPath = Some contents ->
  json_Decode contents = Ok tok ->
  getClient json_Marshal json_Decode host config s = (Ok (mkClient tok), s).
Proof.
  intros U tokPath Dn F D.
  exact (getClient_cached json_Marshal json_Decode host config home contents tok s U Dn F D).
Qed.

Lemma getClient_reuses_cached_token_witness :
  let s := session (mkWorld ["4/0AbCd"] "" []
                      {[ "/home/op/token.json" :=
                           dq +:+ "ya29.a0Af" +:+ dq +:+ "," +:+ dq +:+ "Bearer" +:+ dq +:+ ","
                           +:+ dq +:+ "1//0gRefresh" +:+ dq +:+ nl ]} ∅) in
  getClient sampleMarshal sampleDecode sampleHost sampleConfig s
  = (Ok (mkClient sampleToken), s).
Proof.
  cbv zeta.
  apply (getClient_reuses_cached_token sampleMarshal sampleDecode sampleHost sampleConfig
           "/home/op"
           (dq +:+ "ya29.a0Af" +:+ dq +:+ "," +:+ dq +:+ "Bearer" +:+ dq +:+ ","
            +:+ dq +:+ "1//0gRefresh" +:+ dq +:+ nl)
           sampleToken).
  - reflexivity.
  - apply not_elem_of_empty.
  - apply lookup_singleton_eq.
  - reflexivity.
Defined.

(** The load fails when the token file is missing or does not decode. *)
Lemma tokenFromFile_unusable (json_Decode : string -> Result Token) (file : string) (w : World) :
  file ∉ denied w ->
  (files w !! file = None
   \/ exists contents, files w !! file = Some contents /\ isOk (json_Decode contents) = false) ->
  exists err, fst (tokenFromFile json_Decode file w) = Err err.
Proof.
  intros Dn [F|(contents & F & D)].
  - rewrite (tokenFromFile_missing json_Decode file w Dn F). eauto.
  - rewrite (tokenFromFile_present json_Decode file contents w Dn F).
    cbn [fst]. destruct (json_Decode contents) as [tok|err]; [discriminate D | eauto].
Qed.

(** X15.  The first run asks, exchanges and stores.  When the token file
    is missing, or holds something that does not decode, [getClient]
    prints the invitation with the authorization URL, reads one line,
    exchanges the trimmed line for a token once, writes the encoding of
    that token and a line feed over the file, and returns the client of
    the token. *)
Theorem getClient_first_run
    (json_Marshal : Token -> Result string) (json_Decode : string -> Result Token)
    (host : Host) (config : Config) (home codeLine data : string) (tok : Token)
    (rest : list string) (out : string) (cs : list Call)
    (fs : gmap string string) (dn : gset string) (e : string) (rq : list Request) :
  user_Current host = Ok home ->
  let tokPath := filepath.Join home "token.json" in
  tokPath ∉ dn ->
  (fs !! tokPath = None
   \/ exists contents, fs !! tokPath = Some contents /\ isOk (json_Decode contents) = false) ->
  Exchange config (TrimSpace codeLine) = Ok tok ->
  json_Marshal tok = Ok data ->
  getClient json_Marshal json_Decode host config
    (mkSession (mkWorld (codeLine :: rest) out cs fs dn) e rq)
  = (Ok (mkClient tok),
     mkSession
       (mkWorld rest ((out +:+ invitation config) +:+ "Authorization code: ") cs
          (<[tokPath := data +:+ nl]> fs) dn)
       e (rq ++ [ReqExchange (TrimSpace codeLine)])).
Proof.
  intros U tokPath Dn F X Mj.
  rewrite (getClient_run json_Marshal json_Decode host config home _ U). cbv zeta.
  fold tokPath. cbn [world].
  destruct (tokenFromFile_unusable json_Decode tokPath
              (mkWorld (codeLine :: rest) out cs fs dn) Dn F) as [err ->].
  pose proof (getTokenFromWeb_run config codeLine rest out cs fs dn e rq) as W.
  cbv zeta in W. rewrite W, X. cbn [world stderr requests].
  rewrite (saveToken_run json_Marshal tokPath tok data _ _ _ _ _ Dn Mj).
  reflexivity.
Qed.

Lemma getClient_first_run_witness :
  getClient sampleMarshal sampleDecode sampleHost sampleConfig
    (mkSession (mkWorld [" 4/0AbCd "; "1"] "" [] ∅ ∅) "" [])
  = (Ok (mkClient sampleToken),
     mkSession
       (mkWorld ["1"] (("" +:+ invitation sampleConfig) +:+ "Authorization code: ") []
          (<[filepath.Join "/home/op" "token.json" :=
               (dq +:+ "ya29.a0Af" +:+ dq +:+ "," +:+ dq +:+ "Bearer" +:+ dq +:+ ","
                +:+ dq +:+ "1//0gRefresh" +:+ dq) +:+ nl]> ∅) ∅)
       "" ([] ++ [ReqExchange (TrimSpace " 4/0AbCd ")])).
Proof.
  apply (getClient_first_run sampleMarshal sampleDecode sampleHost sampleConfig
           "/home/op" " 4/0AbCd "
           (dq +:+ "ya29.a0Af" +:+ dq +:+ "," +:+ dq +:+ "Bearer" +:+ dq +:+ ","
            +:+ dq +:+ "1//0gRefresh" +:+ dq)
           sampleToken ["1"] "" [] ∅ ∅ "" []).
  - reflexivity.
  - apply not_elem_of_empty.
  - left. apply lookup_empty.
  - reflexivity.
  - reflexivity.
Defined.

(** X16.  The operator is asked once.  After a first run that stored a
    token the codec reads back, a second [getClient] in the session the
    first one left returns the same client and changes nothing: no
    prompt, no exchange, no write. *)
Theorem getClient_asks_once
    (json_Marshal : Token -> Result string) (json_Decode : string -> Result Token)
    (host : Host) (config : Config) (home codeLine data : string) (tok : Token)
    (rest : list string) (out : string) (cs : list Call)
    (fs : gmap string string) (dn : gset string) (e : string) (rq : list Request) :
  user_Current host = Ok home ->
  let tokPath := filepath.Join home "token.json" in
  tokPath ∉ dn ->
  fs !! tokPath = None ->
  Exchange config (TrimSpace codeLine) = Ok tok ->
  json_Marshal tok = Ok data ->
  json_Decode (data +:+ nl) = Ok tok ->
  exists s',
    getClient json_Marshal json_Decode host config
      (mkSession (mkWorld (codeLine :: rest) out cs fs dn) e rq)
    = (Ok (mkClient tok), s')
    /\ getClient json_Marshal json_Decode host config s' = (Ok (mkClient tok), s').
Proof.
  intros U tokPath Dn F X Mj Dj.
  pose proof (getClient_run json_Marshal json_Decode host config home
                (mkSession (mkWorld (codeLine :: rest) out cs fs dn) e rq) U) as R1.
  cbv zeta in R1. fold tokPath in R1. cbn [world] in R1.
  rewrite (tokenFromFile_missing json_Decode tokPath
             (mkWorld (codeLine :: rest) out cs fs dn) Dn F) in R1. cbn [fst] in R1.
  pose proof (getTokenFromWeb_run config codeLine rest out cs fs dn e rq) as W.
  cbv zeta in W. rewrite W, X in R1. cbn [world stderr requests] in R1.
  rewrite (saveToken_run json_Marshal tokPath tok data _ _ _ _ _ Dn Mj) in R1.
  eexists. split; [exact R1|].
  rewrite (getClient_run json_Marshal json_Decode host config home _ U). cbv zeta.
  fold tokPath. cbn [world].
  rewrite (tokenFromFile_present json_Decode tokPath (data +:+ nl)
             (mkWorld rest ((out +:+ invitation config) +:+ "Authorization code: ") cs
                (<[tokPath := data +:+ nl]> fs) dn) Dn (lookup_insert_eq _ _ _)).
  cbn [fst]. rewrite Dj. reflexivity.
Qed.

Lemma getClient_asks_once_witness :
  exists s',
    getClient sampleMarshal sampleDecode sampleHost sampleConfig
      (mkSession (mkWorld ["4/0AbCd"; "1"] "" [] ∅ ∅) "" [])
    = (Ok (mkClient sampleToken), s')
    /\ getClient sampleMarshal sampleDecode sampleHost sampleConfig s'
       = (Ok (mkClient sampleToken), s').
Proof.
  apply (getClient_asks_once sampleMarshal sampleDecode sampleHost sampleConfig
           "/home/op" "4/0AbCd"
           (dq +:+ "ya29.a0Af" +:+ dq +:+ "," +:+ dq +:+ "Bearer" +:+ dq +:+ ","
            +:+ dq +:+ "1//0gRefresh" +:+ dq)
           sampleToken ["1"] "" [] ∅ ∅ "" []).
  - reflexivity.
  - apply not_elem_of_empty.
  - apply lookup_empty.
  - reflexivity.
  - reflexivity.
  - reflexivity.
Defined.

(** X17.  A failed exchange stores nothing.  When there is no usable
    token file and the exchange of the typed code fails, [getClient]
    returns the cause behind the words "unable to retrieve token from
    web: "; the code was sent once and the file system is as before. *)
Theorem getClient_failed_exchange
    (json_Marshal : Token -> Result string) (json_Decode : string -> Result Token)
    (host : Host) (config : Config) (home codeLine : string) (err : error)
    (rest : list string) (out : string) (cs : list Call)
    (fs : gmap string string) (dn : gset string) (e : string) (rq : list Request) :
  user_Current host = Ok home ->
  let tokPath := filepath.Join home "token.json" in
  tokPath ∉ dn ->
  (fs !! tokPath = None
   \/ exists contents, fs !! tokPath = Some contents /\ isOk (json_Decode contents) = false) ->
  Exchange config (TrimSpace codeLine) = Err err ->
  getClient json_Marshal json_Decode host config
    (mkSession (mkWorld (codeLine :: rest) out cs fs dn) e rq)
  = (Err (Wrapf "unable to retrieve token from web: " err),
     mkSession
       (mkWorld rest ((out +:+ invitation config) +:+ "Authorization code: ") cs fs dn)
       e (rq ++ [ReqExchange (TrimSpace codeLine)])).
Proof.
  intros U tokPath Dn F X.
  rewrite (getClient_run json_Marshal json_Decode host config home _ U). cbv zeta.
  fold tokPath. cbn [world].
  destruct (tokenFromFile_unusable json_Decode tokPath
              (mkWorld (codeLine :: rest) out cs fs dn) Dn F) as [err' ->].
  pose proof (getTokenFromWeb_run config codeLine rest out cs fs dn e rq) as W.
  cbv zeta in W. rewrite W, X. reflexivity.
Qed.

Lemma getClient_failed_exchange_witness :
  getClient sampleMarshal sampleDecode sampleHost sampleConfig
    (mkSession (mkWorld ["stale-code"] "" [] ∅ ∅) "" [])
  = (Err (Wrapf "unable to retrieve token from web: "
            (RemoteError "oauth2: cannot fetch token: 400 Bad Request")),
     mkSession
       (mkWorld [] (("" +:+ invitation sampleConfig) +:+ "Authorization code: ") [] ∅ ∅)
       "" ([] ++ [ReqExchange (TrimSpace "stale-code")])).
Proof.
  apply (getClient_failed_exchange sampleMarshal sampleDecode sampleHost sampleConfig
           "/home/op" "stale-code"
           (RemoteError "oauth2: cannot fetch token: 400 Bad Request")
           [] "" [] ∅ ∅ "" []).
  - reflexivity.
  - apply not_elem_of_empty.
  - left. apply lookup_empty.
  - reflexivity.
Defined.

(** X18.  A token that cannot be stored is lost.  When the token file
    cannot be opened, the exchange still takes place; [getClient] then
    returns the error of the store behind the words "unable to cache
    oauth token: " instead of a client, and the file system is as
    before. *)
Theorem getClient_unwritable_cache
    (json_Marshal : Token -> Result string) (json_Decode : string -> Result Token)
    (host : Host) (config : Config) (home codeLine : string) (tok : Token)
    (rest : list string) (out : string) (cs : list Call)
    (fs : gmap string string) (dn : gset string) (e : string) (rq : list Request) :
  user_Current host = Ok home ->
  let tokPath := filepath.Join home "token.json" in
  tokPath ∈ dn ->
  Exchange config (TrimSpace codeLine) = Ok tok ->
  exists cause,
    getClient json_Marshal json_Decode host config
      (mkSession (mkWorld (codeLine :: rest) out cs fs dn) e rq)
    = (Err (Wrapf "unable to cache oauth token: " cause),
       mkSession
         (mkWorld rest ((out +:+ invitation config) +:+ "Authorization code: ") cs fs dn)
         e (rq ++ [ReqExchange (TrimSpace codeLine)])).
Proof.
  intros U tokPath Dn X.
  rewrite (getClient_run json_Marshal json_Decode host config home _ U). cbv zeta.
  fold tokPath. cbn [world].
  assert (fst (tokenFromFile json_Decode tokPath (mkWorld (codeLine :: rest) out cs fs dn))
          = Err (PathError "open" tokPath "permission denied")) as ->.
  { unfold tokenFromFile. rewrite bind_run. unfold os_Open. cbn [denied].
    destruct (decide (tokPath ∈ dn)); [reflexivity | contradiction]. }
  pose proof (getTokenFromWeb_run config codeLine rest out cs fs dn e rq) as W.
  cbv zeta in W. rewrite W, X. cbn [world stderr requests].
  destruct (saveToken_denied json_Marshal tokPath tok
              (mkWorld rest ((out +:+ invitation config) +:+ "Authorization code: ") cs fs dn)
              Dn) as [cause ->].
  exists cause. reflexivity.
Qed.

Lemma getClient_unwritable_cache_witness :
  exists cause,
    getClient sampleMarshal sampleDecode sampleHost sampleConfig
      (mkSession (mkWorld ["4/0AbCd"] "" [] ∅ {[ "/home/op/token.json" ]}) "" [])
    = (Err (Wrapf "unable to cache oauth token: " cause),
       mkSession
         (mkWorld [] (("" +:+ invitation sampleConfig) +:+ "Authorization code: ") [] ∅
            {[ "/home/op/token.json" ]})
         "" ([] ++ [ReqExchange (TrimSpace "4/0AbCd")])).
Proof.
  apply (getClient_unwritable_cache sampleMarshal sampleDecode sampleHost sampleConfig
           "/home/op" "4/0AbCd" sampleToken [] "" [] ∅ {[ "/home/op/token.json" ]} "" []).
  - reflexivity.
  - apply elem_of_singleton. reflexivity.
  - reflexivity.
Defined.

(** X19.  What stops the authenticator before the exchange.  When the
    current user cannot be found, [getClient] returns that error behind
    the words "failed to get current user: " and leaves the session as
    it was.  When there is no token file and the input is at its end,
    it returns the end-of-file error behind "failed to read
    authorization code: "; the invitation was printed, no code was
    exchanged and no file written. *)
Theorem getClient_stops_before_exchange
    (json_Marshal : Token -> Result string) (json_Decode : string -> Result Token)
    (host : Host) (config : Config) (s : Session) :
  (forall err, user_Current host = Err err ->
     getClient json_Marshal json_Decode host config s
     = (Err (Wrapf "failed to get current user: " err), s))
  /\ (forall home, user_Current host = Ok home ->
        filepath.Join home "token.json" ∉ denied (world s) ->
        files (world s) !! filepath.Join home "token.json" = None ->
        stdin (world s) = [] ->
        getClient json_Marshal json_Decode host config s
        = (Err (Wrapf "failed to read authorization code: " EOF),
           mkSession
             (mkWorld [] ((stdout (world s) +:+ invitation config) +:+ "Authorization code: ")
                (calls (world s)) (files (world s)) (denied (world s)))
             (stderr s) (requests s))).
Proof.
  split.
  - intros err U. unfold getClient, getTokenFilePath. rewrite U. reflexivity.
  - intros home U Dn F I.
    rewrite (getClient_run json_Marshal json_Decode host config home _ U). cbv zeta.
    rewrite (tokenFromFile_missing json_Decode _ _ Dn F). cbn [fst].
    destruct s as [[inp out cs fs dn] e rq]. cbn [world stdin] in I. subst inp.
    rewrite getTokenFromWeb_eof. reflexivity.
Qed.

Lemma getClient_stops_before_exchange_witness :
  getClient sampleMarshal sampleDecode
    (mkHost (Err (Errorf "user: Current requires cgo or $USER set in environment"))
       time.zero)
    sampleConfig (session (terminal ["4/0AbCd"]))
  = (Err (Wrapf "failed to get current user: "
            (Errorf "user: Current requires cgo or $USER set in environment")),
     session (terminal ["4/0AbCd"]))
  /\ getClient sampleMarshal sampleDecode sampleHost sampleConfig (session (terminal []))
     = (Err (Wrapf "failed to read authorization code: " EOF),
        mkSession
          (mkWorld [] ((stdout (world (session (terminal []))) +:+ invitation sampleConfig)
                       +:+ "Authorization code: ")
             (calls (world (session (terminal [])))) (files (world (session (terminal []))))
             (denied (world (session (terminal [])))))
          (stderr (session (terminal []))) (requests (session (terminal [])))).
Proof.
  split.
  - apply (proj1 (getClient_stops_before_exchange sampleMarshal sampleDecode
                    (mkHost (Err (Errorf "user: Current requires cgo or $USER set in environment"))
                       time.zero)
                    sampleConfig (session (terminal ["4/0AbCd"])))).
    reflexivity.
  - apply (proj2 (getClient_stops_before_exchange sampleMarshal sampleDecode
                    sampleHost sampleConfig (session (terminal []))) "/home/op").
    + reflexivity.
    + apply not_elem_of_empty.
    + apply lookup_empty.
    + reflexivity.
Defined.

(* ===================================================================== *)
(** * Listing the events *)
(* ===================================================================== *)

Lemma printEvents_run (items : list Event) (i : Z)
    (inp : list string) (out : string) (cs : list Call)
    (fs : gmap string string) (dn : gset string) :
  exists out', printEvents i items (mkWorld inp out cs fs dn)
               = (Ok tt, mkWorld inp out' cs fs dn).
Proof.
  revert i out. induction items as [|event items IH]; intros i out.
  - eexists. reflexivity.
  - cbn [printEvents]. cbv zeta. rewrite bind_run. unfold print at 1.
    cbn [stdin stdout calls files denied]. apply IH.
Qed.

(** [listEvents] by the answer of the service. *)
Lemma listEvents_run (host : Host) (srv : CalendarService) (calendarID : string)
    (inp : list string) (out : string) (cs : list Call)
    (fs : gmap string string) (dn : gset string) (e : string) (rq : list Request) :
  let call := mkEventsListCall calendarID 10 "startTime" true
                (time.Format (time_Now host) time.RFC3339) in
  let s := mkSession (mkWorld inp out cs fs dn) e rq in
  match Events_List srv call with
  | Err err =>
      listEvents host srv calendarID s
      = (Err (Wrapf "unable to retrieve events: " err),
         mkSession (mkWorld inp out cs fs dn) e (rq ++ [ReqEventsList call]))
  | Ok [] =>
      listEvents host srv calendarID s
      = (Ok tt,
         mkSession (mkWorld inp (out +:+ ("No upcoming events found." +:+ nl)) cs fs dn)
           e (rq ++ [ReqEventsList call]))
  | Ok (_ :: _) =>
      exists out',
        listEvents host srv calendarID s
        = (Ok tt, mkSession (mkWorld inp out' cs fs dn) e (rq ++ [ReqEventsList call]))
  end.
Proof.
  cbv zeta. unfold listEvents. cbv zeta.
  rewrite bindS_run. unfold request. cbn [world stderr requests].
  destruct (Events_List srv _) as [[|event items]|err]; [reflexivity | | reflexivity].
  change (Z.of_nat (length (event :: items)) =? 0) with false. cbv iota.
  assert (exists out',
            (println (nl +:+ "Upcoming events:") ;;
             printEvents 0 (event :: items) ;; println "") (mkWorld inp out cs fs dn)
            = (Ok tt, mkWorld inp out' cs fs dn)) as [out' E].
  { rewrite bind_run. unfold println at 1, print at 1.
    cbn [stdin stdout calls files denied]. rewrite bind_run.
    match goal with
    | |- context [printEvents ?i ?l (mkWorld ?a ?o ?c ?f ?d)] =>
        destruct (printEvents_run l i a o c f d) as [out' P]
    end.
    rewrite P. unfold println at 1, print at 1. cbn [stdin stdout calls files denied].
    eexists. reflexivity. }
  exists out'. rewrite inWorld_run, E. reflexivity.
Qed.

(** X20.  No events is not an error.  When the service answers the
    listing with no event, [listEvents] prints exactly the line "No
    upcoming events found." and returns without error; nothing else of
    the session changes but the record of the listing. *)
Theorem listEvents_nothing_upcoming (host : Host) (srv : CalendarService) (calendarID : string)
    (inp : list string) (out : string) (cs : list Call)
    (fs : gmap string string) (dn : gset string) (e : string) (rq : list Request) :
  let call := mkEventsListCall calendarID 10 "startTime" true
                (time.Format (time_Now host) time.RFC3339) in
  Events_List srv call = Ok [] ->
  listEvents host srv calendarID (mkSession (mkWorld inp out cs fs dn) e rq)
  = (Ok tt,
     mkSession (mkWorld inp (out +:+ ("No upcoming events found." +:+ nl)) cs fs dn)
       e (rq ++ [ReqEventsList call])).
Proof.
  cbv zeta. intros L.
  pose proof (listEvents_run host srv calendarID inp out cs fs dn e rq) as R.
  cbv zeta in R. rewrite L in R. exact R.
Qed.

Lemma listEvents_nothing_upcoming_witness :
  listEvents sampleHost (sampleCalendarService (Ok [])) "id_work"
    (mkSession (mkWorld [] "" [] ∅ ∅) "" [])
  = (Ok tt,
     mkSession (mkWorld [] ("" +:+ ("No upcoming events found." +:+ nl)) [] ∅ ∅)
       "" ([] ++ [ReqEventsList
                    (mkEventsListCall "id_work" 10 "startTime" true
                       (time.Format (time_Now sampleHost) time.RFC3339))])).
Proof.
  apply (listEvents_nothing_upcoming sampleHost (sampleCalendarService (Ok [])) "id_work"
           [] "" [] ∅ ∅ "" []).
  reflexivity.
Defined.

(** X21.  List asks one question and only prints.  Whatever the session
    and the service, [listEvents] reads no input, sends none of the
    event requests and touches no file; it records exactly one listing,
    for the chosen calendar, of at most 10 single events ordered by
    start time.  It returns without error only if the service answered,
    and a failure of the service comes back behind the words "unable to
    retrieve events: " with nothing printed. *)
Theorem listEvents_only_lists (host : Host) (srv : CalendarService) (calendarID : string)
    (s : Session) :
  let r := fst (listEvents host srv calendarID s) in
  let s' := snd (listEvents host srv calendarID s) in
  stdin (world s') = stdin (world s) /\ calls (world s') = calls (world s)
  /\ files (world s') = files (world s) /\ denied (world s') = denied (world s)
  /\ exists call,
       requests s' = (requests s ++ [ReqEventsList call])%list
       /\ list_calendarID call = calendarID /\ list_MaxResults call = 10
       /\ list_OrderBy call = "startTime" /\ list_SingleEvents call = true
       /\ (isOk r = true -> isOk (Events_List srv call) = true)
       /\ (forall err, Events_List srv call = Err err ->
             r = Err (Wrapf "unable to retrieve events: " err)
             /\ stdout (world s') = stdout (world s)).
Proof.
  cbv zeta. destruct s as [[inp out cs fs dn] e rq].
  pose proof (listEvents_run host srv calendarID inp out cs fs dn e rq) as R.
  cbv zeta in R.
  destruct (Events_List srv _) as [[|event items]|err] eqn:L.
  - rewrite R. cbn [fst snd world stderr requests stdin stdout calls files denied].
    do 4 (split; [reflexivity|]). eexists. split; [reflexivity|].
    cbn [list_calendarID list_MaxResults list_OrderBy list_SingleEvents].
    rewrite L. do 4 (split; [reflexivity|]). split; [reflexivity | discriminate].
  - destruct R as [out' ->].
    cbn [fst snd world stderr requests stdin stdout calls files denied].
    do 4 (split; [reflexivity|]). eexists. split; [reflexivity|].
    cbn [list_calendarID list_MaxResults list_OrderBy list_SingleEvents].
    rewrite L. do 4 (split; [reflexivity|]). split; [reflexivity | discriminate].
  - rewrite R. cbn [fst snd world stderr requests stdin stdout calls files denied].
    do 4 (split; [reflexivity|]). eexists. split; [reflexivity|].
    cbn [list_calendarID list_MaxResults list_OrderBy list_SingleEvents].
    rewrite L. do 4 (split; [reflexivity|]). split; [discriminate|].
    intros err' E. injection E as <-. split; reflexivity.
Qed.

Lemma listEvents_only_lists_witness :
  fst (listEvents sampleHost (sampleCalendarService (Err notFound)) "id_work"
         (session (terminal [])))
  = Err (Wrapf "unable to retrieve events: " notFound).
Proof.
  destruct (listEvents_only_lists sampleHost (sampleCalendarService (Err notFound))
              "id_work" (session (terminal [])))
    as (_ & _ & _ & _ & call & _ & _ & _ & _ & _ & _ & F).
  apply (F notFound). reflexivity.
Defined.

(* ===================================================================== *)
(** * The calendar, the other way round: [dayNumber] inverts [absDate] *)
(* ===================================================================== *)

Lemma checkNextYear_cycle : allBelow 400 (fun y => checkNextYear (y + 1)) = true.
Proof. vm_compute. reflexivity. Qed.

Lemma yearLength_period (y k : Z) : yearLength (y + 400 * k) = yearLength y.
Proof. unfold yearLength. rewrite isLeap_period. reflexivity. Qed.

Lemma yearLength_pos (y : Z) : 365 <= yearLength y <= 366.
Proof. unfold yearLength. destruct (time.isLeap y); lia. Qed.

(** Year follows year without a gap. *)
Lemma daysSinceEpoch_succ (y : Z) :
  time.daysSinceEpoch (y + 1) = time.daysSinceEpoch y + yearLength y.
Proof.
  set (k := (y - 1) / 400).
  set (y0 := y - 400 * k).
  assert (1 <= y0 <= 400) as Hy0 by (subst y0 k; Z.div_mod_to_equations; lia).
  assert (y = y0 + 400 * k) as Ey by (subst y0; lia).
  clearbody y0 k. subst y.
  replace (y0 + 400 * k + 1) with (y0 + 1 + 400 * k) by lia.
  rewrite !daysSinceEpoch_period, yearLength_period.
  pose proof (allBelow_spec _ _ checkNextYear_cycle (y0 - 1) ltac:(lia)) as C.
  cbv beta in C. replace (y0 - 1 + 1) with y0 in C by lia.
  unfold checkNextYear in C. lia.
Qed.

(** Later years start later. *)
Lemma daysSinceEpoch_mono (y y' : Z) :
  y < y' -> time.daysSinceEpoch y + yearLength y <= time.daysSinceEpoch y'.
Proof.
  intros H.
  assert (forall k : nat,
            time.daysSinceEpoch y + yearLength y
            <= time.daysSinceEpoch (y + 1 + Z.of_nat k)) as M.
  { induction k as [|k IH].
    - replace (y + 1 + Z.of_nat 0) with (y + 1) by lia.
      rewrite daysSinceEpoch_succ. lia.
    - replace (y + 1 + Z.of_nat (S k)) with (y + 1 + Z.of_nat k + 1) by lia.
      rewrite daysSinceEpoch_succ.
      pose proof (yearLength_pos (y + 1 + Z.of_nat k)). lia. }
  specialize (M (Z.to_nat (y' - y - 1))).
  replace (y + 1 + Z.of_nat (Z.to_nat (y' - y - 1))) with y' in M by lia.
  exact M.
Qed.

(** Every day from the start of year 1 on lies in some year. *)
Lemma year_of_day (k : nat) (r : Z) :
  time.daysSinceEpoch 1 <= r < time.daysSinceEpoch (1 + Z.of_nat k) ->
  exists y, 1 <= y <= Z.of_nat k
            /\ time.daysSinceEpoch y <= r < time.daysSinceEpoch y + yearLength y.
Proof.
  induction k as [|k IH]; intros H.
  - replace (1 + Z.of_nat 0) with 1 in H by lia. lia.
  - destruct (Z.lt_ge_cases r (time.daysSinceEpoch (1 + Z.of_nat k))) as [L|L].
    + destruct (IH ltac:(lia)) as (y & Hy & B). exists y. split; [lia | exact B].
    + exists (1 + Z.of_nat k). split; [lia|].
      rewrite <- daysSinceEpoch_succ.
      replace (1 + Z.of_nat k + 1) with (1 + Z.of_nat (S k)) by lia. lia.
Qed.

(** [absYear] names the year in which a day lies and its place in it. *)
Lemma absYear_inverse (n : Z) :
  0 <= snd (time.absYear n) < yearLength (fst (time.absYear n))
  /\ time.daysSinceEpoch (fst (time.absYear n)) + snd (time.absYear n) = n.
Proof.
  set (q := n / 146097). set (r := n - 146097 * q).
  assert (0 <= r < 146097) as Hr by (subst r q; Z.div_mod_to_equations; lia).
  assert (n = r + time.daysPer400Years * q) as En
    by (subst r; change time.daysPer400Years with 146097; lia).
  clearbody r q. subst n.
  destruct (year_of_day 400 r) as (y & Hy & B).
  { change (time.daysSinceEpoch 1) with 0.
    change (time.daysSinceEpoch (1 + Z.of_nat 400)) with 146097. exact Hr. }
  pose proof (absYear_daysSinceEpoch y (r - time.daysSinceEpoch y) ltac:(lia)) as E.
  replace (time.daysSinceEpoch y + (r - time.daysSinceEpoch y)) with r in E by lia.
  rewrite absYear_period, E. cbn [fst snd].
  rewrite yearLength_period, daysSinceEpoch_period. lia.
Qed.

Lemma checkYearDay_leap : allBelow 366 (checkYearDay true) = true.
Proof. vm_compute. reflexivity. Qed.

Lemma checkYearDay_common : allBelow 365 (checkYearDay false) = true.
Proof. vm_compute. reflexivity. Qed.

(** [monthDay] names a date that exists and falls on the given day of
    the year. *)
Lemma monthDay_inverse (leap : bool) (yd : Z) :
  0 <= yd < (if leap then 366 else 365) ->
  let '(m, d) := time.monthDay leap yd in
  1 <= m <= 12 /\ 1 <= d <= daysInMonth leap m /\ yearDay leap m d = yd.
Proof.
  intros H.
  assert (checkYearDay leap yd = true) as C.
  { destruct leap.
    - apply (allBelow_spec _ _ checkYearDay_leap yd). lia.
    - apply (allBelow_spec _ _ checkYearDay_common yd). lia. }
  unfold checkYearDay in C.
  destruct (time.monthDay leap yd) as [m d].
  repeat (apply andb_true_iff in C as [C ?]). lia.
Qed.

(** The date [absDate] gives exists, and it falls on the given day. *)
Lemma absDate_inverse (n : Z) :
  exists y m d,
    time.absDate n = (y, m, d) /\ validDate y m d /\ time.dayNumber y m d = n.
Proof.
  destruct (absYear_inverse n) as [R E].
  unfold time.absDate.
  destruct (time.absYear n) as [y yd]. cbn [fst snd] in R, E.
  pose proof (monthDay_inverse (time.isLeap y) yd) as I.
  unfold yearLength in R.
  specialize (I ltac:(destruct (time.isLeap y); lia)).
  destruct (time.monthDay (time.isLeap y) yd) as [m d].
  destruct I as (Hm & Hd & Y).
  exists y, m, d. split; [reflexivity|]. split.
  - split; [exact Hm | exact Hd].
  - unfold time.dayNumber. unfold yearDay in Y. lia.
Qed.

(** The civil reading of any instant: a date that exists, a clock within
    its ranges, and together they name the instant's own second. *)
Lemma civil_inverse (t : time.Time) :
  exists y m d h mi s,
    time.civil t = time.mkCivil y m d h mi s
    /\ validDate y m d /\ 0 <= h < 24 /\ 0 <= mi < 60 /\ 0 <= s < 60
    /\ time.sec (time.Date y m d h mi s 0) = time.sec t + time.offset t.
Proof.
  unfold time.civil. cbv zeta. unfold time.secondsPerDay.
  set (abs := time.sec t + time.offset t).
  destruct (absDate_inverse (abs / 86400)) as (y & m & d & -> & V & N).
  eexists y, m, d, _, _, _. split; [reflexivity|].
  split; [exact V|].
  unfold time.Date, time.secondsPerDay. cbn [time.sec]. rewrite N.
  repeat split; Z.div_mod_to_equations; lia.
Qed.

(* ===================================================================== *)
(** * Wire texts with a zone *)
(* ===================================================================== *)

(** What [Format] prints under the wire layout, for any instant. *)
Lemma Format_wireTextAt (t : time.Time) (y m d h mi s : Z) :
  time.civil t = time.mkCivil y m d h mi s ->
  time.Format t time.RFC3339 = wireTextAt y m d h mi s (zoneText (time.offset t)).
Proof.
  intros C. unfold time.Format. rewrite chunks_RFC3339.
  unfold RFC3339_chunks, time.formatChunks, time.formatChunk. rewrite C.
  cbn [time.year time.month time.day time.hour time.minute time.second].
  rewrite string_append_empty. reflexivity.
Qed.

(** Reading back a wire text with an offset. *)
Lemma Parse_wireTextAt (y m d h mi s offset : Z) :
  0 <= y <= 9999 -> validDate y m d -> 0 <= h < 24 -> 0 <= mi < 60 -> 0 <= s < 60 ->
  offset <> 0 -> offset mod 60 = 0 -> -86400 < offset < 86400 ->
  time.Parse time.RFC3339 (wireTextAt y m d h mi s (zoneText offset))
  = Ok (time.mkTime (time.sec (time.Date y m d h mi s 0) - offset) 0 offset).
Proof.
  intros Hy V Hh Hmi Hs Hz Hmod Hoff.
  pose proof V as [Vm Vd]. pose proof (daysIn_le_31 m y Vm) as H31.
  unfold wireTextAt, zoneText.
  replace (offset =? 0) with false by lia.
  cbv zeta.
  set (zone := Z.quot offset 60).
  assert (offset = 60 * zone) as Ez.
  { subst zone.
    assert (offset = offset / 60 * 60) as E by (Z.div_mod_to_equations; lia).
    rewrite E at 2. rewrite Z.quot_mul by lia. lia. }
  assert (0 <= Z.abs zone / 60 < 24) as Hzh by (Z.div_mod_to_equations; lia).
  assert (0 <= Z.abs zone mod 60 < 60) as Hzm by (Z.div_mod_to_equations; lia).
  rewrite appendInt_4, !appendInt_2 by lia.
  destruct (twoDigits_digits (y / 100)) as (y1 & y2 & -> & Hy1 & Hy2 & Ey);
    [Z.div_mod_to_equations; lia|].
  destruct (twoDigits_digits (y mod 100)) as (y3 & y4 & -> & Hy3 & Hy4 & Ey');
    [Z.div_mod_to_equations; lia|].
  destruct (twoDigits_digits m) as (m1 & m2 & -> & Hm1 & Hm2 & Em); [lia|].
  destruct (twoDigits_digits d) as (d1 & d2 & -> & Hd1 & Hd2 & Ed); [lia|].
  destruct (twoDigits_digits h) as (h1 & h2 & -> & Hh1 & Hh2 & Eh); [lia|].
  destruct (twoDigits_digits mi) as (n1 & n2 & -> & Hn1 & Hn2 & En); [lia|].
  destruct (twoDigits_digits s) as (s1 & s2 & -> & Hs1 & Hs2 & Es); [lia|].
  destruct (twoDigits_digits (Z.abs zone / 60)) as (a1 & a2 & -> & Ha1 & Ha2 & Ea); [lia|].
  destruct (twoDigits_digits (Z.abs zone mod 60)) as (b1 & b2 & -> & Hb1 & Hb2 & Eb); [lia|].
  unfold time.Parse. rewrite chunks_RFC3339.
  unfold RFC3339_chunks.
  unfold time.parseChunks, time.parseChunk, time.parseYear, time.parseSecond,
    time.parseZone, time.getnum, time.skip.
  destruct (zone <? 0) eqn:Sg.
  all: repeat (simpl;
          progress (rewrite ?Hy1, ?Hy2, ?Hy3, ?Hy4, ?Hm1, ?Hm2, ?Hd1, ?Hd2,
                      ?Hh1, ?Hh2, ?Hn1, ?Hn2, ?Hs1, ?Hs2, ?Ha1, ?Ha2, ?Hb1, ?Hb2,
                      ?Ey, ?Ey', ?Em, ?Eh, ?En, ?Es, ?Ea, ?Eb;
                    try replace ((m <=? 0) || (12 <? m)) with false by lia;
                    try replace ((h <? 0) || (24 <=? h)) with false by lia;
                    try replace ((mi <? 0) || (60 <=? mi)) with false by lia;
                    try replace ((s <? 0) || (60 <=? s)) with false by lia;
                    try replace (24 <? Z.abs zone / 60) with false by lia;
                    try replace (60 <? Z.abs zone mod 60) with false by lia)).
  all: simpl.
  all: rewrite Ed.
  all: replace (m =? -1) with false by lia.
  all: replace (d =? -1) with false by lia.
  all: replace (y / 100 * 100 + y mod 100) with y by (Z.div_mod_to_equations; lia).
  all: replace ((d <? 1) || (time.daysIn m y <? d)) with false by lia.
  all: unfold time.Date; cbn [time.sec time.nsec].
  all: do 2 f_equal; Z.div_mod_to_equations; lia.
Qed.

(** [Format] and [Parse] under the wire layout: the text of any instant
    of the years 0 to 9999, in a zone of whole minutes, reads back as
    that instant cut to the second, in the same zone. *)
Lemma Parse_Format_RFC3339 (t : time.Time) :
  0 <= time.year (time.civil t) <= 9999 ->
  time.offset t mod 60 = 0 -> -86400 < time.offset t < 86400 ->
  time.Parse time.RFC3339 (time.Format t time.RFC3339)
  = Ok (time.mkTime (time.sec t) 0 (time.offset t)).
Proof.
  intros Hy Hmod Hoff.
  destruct (civil_inverse t) as (y & m & d & h & mi & s & C & V & Hh & Hmi & Hs & E).
  rewrite C in Hy. cbn [time.year] in Hy.
  rewrite (Format_wireTextAt t y m d h mi s C).
  destruct (Z.eq_dec (time.offset t) 0) as [Z0|NZ].
  - rewrite Z0. change (zoneText 0) with "Z".
    change (wireTextAt y m d h mi s "Z") with (wireText y m d h mi s).
    rewrite Parse_wireText by assumption.
    unfold time.Date in *. cbn [time.sec] in E. do 2 f_equal; lia.
  - rewrite Parse_wireTextAt by assumption.
    do 2 f_equal. lia.
Qed.

(** X22.  List asks for the events from now on.  For a clock in the
    years 0 to 9999 and a local zone of whole minutes, the lower bound
    [listEvents] sends reads back, under the wire layout, as the current
    instant cut to the whole second, in the local zone; so it is not
    after the current instant. *)
Theorem listEvents_asks_from_now (host : Host) (srv : CalendarService) (calendarID : string)
    (s : Session) :
  let now := time_Now host in
  0 <= time.year (time.civil now) <= 9999 ->
  time.offset now mod 60 = 0 -> -86400 < time.offset now < 86400 ->
  0 <= time.nsec now ->
  exists call,
    requests (snd (listEvents host srv calendarID s))
    = (requests s ++ [ReqEventsList call])%list
    /\ time.Parse time.RFC3339 (list_TimeMin call)
       = Ok (time.mkTime (time.sec now) 0 (time.offset now))
    /\ time.Before now (time.valueOf (time.Parse time.RFC3339 (list_TimeMin call))) = false.
Proof.
  cbv zeta. intros Hy Hmod Hoff Hns.
  destruct s as [[inp out cs fs dn] e rq].
  pose proof (listEvents_run host srv calendarID inp out cs fs dn e rq) as R.
  cbv zeta in R.
  exists (mkEventsListCall calendarID 10 "startTime" true
            (time.Format (time_Now host) time.RFC3339)).
  cbn [list_TimeMin]. rewrite (Parse_Format_RFC3339 _ Hy Hmod Hoff).
  split; [|split; [reflexivity|]].
  - destruct (Events_List srv _) as [[|event items]|err].
    + rewrite R. reflexivity.
    + destruct R as [out' ->]. reflexivity.
    + rewrite R. reflexivity.
  - cbn [time.valueOf]. unfold time.Before. cbn [time.sec time.nsec].
    apply orb_false_iff. split; [lia|].
    apply andb_false_iff. right. lia.
Qed.

Lemma listEvents_asks_from_now_witness :
  exists call,
    requests (snd (listEvents sampleHost (sampleCalendarService (Ok [standup])) "id_work"
                     (session (terminal []))))
    = (requests (session (terminal [])) ++ [ReqEventsList call])%list
    /\ time.Parse time.RFC3339 (list_TimeMin call)
       = Ok (time.mkTime (time.sec (time_Now sampleHost)) 0 (time.offset (time_Now sampleHost)))
    /\ time.Before (time_Now sampleHost)
         (time.valueOf (time.Parse time.RFC3339 (list_TimeMin call))) = false.
Proof.
  apply (listEvents_asks_from_now sampleHost (sampleCalendarService (Ok [standup]))
           "id_work" (session (terminal []))).
  - vm_compute. split; discriminate.
  - reflexivity.
  - vm_compute. split; reflexivity.
  - vm_compute. discriminate.
Defined.

(* ===================================================================== *)
(** * The order of dates *)
(* ===================================================================== *)

Lemma checkMonthOrder_all (leap : bool) :
  allBelow 12 (fun m => allBelow 12 (fun m' => checkMonthOrder leap (m + 1) (m' + 1))) = true.
Proof. destruct leap; vm_compute; reflexivity. Qed.

(** A day of an earlier month comes earlier in the year. *)
Lemma yearDay_month_order (leap : bool) (m d m' d' : Z) :
  1 <= m -> m < m' -> m' <= 12 -> d <= daysInMonth leap m -> 1 <= d' ->
  yearDay leap m d < yearDay leap m' d'.
Proof.
  intros Hm Hlt Hm' Hd Hd'.
  pose proof (allBelow_spec _ _ (checkMonthOrder_all leap) (m - 1) ltac:(lia)) as C1.
  cbv beta in C1.
  pose proof (allBelow_spec _ _ C1 (m' - 1) ltac:(lia)) as C2. cbv beta in C2.
  replace (m - 1 + 1) with m in C2 by lia.
  replace (m' - 1 + 1) with m' in C2 by lia.
  unfold checkMonthOrder in C2.
  apply orb_true_iff in C2 as [C2 | C2]; [apply negb_true_iff in C2; lia|].
  apply Z.ltb_lt in C2. unfold yearDay in *. lia.
Qed.

(** An earlier date has the smaller day number. *)
Lemma dayNumber_lt (y m d y' m' d' : Z) :
  validDate y m d -> validDate y' m' d' ->
  y < y' \/ (y = y' /\ (m < m' \/ (m = m' /\ d < d'))) ->
  time.dayNumber y m d < time.dayNumber y' m' d'.
Proof.
  intros [Hm Hd] [Hm' Hd'] L.
  assert (forall y m d, time.dayNumber y m d
                        = time.daysSinceEpoch y + yearDay (time.isLeap y) m d) as E
    by (intros; unfold time.dayNumber, yearDay; lia).
  rewrite !E.
  destruct (monthDay_yearDay (time.isLeap y) m d Hm Hd) as [_ R].
  destruct (monthDay_yearDay (time.isLeap y') m' d' Hm' Hd') as [_ R'].
  destruct L as [L | [-> [L | [-> L]]]].
  - pose proof (daysSinceEpoch_mono y y' L) as M. unfold yearLength in M.
    destruct (time.isLeap y), (time.isLeap y'); lia.
  - pose proof (yearDay_month_order (time.isLeap y') m d m' d'
                  ltac:(lia) L ltac:(lia) ltac:(apply Hd) ltac:(lia)). lia.
  - unfold yearDay. lia.
Qed.

(** [Before] on two dates with clocks is the order of their fields. *)
Lemma Before_Date (y m d h mi y' m' d' h' mi' : Z) :
  validDate y m d -> validDate y' m' d' ->
  0 <= h < 24 -> 0 <= mi < 60 -> 0 <= h' < 24 -> 0 <= mi' < 60 ->
  time.Before (time.Date y m d h mi 0 0) (time.Date y' m' d' h' mi' 0 0)
  = civilBefore (y, m, d, h, mi) (y', m', d', h', mi').
Proof.
  intros V V' Hh Hmi Hh' Hmi'.
  unfold time.Before, time.Date, time.secondsPerDay. cbn [time.sec time.nsec].
  change (0 <? 0) with false. rewrite andb_false_r, orb_false_r.
  unfold civilBefore.
  pose proof (dayNumber_lt y m d y' m' d' V V') as L.
  pose proof (dayNumber_lt y' m' d' y m d V' V) as G.
  set (D := time.dayNumber y m d) in *. set (D' := time.dayNumber y' m' d') in *.
  assert (y = y' -> m = m' -> d = d' -> D = D') as Q by (intros; subst D D'; congruence).
  clearbody D D'.
  destruct (Z.ltb_spec y y'); cbn [orb].
  { specialize (L ltac:(lia)). lia. }
  destruct (Z.eqb_spec y y'); cbn [andb].
  2:{ specialize (G ltac:(lia)). lia. }
  destruct (Z.ltb_spec m m'); cbn [orb].
  { specialize (L ltac:(lia)). lia. }
  destruct (Z.eqb_spec m m'); cbn [andb].
  2:{ specialize (G ltac:(lia)). lia. }
  destruct (Z.ltb_spec d d'); cbn [orb].
  { specialize (L ltac:(lia)). lia. }
  destruct (Z.eqb_spec d d'); cbn [andb].
  2:{ specialize (G ltac:(lia)). lia. }
  specialize (Q ltac:(lia) ltac:(lia) ltac:(lia)). subst D'.
  destruct (Z.ltb_spec h h'); cbn [orb]; [lia|].
  destruct (Z.eqb_spec h h'); cbn [andb]; [|lia].
  destruct (Z.ltb_spec mi mi'); lia.
Qed.

(** X23.  Create compares what was typed.  With four answers read and
    both times accepted, [createEvent] refuses exactly when the date and
    clock typed for the end come before those typed for the start, year
    before month before day before hour before minute; an end equal to
    the start is sent.  On refusal nothing is sent. *)
Theorem createEvent_compares_typed_times (srv : Service)
    (calendarID titleLine descLine startLine endLine : string)
    (rest : list string) (out : string) (cs : list Call)
    (fs : gmap string string) (dn : gset string)
    (typedStart typedEnd : Z * Z * Z * Z * Z) :
  readCivil (TrimSpace startLine) = Some typedStart ->
  readCivil (TrimSpace endLine) = Some typedEnd ->
  validCivil typedStart = true ->
  validCivil typedEnd = true ->
  exists r w',
    createEvent srv calendarID
      (mkWorld (titleLine :: descLine :: startLine :: endLine :: rest) out cs fs dn)
    = (r, w')
    /\ if civilBefore typedEnd typedStart
       then r = Err ValidationError /\ calls w' = cs
       else calls w' =
              (cs ++ [CallInsert calendarID
                        (mkEvent "" (TrimSpace titleLine) (TrimSpace descLine)
                           (mkEventDateTime "" (fst (parseTime (TrimSpace startLine))) timeZone)
                           (mkEventDateTime "" (fst (parseTime (TrimSpace endLine))) timeZone)
                           "" [])])%list.
Proof.
  intros Rs Re Vs Ve.
  assert (acceptedFormat (TrimSpace startLine) = true) as As
    by (unfold acceptedFormat; rewrite Rs; exact Vs).
  assert (acceptedFormat (TrimSpace endLine) = true) as Ae
    by (unfold acceptedFormat; rewrite Re; exact Ve).
  destruct (Parse_timeFormat_accepts _ As) as [ts Ps].
  destruct (Parse_timeFormat_accepts _ Ae) as [te Pe].
  destruct (Parse_timeFormat_ok _ _ Ps) as (y & m & d & h & mi & Rs' & _ & V & Hh & Hmi & Ets).
  destruct (Parse_timeFormat_ok _ _ Pe)
    as (y' & m' & d' & h' & mi' & Re' & _ & V' & Hh' & Hmi' & Ete).
  rewrite Rs in Rs'. injection Rs' as ->.
  rewrite Re in Re'. injection Re' as ->.
  destruct (createEvent_run srv calendarID titleLine descLine startLine endLine
              rest out cs fs dn ts te Ps Pe) as (r & w' & E & C).
  exists r, w'. split; [exact E|].
  rewrite <- (Before_Date y' m' d' h' mi' y m d h mi V' V Hh' Hmi' Hh Hmi).
  rewrite <- Ets, <- Ete. exact C.
Qed.

Lemma createEvent_compares_typed_times_witness :
  exists r w',
    createEvent sampleService "id_work"
      (mkWorld ["Review"; ""; "2024-03-15 09:30"; "2024-03-14 23:59"] "" [] ∅ ∅)
    = (r, w')
    /\ if civilBefore (2024, 3, 14, 23, 59) (2024, 3, 15, 9, 30)
       then r = Err ValidationError /\ calls w' = []
       else calls w' =
              ([] ++ [CallInsert "id_work"
                        (mkEvent "" (TrimSpace "Review") (TrimSpace "")
                           (mkEventDateTime "" (fst (parseTime (TrimSpace "2024-03-15 09:30")))
                              timeZone)
                           (mkEventDateTime "" (fst (parseTime (TrimSpace "2024-03-14 23:59")))
                              timeZone)
                           "" [])])%list.
Proof.
  apply (createEvent_compares_typed_times sampleService "id_work"
           "Review" "" "2024-03-15 09:30" "2024-03-14 23:59" [] "" [] ∅ ∅
           (2024, 3, 15, 9, 30) (2024, 3, 14, 23, 59));
    vm_compute; reflexivity.
Defined.

(* ===================================================================== *)
(** * The session driver *)
(* ===================================================================== *)

Lemma orFatal_ok {A} (m : MS A) (msg : error -> string) (rest : A -> Session -> Exit)
    (s s' : Session) (a : A) :
  m s = (Ok a, s') -> orFatal m msg rest s = rest a s'.
Proof. intros E. unfold orFatal. rewrite E. reflexivity. Qed.

Lemma orFatal_err {A} (m : MS A) (msg : error -> string) (rest : A -> Session -> Exit)
    (s s' : Session) (err : error) :
  m s = (Err err, s') -> orFatal m msg rest s = log_Fatalf (msg err) s'.
Proof. intros E. unfold orFatal. rewrite E. reflexivity. Qed.

Lemma inWorld_eq {A} (m : M A) (w w' : World) (r : Result A) (e : string) (rq : list Request) :
  m w = (r, w') -> inWorld m (mkSession w e rq) = (r, mkSession w' e rq).
Proof. intros E. rewrite inWorld_run, E. reflexivity. Qed.

(** [selectCalendar] with calendars to choose from and the answer read. *)
Lemma selectCalendar_world (srv : Service) (first : CalendarListEntry)
    (others : list CalendarListEntry) (line : string)
    (rest : list string) (out : string) (cs : list Call)
    (fs : gmap string string) (dn : gset string) :
  CalendarList_List srv = Ok (first :: others) ->
  exists out',
    selectCalendar srv (mkWorld (line :: rest) out cs fs dn)
    = (Ok (if isOk (fmt.scanInt (TrimSpace line)) then cal_Id first else TrimSpace line),
       mkWorld rest out' (cs ++ [CallCalendarList]) fs dn).
Proof.
  intros L. unfold selectCalendar.
  rewrite bind_run.
  destruct (listCalendars_run srv _ (line :: rest) out cs fs dn L) as [out' E].
  rewrite E.
  change (Z.of_nat (length (first :: others)) =? 0) with false. cbv iota.
  rewrite bind_run, promptForInput_line.
  exists (out' +:+ "Enter calendar number or ID: ").
  unfold fmt.Sscanf_d.
  destruct (fmt.scanInt (TrimSpace line)) as [v|e]; cbn [isOk isNil andb].
  - change (0 <? 1) with true. cbv iota.
    replace (1 <=? Z.of_nat (length (first :: others))) with true
      by (symmetry; apply Z.leb_le;
          change (length (first :: others)) with (S (length others)); lia).
    cbn [andb]. change (Z.to_nat (1 - 1)) with 0%nat. cbn [nth_error].
    reflexivity.
  - reflexivity.
Qed.

(** A message that ends in a line feed is some text and a line feed. *)
Lemma endsWithNl_split (s : string) :
  endsWithNl s = true -> exists s', s = s' +:+ nl.
Proof.
  induction s as [|c r IH]; [discriminate|].
  destruct r as [|c' r'].
  - cbn [endsWithNl]. intros E. exists "".
    change ("" +:+ nl) with nl. unfold nl. f_equal.
    apply Z.eqb_eq in E. apply byte_inj. rewrite E. reflexivity.
  - change (endsWithNl (String c (String c' r'))) with (endsWithNl (String c' r')).
    intros E. destruct (IH E) as [s' ->]. exists (String c s'). reflexivity.
Qed.

(** The line [log.Fatalf] writes ends in exactly one more line feed. *)
Lemma log_Fatalf_line (msg : string) :
  exists text, msg +:+ (if endsWithNl msg then "" else nl) = text +:+ nl.
Proof.
  destruct (endsWithNl msg) eqn:E.
  - destruct (endsWithNl_split msg E) as [s' ->]. exists s'.
    apply string_append_empty.
  - exists msg. reflexivity.
Qed.

(** A trimmed text does not end in a line feed, whatever stands before
    it. *)
Lemma endsWithNl_cons (c : ascii) (s : string) :
  s <> "" -> endsWithNl (String c s) = endsWithNl s.
Proof. destruct s; [congruence | reflexivity]. Qed.

Lemma endsWithNl_last (l : list ascii) (c : ascii) :
  endsWithNl (string_of_list_ascii (l ++ [c])) = (byte c =? 10).
Proof.
  induction l as [|a l IH]; [reflexivity|].
  cbn [app string_of_list_ascii]. rewrite endsWithNl_cons; [exact IH|].
  destruct l; discriminate.
Qed.

Lemma TrimRightSpace_end (s : string) : endsWithNl (TrimRightSpace s) = false.
Proof.
  unfold TrimRightSpace.
  pose proof (cutSpaceRev_trimSpaceRev (rev (list_ascii_of_string s))) as F.
  destruct (trimSpaceRev (rev (list_ascii_of_string s))) as [|c l]; [reflexivity|].
  cbn [rev]. rewrite endsWithNl_last.
  cbn [cutSpaceRev] in F. destruct (isSpace c) eqn:Sp; [discriminate F|].
  unfold isSpace in Sp. cbv zeta in Sp.
  apply Z.eqb_neq. intros B. rewrite B in Sp. discriminate Sp.
Qed.

Lemma endsWithNl_append (p s : string) :
  s <> "" -> endsWithNl (p +:+ s) = endsWithNl s.
Proof.
  intros N. induction p as [|c p IH]; [reflexivity|].
  change (String c p +:+ s) with (String c (p +:+ s)).
  rewrite endsWithNl_cons; [exact IH|].
  destruct p; [exact N | discriminate].
Qed.

Lemma endsWithNl_trimmed (p l : string) :
  endsWithNl p = false -> endsWithNl (p +:+ TrimSpace l) = false.
Proof.
  intros P. destruct (TrimSpace l) as [|c r] eqn:E.
  - rewrite string_append_empty. exact P.
  - rewrite endsWithNl_append by discriminate. rewrite <- E.
    unfold TrimSpace. apply TrimRightSpace_end.
Qed.

(** On a machine that is signed in, [main] goes straight to the
    selection of the calendar. *)
Lemma main_signedIn
    (json_Marshal : Token -> Result string) (json_Decode : string -> Result Token)
    (google_ConfigFromJSON : string -> Result Config)
    (calendar_NewService : Client -> Result CalendarService)
    (host : Host) (w : World) (srv : CalendarService) (e : string) (rq : list Request) :
  signedIn json_Decode google_ConfigFromJSON calendar_NewService host w srv ->
  main json_Marshal json_Decode google_ConfigFromJSON calendar_NewService host
    (mkSession w e rq)
  = serve host srv (mkSession w e rq).
Proof.
  intros (b & config & home & contents & tok & Dc & Fc & Cf & U & Dt & Ft & Dj & Ns).
  unfold main.
  rewrite (orFatal_ok _ _ _ _ (mkSession w e rq) b).
  2:{ apply inWorld_eq. unfold os_Open.
      destruct (decide (credentialsFile ∈ denied w)); [contradiction|].
      rewrite Fc. reflexivity. }
  rewrite (orFatal_ok _ _ _ _ (mkSession w e rq) config) by (rewrite Cf; reflexivity).
  rewrite (orFatal_ok _ _ _ _ (mkSession w e rq) (mkClient tok)).
  2:{ apply (getClient_cached json_Marshal json_Decode host config
               home contents tok (mkSession w e rq) U Dt Ft Dj). }
  rewrite (orFatal_ok _ _ _ _ (mkSession w e rq) srv) by (rewrite Ns; reflexivity).
  reflexivity.
Qed.

(** X24.  Without its configuration the program stops before the first
    prompt.  When the credentials file is missing, or when it is there
    but does not parse, [main] ends with status 1 and one line on
    standard error that names the cause; nothing is printed, read,
    requested or written. *)
Theorem main_needs_configuration
    (json_Marshal : Token -> Result string) (json_Decode : string -> Result Token)
    (google_ConfigFromJSON : string -> Result Config)
    (calendar_NewService : Client -> Result CalendarService)
    (host : Host) (w : World) (e : string) (rq : list Request) :
  credentialsFile ∉ denied w ->
  (files w !! credentialsFile = None ->
   main json_Marshal json_Decode google_ConfigFromJSON calendar_NewService host
     (mkSession w e rq)
   = (1, mkSession w
           (e +:+ "Calendar CLI: Unable to read credentials file (credentials.json): "
              +:+ "open credentials.json: no such file or directory" +:+ nl) rq))
  /\ (forall b err,
        files w !! credentialsFile = Some b ->
        google_ConfigFromJSON b = Err err ->
        exists text,
          main json_Marshal json_Decode google_ConfigFromJSON calendar_NewService host
            (mkSession w e rq)
          = (1, mkSession w (e +:+ "Calendar CLI: " +:+ text +:+ nl) rq)
          /\ "Unable to parse client secret file to config: " +:+ Error err
               +:+ (if endsWithNl ("Unable to parse client secret file to config: "
                                   +:+ Error err) then "" else nl)
             = text +:+ nl).
Proof.
  intros Dc. split.
  - intros Fc. unfold main.
    rewrite (orFatal_err _ _ _ _ (mkSession w e rq)
               (PathError "open" credentialsFile "no such file or directory")).
    2:{ apply inWorld_eq. unfold os_Open.
        destruct (decide (credentialsFile ∈ denied w)); [contradiction|].
        rewrite Fc. reflexivity. }
    reflexivity.
  - intros b err Fc Cf.
    destruct (log_Fatalf_line ("Unable to parse client secret file to config: "
                               +:+ Error err)) as [text T].
    exists text. split; [|exact T].
    unfold main.
    rewrite (orFatal_ok _ _ _ _ (mkSession w e rq) b).
    2:{ apply inWorld_eq. unfold os_Open.
        destruct (decide (credentialsFile ∈ denied w)); [contradiction|].
        rewrite Fc. reflexivity. }
    rewrite (orFatal_err _ _ _ _ (mkSession w e rq) err) by (rewrite Cf; reflexivity).
    unfold log_Fatalf, logRecord. cbn [world stderr requests]. rewrite T. reflexivity.
Qed.

Lemma main_needs_configuration_witness :
  main sampleMarshal sampleDecode (fun _ => Ok sampleConfig)
    (fun _ => Ok (sampleCalendarService (Ok []))) sampleHost
    (mkSession (terminal ["1"; "1"]) "" [])
  = (1, mkSession (terminal ["1"; "1"])
          ("" +:+ "Calendar CLI: Unable to read credentials file (credentials.json): "
              +:+ "open credentials.json: no such file or directory" +:+ nl) []).
Proof.
  apply (proj1 (main_needs_configuration sampleMarshal sampleDecode (fun _ => Ok sampleConfig)
                  (fun _ => Ok (sampleCalendarService (Ok []))) sampleHost
                  (terminal ["1"; "1"]) "" [] ltac:(apply not_elem_of_empty))).
  apply lookup_empty.
Defined.

(** X25.  A choice that is not on the menu is fatal.  On a machine that
    is signed in, with a calendar selected and a choice other than "1"
    to "5" typed, [main] ends with status 1 and the line "Calendar CLI:
    Invalid operation: " followed by the choice on standard error; the
    listing of the calendars is the only request that was sent. *)
Theorem main_refuses_unknown_choice
    (json_Marshal : Token -> Result string) (json_Decode : string -> Result Token)
    (google_ConfigFromJSON : string -> Result Config)
    (calendar_NewService : Client -> Result CalendarService)
    (host : Host) (srv : CalendarService)
    (first : CalendarListEntry) (others : list CalendarListEntry)
    (selLine choiceLine : string) (rest : list string) (out : string) (cs : list Call)
    (fs : gmap string string) (dn : gset string) (e : string) (rq : list Request) :
  let w := mkWorld (selLine :: choiceLine :: rest) out cs fs dn in
  let choice := TrimSpace choiceLine in
  signedIn json_Decode google_ConfigFromJSON calendar_NewService host w srv ->
  CalendarList_List (service srv) = Ok (first :: others) ->
  choice <> "1" -> choice <> "2" -> choice <> "3" -> choice <> "4" -> choice <> "5" ->
  exists out',
    main json_Marshal json_Decode google_ConfigFromJSON calendar_NewService host
      (mkSession w e rq)
    = (1, mkSession (mkWorld rest out' (cs ++ [CallCalendarList]) fs dn)
            (e +:+ "Calendar CLI: Invalid operation: " +:+ choice +:+ nl) rq).
Proof.
  cbv zeta. intros Si L N1 N2 N3 N4 N5.
  rewrite (main_signedIn _ _ _ _ _ _ _ _ _ Si).
  destruct (selectCalendar_world (service srv) first others selLine (choiceLine :: rest)
              out cs fs dn L) as [out1 Sel].
  unfold serve.
  rewrite (orFatal_ok _ _ _ _ _ _ (inWorld_eq _ _ _ _ e rq Sel)).
  rewrite (orFatal_ok _ _ _ _
             (mkSession (mkWorld rest ((out1 +:+ menu) +:+ (nl +:+ "Enter choice (1-5): "))
                           (cs ++ [CallCalendarList]) fs dn) e rq)
             (TrimSpace choiceLine)).
  2:{ apply inWorld_eq. rewrite bind_run. unfold print at 1.
      cbn [stdin stdout calls files denied]. apply promptForInput_line. }
  unfold dispatch.
  apply String.eqb_neq in N1, N2, N3, N4, N5. rewrite N1, N2, N3, N4, N5.
  unfold log_Fatalf, logRecord. cbn [world stderr requests].
  rewrite (endsWithNl_trimmed "Invalid operation: " choiceLine eq_refl).
  eexists. reflexivity.
Qed.

Lemma main_refuses_unknown_choice_witness :
  exists out',
    main sampleMarshal sampleDecode (fun _ => Ok sampleConfig)
      (fun _ => Ok (sampleCalendarService (Ok []))) sampleHost
      (mkSession
         (mkWorld ["2"; "6"] "" []
            {[ "credentials.json" := "{}";
               "/home/op/token.json" :=
                 dq +:+ "ya29.a0Af" +:+ dq +:+ "," +:+ dq +:+ "Bearer" +:+ dq +:+ ","
                 +:+ dq +:+ "1//0gRefresh" +:+ dq +:+ nl ]} ∅) "" [])
    = (1, mkSession
            (mkWorld [] out' ([] ++ [CallCalendarList])
               {[ "credentials.json" := "{}";
                  "/home/op/token.json" :=
                    dq +:+ "ya29.a0Af" +:+ dq +:+ "," +:+ dq +:+ "Bearer" +:+ dq +:+ ","
                    +:+ dq +:+ "1//0gRefresh" +:+ dq +:+ nl ]} ∅)
            ("" +:+ "Calendar CLI: Invalid operation: " +:+ TrimSpace "6" +:+ nl) []).
Proof.
  apply (main_refuses_unknown_choice sampleMarshal sampleDecode (fun _ => Ok sampleConfig)
           (fun _ => Ok (sampleCalendarService (Ok []))) sampleHost
           (sampleCalendarService (Ok []))
           (mkCalendar "id_work" "Work")
           [mkCalendar "id_home" "Home"; mkCalendar "id_club" "Club"]
           "2" "6" [] "" []).
  - exists "{}", sampleConfig, "/home/op",
      (dq +:+ "ya29.a0Af" +:+ dq +:+ "," +:+ dq +:+ "Bearer" +:+ dq +:+ ","
       +:+ dq +:+ "1//0gRefresh" +:+ dq +:+ nl), sampleToken.
    repeat split; try apply not_elem_of_empty; vm_compute; reflexivity.
  - reflexivity.
  - discriminate.
  - discriminate.
  - discriminate.
  - discriminate.
  - discriminate.
Defined.















(** X27.  A calendar without upcoming events, from start to end.  On a
    machine that is signed in, with a calendar selected, the choice "1"
    typed and no event in the answer of the service, [main] ends with
    status 0; the last line printed is "No upcoming events found.",
    standard error is untouched, and the requests sent are the listing
    of the calendars and one listing of events. *)
Theorem main_lists_nothing_upcoming
    (json_Marshal : Token -> Result string) (json_Decode : string -> Result Token)
    (google_ConfigFromJSON : string -> Result Config)
    (calendar_NewService : Client -> Result CalendarService)
    (host : Host) (srv : CalendarService)
    (first : CalendarListEntry) (others : list CalendarListEntry)
    (selLine choiceLine : string) (rest : list string) (out : string) (cs : list Call)
    (fs : gmap string string) (dn : gset string) (e : string) (rq : list Request) :
  let w := mkWorld (selLine :: choiceLine :: rest) out cs fs dn in
  signedIn json_Decode google_ConfigFromJSON calendar_NewService host w srv ->
  CalendarList_List (service srv) = Ok (first :: others) ->
  TrimSpace choiceLine = "1" ->
  (forall call, Events_List srv call = Ok []) ->
  exists out' call,
    main json_Marshal json_Decode google_ConfigFromJSON calendar_NewService host
      (mkSession w e rq)
    = (0, mkSession
            (mkWorld rest (out' +:+ ("No upcoming events found." +:+ nl))
               (cs ++ [CallCalendarList]) fs dn)
            e (rq ++ [ReqEventsList call])).
Proof.
  cbv zeta. intros Si L C1 Ev.
  rewrite (main_signedIn _ _ _ _ _ _ _ _ _ Si).
  destruct (selectCalendar_world (service srv) first others selLine (choiceLine :: rest)
              out cs fs dn L) as [out1 Sel].
  unfold serve.
  rewrite (orFatal_ok _ _ _ _ _ _ (inWorld_eq _ _ _ _ e rq Sel)).
  rewrite (orFatal_ok _ _ _ _
             (mkSession (mkWorld rest ((out1 +:+ menu) +:+ (nl +:+ "Enter choice (1-5): "))
                           (cs ++ [CallCalendarList]) fs dn) e rq)
             (TrimSpace choiceLine)).
  2:{ apply inWorld_eq. rewrite bind_run. unfold print at 1.
      cbn [stdin stdout calls files denied]. apply promptForInput_line. }
  rewrite C1. unfold dispatch. cbn [String.eqb Ascii.eqb Bool.eqb].
  eexists _, _.
  match goal with
  | |- orFatal (listEvents ?h ?sv ?c) _ _ (mkSession (mkWorld ?i ?o ?k ?f ?d) ?er ?q) = _ =>
      pose proof (listEvents_run h sv c i o k f d er q) as R
  end.
  cbv zeta in R. rewrite Ev in R.
  rewrite (orFatal_ok _ _ _ _ _ tt R).
  reflexivity.
Qed.

Lemma main_lists_nothing_upcoming_witness :
  exists out' call,
    main sampleMarshal sampleDecode (fun _ => Ok sampleConfig)
      (fun _ => Ok (sampleCalendarService (Ok []))) sampleHost
      (mkSession
         (mkWorld ["id_home"; "1"] "" []
            {[ "credentials.json" := "{}";
               "/home/op/token.json" :=
                 dq +:+ "ya29.a0Af" +:+ dq +:+ "," +:+ dq +:+ "Bearer" +:+ dq +:+ ","
                 +:+ dq +:+ "1//0gRefresh" +:+ dq +:+ nl ]} ∅) "" [])
    = (0, mkSession
            (mkWorld [] (out' +:+ ("No upcoming events found." +:+ nl))
               ([] ++ [CallCalendarList])
               {[ "credentials.json" := "{}";
                  "/home/op/token.json" :=
                    dq +:+ "ya29.a0Af" +:+ dq +:+ "," +:+ dq +:+ "Bearer" +:+ dq +:+ ","
                    +:+ dq +:+ "1//0gRefresh" +:+ dq +:+ nl ]} ∅)
            "" ([] ++ [ReqEventsList call])).
Proof.
  apply (main_lists_nothing_upcoming sampleMarshal sampleDecode (fun _ => Ok sampleConfig)
           (fun _ => Ok (sampleCalendarService (Ok []))) sampleHost
           (sampleCalendarService (Ok []))
           (mkCalendar "id_work" "Work")
           [mkCalendar "id_home" "Home"; mkCalendar "id_club" "Club"]
           "id_home" "1" [] "" []).
  - exists "{}", sampleConfig, "/home/op",
      (dq +:+ "ya29.a0Af" +:+ dq +:+ "," +:+ dq +:+ "Bearer" +:+ dq +:+ ","
       +:+ dq +:+ "1//0gRefresh" +:+ dq +:+ nl), sampleToken.
    repeat split; try apply not_elem_of_empty; vm_compute; reflexivity.
  - reflexivity.
  - reflexivity.
  - reflexivity.
Defined.

(* ===================================================================== *)
(** * The path of the token file *)
(* ===================================================================== *)

Lemma split_plain (e s piece : string) :
  forallb (fun c => negb (Ascii.eqb c "/")) (list_ascii_of_string e) = true ->
  filepath.split (e +:+ s) piece = filepath.split s (piece +:+ e).
Proof.
  revert piece. induction e as [|c e IH]; intros piece H.
  - rewrite string_append_empty. reflexivity.
  - cbn [list_ascii_of_string forallb] in H. apply andb_true_iff in H as [Hc He].
    apply negb_true_iff in Hc.
    change (String c e +:+ s) with (String c (e +:+ s)).
    cbn [filepath.split]. rewrite Hc. rewrite IH by exact He.
    rewrite string_append_assoc. reflexivity.
Qed.

Lemma plainElem_noSlash (e : string) :
  plainElem e = true ->
  forallb (fun c => negb (Ascii.eqb c "/")) (list_ascii_of_string e) = true.
Proof. unfold plainElem. intros H. apply andb_true_iff in H as [_ H]. exact H. Qed.

(** The elements of a joined path with one more element behind it. *)
Lemma split_join (elems : list string) (last : string) :
  elems <> [] -> forallb plainElem elems = true ->
  filepath.split (filepath.join elems +:+ String "/" last) ""
  = (elems ++ filepath.split last "")%list.
Proof.
  induction elems as [|e [|e2 r] IH]; intros N P.
  - congruence.
  - cbn [forallb] in P. apply andb_true_iff in P as [Pe _].
    cbn [filepath.join]. rewrite split_plain by (apply plainElem_noSlash; exact Pe).
    reflexivity.
  - cbn [forallb] in P. apply andb_true_iff in P as [Pe P].
    change (filepath.join (e :: e2 :: r)) with (e +:+ "/" +:+ filepath.join (e2 :: r)).
    rewrite !string_append_assoc.
    rewrite split_plain by (apply plainElem_noSlash; exact Pe).
    change ("/" +:+ filepath.join (e2 :: r) +:+ String "/" last)
      with (String "/" (filepath.join (e2 :: r) +:+ String "/" last)).
    cbn [filepath.split Ascii.eqb Bool.eqb]. rewrite IH; [reflexivity | discriminate | exact P].
Qed.

(** [Clean] keeps plain elements. *)
Lemma cleanElems_plain (rooted : bool) (elems rest dots kept : list string) :
  forallb plainElem elems = true ->
  filepath.cleanElems rooted (elems ++ rest) dots kept
  = filepath.cleanElems rooted rest dots (rev elems ++ kept).
Proof.
  revert kept. induction elems as [|e elems IH]; intros kept P; [reflexivity|].
  cbn [forallb] in P. apply andb_true_iff in P as [Pe P].
  unfold plainElem in Pe.
  apply andb_true_iff in Pe as [Pe _].
  apply andb_true_iff in Pe as [Pe P3].
  apply andb_true_iff in Pe as [P1 P2].
  apply negb_true_iff in P1, P2, P3.
  cbn [app filepath.cleanElems]. rewrite P1, P2, P3. cbn [orb].
  rewrite IH by exact P. cbn [rev]. rewrite <- app_assoc. reflexivity.
Qed.

Lemma join_nonempty (elems : list string) :
  forallb plainElem elems = true -> elems <> [] -> filepath.join elems <> "".
Proof.
  destruct elems as [|e [|e2 r]]; intros P N; [congruence| |].
  - cbn [forallb] in P. apply andb_true_iff in P as [Pe _].
    cbn [filepath.join]. destruct e; [discriminate Pe | discriminate].
  - cbn [forallb] in P. apply andb_true_iff in P as [Pe _].
    change (filepath.join (e :: e2 :: r)) with (e +:+ "/" +:+ filepath.join (e2 :: r)).
    destruct e; [discriminate Pe | discriminate].
Qed.

(** Joining a file name to a clean absolute directory. *)
Lemma Join_clean (elems : list string) :
  forallb plainElem elems = true ->
  filepath.Join ("/" +:+ filepath.join elems) "token.json"
  = "/" +:+ filepath.join (elems ++ ["token.json"]).
Proof.
  intros P.
  change ("/" +:+ filepath.join elems) with (String "/" (filepath.join elems)).
  unfold filepath.Join.
  change (String "/" (filepath.join elems) +:+ "/" +:+ "token.json")
    with (String "/" (filepath.join elems +:+ String "/" "token.json")).
  unfold filepath.Clean.
  change (Ascii.eqb "/" "/") with true. cbv zeta iota.
  cbn [filepath.split Ascii.eqb Bool.eqb].
  assert (filepath.cleanElems true
            ("" :: filepath.split (filepath.join elems +:+ String "/" "token.json") "") [] []
          = (elems ++ ["token.json"])%list) as ->.
  { destruct elems as [|e r].
    - reflexivity.
    - rewrite split_join by (discriminate || exact P).
      change (filepath.split "token.json" "") with ["token.json"].
      change (filepath.cleanElems true ("" :: (e :: r) ++ ["token.json"]) [] [])
        with (filepath.cleanElems true ((e :: r) ++ ["token.json"]) [] []).
      rewrite cleanElems_plain by exact P.
      rewrite app_nil_r. set (K := rev (e :: r)).
      change (filepath.cleanElems true ["token.json"] [] K)
        with (rev K ++ ["token.json"])%list.
      subst K. rewrite rev_involutive. reflexivity. }
  reflexivity.
Qed.

(** X28.  Where the token is kept.  For a home directory that is a clean
    absolute path (a separator, then plain elements with single
    separators between them), [getTokenFilePath] names the file
    "token.json" directly under it; this also holds for the root
    directory.  When the current user cannot be found it returns that
    error behind the words "failed to get current user: ". *)
Theorem getTokenFilePath_under_home (host : Host) :
  (forall elems,
     forallb plainElem elems = true ->
     user_Current host = Ok ("/" +:+ filepath.join elems) ->
     getTokenFilePath host = Ok ("/" +:+ filepath.join (elems ++ ["token.json"])))
  /\ (forall err,
        user_Current host = Err err ->
        getTokenFilePath host = Err (Wrapf "failed to get current user: " err)).
Proof.
  split.
  - intros elems P U. unfold getTokenFilePath. rewrite U.
    rewrite (Join_clean elems P). reflexivity.
  - intros err U. unfold getTokenFilePath. rewrite U. reflexivity.
Qed.

Lemma getTokenFilePath_under_home_witness :
  getTokenFilePath sampleHost = Ok ("/" +:+ filepath.join (["home"; "op"] ++ ["token.json"])).
Proof.
  apply (proj1 (getTokenFilePath_under_home sampleHost) ["home"; "op"]); reflexivity.
Defined.

(** X29.  Saving touches one file, and empties it first.  Whatever the
    outcome, [saveToken] leaves the terminal, the record of requests and
    every other file as they were.  The file is truncated before the
    token is encoded: when the encoding fails, the error comes back as
    it is and the file is left empty, whatever it held before. *)
Theorem saveToken_touches_one_file
    (json_Marshal : Token -> Result string) (path : string) (token : Token) (w : World) :
  let r := fst (saveToken json_Marshal path token w) in
  let w' := snd (saveToken json_Marshal path token w) in
  stdin w' = stdin w /\ stdout w' = stdout w /\ calls w' = calls w
  /\ denied w' = denied w
  /\ (forall other, other <> path -> files w' !! other = files w !! other)
  /\ (path ∉ denied w -> forall err, json_Marshal token = Err err ->
        r = Err err /\ files w' !! path = Some "").
Proof.
  cbv zeta. unfold saveToken. rewrite bind_run.
  unfold orWrap, os_OpenFile_trunc.
  destruct (decide (path ∈ denied w)) as [D|D].
  - cbn [fst snd]. do 5 (split; [reflexivity|]). intros N. contradiction.
  - rewrite bind_run. unfold lift.
    destruct (json_Marshal token) as [data|err].
    + unfold os_Write. cbn [fst snd stdin stdout calls files denied].
      do 4 (split; [reflexivity|]). split.
      * intros other N. rewrite !lookup_insert_ne by congruence. reflexivity.
      * intros _ err E. discriminate E.
    + cbn [fst snd stdin stdout calls files denied].
      do 4 (split; [reflexivity|]). split.
      * intros other N. rewrite lookup_insert_ne by congruence. reflexivity.
      * intros _ err' E. injection E as <-. split; [reflexivity|].
        apply lookup_insert_eq.
Qed.

Lemma saveToken_touches_one_file_witness :
  fst (saveToken (fun _ => Err (CodecError "json: unsupported value")) "/home/op/token.json"
         sampleToken
         (mkWorld [] "" [] {[ "/home/op/token.json" := "old" ]} ∅))
  = Err (CodecError "json: unsupported value")
  /\ files (snd (saveToken (fun _ => Err (CodecError "json: unsupported value"))
                   "/home/op/token.json" sampleToken
                   (mkWorld [] "" [] {[ "/home/op/token.json" := "old" ]} ∅)))
     !! "/home/op/token.json" = Some "".
Proof.
  apply (saveToken_touches_one_file (fun _ => Err (CodecError "json: unsupported value"))
           "/home/op/token.json" sampleToken
           (mkWorld [] "" [] {[ "/home/op/token.json" := "old" ]} ∅)).
  - apply not_elem_of_empty.
  - reflexivity.
Defined.

(** X30.  What is loaded is what was written.  For any JSON codec:
    after a save that could open the file and encode the token, the
    file holds the encoding and a line feed, whatever it held before,
    and a load from the same path returns what the decoder makes of
    exactly that text, leaving the world as it is.  A load from a path
    that does not exist returns the not-exist error as a value and
    changes nothing. *)
Theorem credential_store_returns_what_was_written
    (json_Marshal : Token -> Result string) (json_Decode : string -> Result Token) :
  (forall (path : string) (token : Token) (data : string)
          (inp : list string) (out : string) (cs : list Call)
          (fs : gmap string string) (dn : gset string),
      path ∉ dn ->
      json_Marshal token = Ok data ->
      exists w',
        saveToken json_Marshal path token (mkWorld inp out cs fs dn) = (Ok tt, w')
        /\ files w' !! path = Some (data +:+ nl)
        /\ tokenFromFile json_Decode path w' = (json_Decode (data +:+ nl), w'))
  /\ (forall (file : string) (w : World),
        file ∉ denied w ->
        files w !! file = None ->
        exists err,
          tokenFromFile json_Decode file w = (Err err, w) /\ isNotExist err = true).
Proof.
  split.
  - intros path token data inp out cs fs dn Hp Hm.
    eexists. split; [apply saveToken_run; eassumption|].
    split; [apply lookup_insert_eq|].
    apply (tokenFromFile_present json_Decode path (data +:+ nl)).
    + exact Hp.
    + apply lookup_insert_eq.
  - intros file w Hd Hf. eexists. split.
    + apply tokenFromFile_missing; assumption.
    + reflexivity.
Qed.

Lemma credential_store_returns_what_was_written_witness :
  (exists w',
     saveToken sampleMarshal "/home/op/token.json" sampleToken
       (mkWorld [] "" [] {[ "/home/op/token.json" := "stale" ]} ∅) = (Ok tt, w')
     /\ files w' !! "/home/op/token.json"
        = Some ((dq +:+ "ya29.a0Af" +:+ dq +:+ "," +:+ dq +:+ "Bearer" +:+ dq +:+ ","
                 +:+ dq +:+ "1//0gRefresh" +:+ dq) +:+ nl)
     /\ tokenFromFile sampleDecode "/home/op/token.json" w'
        = (sampleDecode ((dq +:+ "ya29.a0Af" +:+ dq +:+ "," +:+ dq +:+ "Bearer" +:+ dq +:+ ","
                          +:+ dq +:+ "1//0gRefresh" +:+ dq) +:+ nl), w'))
  /\ (exists err,
        tokenFromFile sampleDecode "/home/op/token.json" (terminal [])
        = (Err err, terminal [])
        /\ isNotExist err = true).
Proof.
  split.
  - apply (proj1 (credential_store_returns_what_was_written sampleMarshal sampleDecode)
             "/home/op/token.json" sampleToken
             (dq +:+ "ya29.a0Af" +:+ dq +:+ "," +:+ dq +:+ "Bearer" +:+ dq +:+ ","
              +:+ dq +:+ "1//0gRefresh" +:+ dq)).
    + apply not_elem_of_empty.
    + reflexivity.
  - apply (proj2 (credential_store_returns_what_was_written sampleMarshal sampleDecode)).
    + apply not_elem_of_empty.
    + reflexivity.
Defined.
